(** * atmo_model: deterministic soil-moisture projection and LLM post-processing

    A shallow embedding of the Python package [atmo_model]
    ([core.py], [llm_postprocessing.py], [pipeline.py]) and of the loaders
    of [scripts/predict_soil_moisture.py], together with the part of the
    Python runtime those modules call into: exceptions, floats
    (IEEE binary64, the kernel's primitive floats), [float()], [repr],
    slices, [range], [json.dumps] / [json.loads] and [re.findall].

    Modelling conventions.
    - Python [int] is [Z]; Python [float] is [PrimFloat.float] with the same
      round-to-nearest-even arithmetic.  Decimal text is converted by one
      correctly rounded division of exact integers.
    - Python [str] is [string]; the development is about ASCII text (digits,
      signs, JSON punctuation).
    - A [datetime] is the number of microseconds since 0001-01-01T00:00:00,
      a [timedelta] a number of microseconds; adding a duration to an
      instant raises [OverflowError] outside the range of [datetime].
    - Limits that belong to the interpreter and not to the package are left
      out: the recursion depth of the JSON decoder and the 4300-digit limit
      on the text of an [int].
    - A function that can raise returns [result]; the call to the external
      model is logged by the [io] monad.  *)

From Stdlib Require Import ZArith NArith List String Ascii Bool Lia.
From Stdlib Require Import DecimalString DecimalZ Floats.
From Stdlib Require Import Permutation OrderedTypeEx.
From Stdlib Require DecimalPos DecimalFacts.
Import ListNotations.

Set Implicit Arguments.
Set Warnings "-inexact-float,-register-all".

Local Open Scope string_scope.
Local Open Scope Z_scope.

(* ================================================================= *)
(** ** Python runtime: exceptions and results *)

Module Py.

(** The exceptions the modelled code can raise.  [ValueError] carries the
    exception it was raised [from], when there is one. *)
Inductive exn : Type :=
| RuntimeError (msg : string)
| ValueError (msg : string) (cause : option exn)
| TypeError (msg : string)
| OverflowError (msg : string)
| KeyError (key : string)
| IndexError (msg : string)
| ZeroDivisionError (msg : string)
| JSONDecodeError (msg : string)
| RecursionError (msg : string)
| ClientError (msg : string).

Inductive result (A : Type) : Type :=
| Ok (a : A)
| Raise (e : exn).

Arguments Ok {A} a.
Arguments Raise {A} e.

Definition bind {A B : Type} (c : result A) (k : A -> result B) : result B :=
  match c with
  | Ok a => k a
  | Raise e => Raise e
  end.

Definition is_ok {A : Type} (c : result A) : bool :=
  match c with Ok _ => true | Raise _ => false end.

(** [[f(x) for x in xs]] where [f] may raise: the first exception wins. *)
Fixpoint map_result {A B : Type} (f : A -> result B) (xs : list A) : result (list B) :=
  match xs with
  | [] => Ok []
  | x :: xs' =>
      match f x with
      | Raise e => Raise e
      | Ok y =>
          match map_result f xs' with
          | Raise e => Raise e
          | Ok ys => Ok (y :: ys)
          end
      end
  end.

End Py.

Export Py.

Declare Scope py_scope.
Delimit Scope py_scope with py.
Notation "x <- c ;; k" := (Py.bind c (fun x => k))
  (at level 61, c at next level, right associativity) : py_scope.
Local Open Scope py_scope.

(* ================================================================= *)
(** ** Text *)

Module Text.

(** The double quote, which a string literal of this file cannot hold. *)
Definition dquote : ascii := ascii_of_nat 34.
Definition dq : string := String dquote EmptyString.
Definition backslash : ascii := ascii_of_nat 92.
Definition newline : ascii := ascii_of_nat 10.
Definition nl : string := String newline EmptyString.

Definition code (c : ascii) : Z := Z.of_N (N_of_ascii c).
Definition chr (z : Z) : ascii := ascii_of_N (Z.to_N z).

Definition is_digit (c : ascii) : bool := (48 <=? code c) && (code c <=? 57).
Definition is_sign (c : ascii) : bool := Ascii.eqb c "+" || Ascii.eqb c "-".
Definition is_dot (c : ascii) : bool := Ascii.eqb c ".".

(** What [float()] strips from both ends: C's [isspace], and the two
    blanks above the ASCII range, U+0085 and U+00A0. *)
Definition is_space (c : ascii) : bool :=
  ((9 <=? code c) && (code c <=? 13)) || (code c =? 32) ||
  (code c =? 133) || (code c =? 160).

(** JSON whitespace: space, tab, line feed, carriage return. *)
Definition is_json_ws (c : ascii) : bool :=
  (code c =? 32) || (code c =? 9) || (code c =? 10) || (code c =? 13).

Definition digit_val (c : ascii) : Z := code c - 48.

Definition to_lower (c : ascii) : ascii :=
  if (65 <=? code c) && (code c <=? 90) then chr (code c + 32) else c.

Fixpoint lower (s : string) : string :=
  match s with
  | EmptyString => EmptyString
  | String c s' => String (to_lower c) (lower s')
  end.

(** The longest prefix whose characters satisfy [p], and what follows. *)
Fixpoint span (p : ascii -> bool) (s : string) : string * string :=
  match s with
  | EmptyString => (EmptyString, EmptyString)
  | String c s' =>
      if p c then let '(a, b) := span p s' in (String c a, b)
      else (EmptyString, s)
  end.

Fixpoint drop_while (p : ascii -> bool) (s : string) : string :=
  match s with
  | EmptyString => EmptyString
  | String c s' => if p c then drop_while p s' else s
  end.

Fixpoint rev_string (acc s : string) : string :=
  match s with
  | EmptyString => acc
  | String c s' => rev_string (String c acc) s'
  end.

(** [s.strip()] restricted to the characters [p] accepts. *)
Definition strip (p : ascii -> bool) (s : string) : string :=
  rev_string EmptyString
    (drop_while p (rev_string EmptyString (drop_while p s))).

(** [s.startswith(pre)], returning what follows the prefix. *)
Fixpoint strip_prefix (pre s : string) : option string :=
  match pre, s with
  | EmptyString, _ => Some s
  | String a pre', String b s' =>
      if Ascii.eqb a b then strip_prefix pre' s' else None
  | String _ _, EmptyString => None
  end.

(** The value of a run of decimal digits, most significant first. *)
Fixpoint digits_value (acc : Z) (s : string) : Z :=
  match s with
  | EmptyString => acc
  | String c s' => digits_value (10 * acc + digit_val c) s'
  end.

(** [str(n)] for an integer of at most 4300 digits; the interpreter
    refuses the conversion beyond that. *)
Definition string_of_Z (n : Z) : string := NilZero.string_of_int (Z.to_int n).

Fixpoint repeat_char (c : ascii) (n : nat) : string :=
  match n with
  | O => EmptyString
  | S n' => String c (repeat_char c n')
  end.

(** [sep.join(parts)]. *)
Definition join (sep : string) (parts : list string) : string :=
  String.concat sep parts.

(** [n] as decimal digits, zero-padded on the left to [width] characters. *)
Definition zero_pad (width : nat) (n : Z) : string :=
  let s := string_of_Z n in
  repeat_char "0" (width - String.length s) ++ s.

Definition hex_digit (n : Z) : ascii :=
  if n <? 10 then chr (48 + n) else chr (87 + n).

Definition hex_val (c : ascii) : option Z :=
  if is_digit c then Some (code c - 48)
  else if (97 <=? code c) && (code c <=? 102) then Some (code c - 87)
  else if (65 <=? code c) && (code c <=? 70) then Some (code c - 55)
  else None.

End Text.

Export Text.

(* ================================================================= *)
(** ** Floats: conversions between binary64, integers and decimal text *)

Module PyFloat.

Local Open Scope float_scope.

(** Python's [min(a, b)] and [max(a, b)] on two floats: the first argument
    is kept unless the second compares strictly below (above) it; a NaN
    second argument therefore never replaces the first. *)
Definition py_min (a b : float) : float := if b <? a then b else a.
Definition py_max (a b : float) : float := if a <? b then b else a.

(** [sum(xs)]: the accumulator starts at [0] and adds the items in order. *)
Definition py_sum (xs : list float) : float := fold_left PrimFloat.add xs 0.

(** The quotient [n / d] of two positive integers, rounded once to the
    nearest binary64 (ties to even), with sign [neg]. *)
Definition float_of_ratio (neg : bool) (n d : positive) : float :=
  SF2Prim (SFdiv prec emax (S754_finite neg n 0) (S754_finite false d 0)).

(** True division of two integers ([int / int]) for a non-zero divisor. *)
Definition float_of_Z_ratio (n : Z) (d : positive) : float :=
  match n with
  | Z0 => 0
  | Zpos p => float_of_ratio false p d
  | Zneg p => float_of_ratio true p d
  end.

(** The float nearest to the integer [n]; infinite when [n] is out of range. *)
Definition round_Z (n : Z) : float := float_of_Z_ratio n 1.

(** [float(n)] for an [int]: an integer beyond the binary64 range raises
    [OverflowError]. *)
Definition float_of_int (n : Z) : result float :=
  let f := round_Z n in
  if is_infinity f
  then Raise (OverflowError "int too large to convert to float")
  else Ok f.

(** The float nearest to [(-1)^neg * m * 10^e], for [m >= 0]. *)
Definition float_of_decimal (neg : bool) (m : Z) (e : Z) : float :=
  match m with
  | Zpos p =>
      if (0 <=? e)%Z
      then float_of_ratio neg (p * Z.to_pos (10 ^ e)) 1
      else float_of_ratio neg p (Z.to_pos (10 ^ (- e)))
  | _ => if neg then (-0) else 0
  end.

(** [digitpart ::= digit (["_"] digit)*]: the digits read (underscores
    dropped) and what follows them. *)
Fixpoint digitpart_rest (s : string) : string * string :=
  match s with
  | String c s' =>
      if is_digit c then
        let '(ds, r) := digitpart_rest s' in (String c ds, r)
      else if Ascii.eqb c "_" then
        match s' with
        | String c' _ =>
            if is_digit c' then digitpart_rest s' else (EmptyString, s)
        | EmptyString => (EmptyString, s)
        end
      else (EmptyString, s)
  | EmptyString => (EmptyString, EmptyString)
  end.

Definition digitpart (s : string) : string * string :=
  match s with
  | String c _ => if is_digit c then digitpart_rest s else (EmptyString, s)
  | EmptyString => (EmptyString, EmptyString)
  end.

(** An optional sign: whether it is a minus, and what follows. *)
Definition read_sign (s : string) : bool * string :=
  match s with
  | String c s' =>
      if Ascii.eqb c "-" then (true, s')
      else if Ascii.eqb c "+" then (false, s')
      else (false, s)
  | EmptyString => (false, s)
  end.

(** [exponent ::= ("e" | "E") [sign] digitpart]; without one the exponent
    is 0 and nothing is consumed.  [None]: an [e] with no digits after it. *)
Definition read_exponent (s : string) : option (Z * string) :=
  match s with
  | String c s' =>
      if Ascii.eqb c "e" || Ascii.eqb c "E" then
        let '(eneg, s1) := read_sign s' in
        let '(ds, r) := digitpart s1 in
        match ds with
        | EmptyString => None
        | _ => Some (if eneg then (- digits_value 0 ds)%Z else digits_value 0 ds, r)
        end
      else Some (0%Z, s)
  | EmptyString => Some (0%Z, s)
  end.

(** [floatnumber], after the sign: [[digitpart] "." digitpart | digitpart ["."]]
    then an optional exponent, up to the end of the text. *)
Definition parse_floatnumber (neg : bool) (s : string) : option float :=
  let '(ip, r1) := digitpart s in
  let '(fp, r2) :=
    match r1 with
    | String c r1' => if is_dot c then digitpart r1' else (EmptyString, r1)
    | EmptyString => (EmptyString, r1)
    end in
  match (ip ++ fp)%string with
  | EmptyString => None
  | ds =>
      match read_exponent r2 with
      | Some (e, EmptyString) =>
          Some (float_of_decimal neg (digits_value 0 ds)
                  (e - Z.of_nat (String.length fp)))
      | _ => None
      end
  end.

(** [float(s)] for a [str]: surrounding whitespace is ignored; the text is a
    signed decimal number, [inf], [infinity] or [nan] in any letter case.
    [None] stands for the [ValueError] Python raises. *)
Definition float_of_str (s : string) : option float :=
  let '(neg, body) := read_sign (strip is_space s) in
  let low := lower body in
  if String.eqb low "inf" || String.eqb low "infinity"
  then Some (if neg then neg_infinity else infinity)
  else if String.eqb low "nan" then Some nan
  else parse_floatnumber neg body.

(** *** [repr(x)]: the shortest decimal text that reads back as [x] *)

(** [v = num / den >= 10^k] *)
Definition ge_pow10 (num den : Z) (k : Z) : bool :=
  if (0 <=? k)%Z then (den * 10 ^ k <=? num)%Z else (den <=? num * 10 ^ (- k))%Z.

(** [floor (log10 (num / den))], from an estimate that is off by at most a
    few units. *)
Fixpoint adjust_log10 (fuel : nat) (num den k : Z) : Z :=
  match fuel with
  | O => k
  | S fuel' =>
      if negb (ge_pow10 num den k) then adjust_log10 fuel' num den (k - 1)
      else if ge_pow10 num den (k + 1) then adjust_log10 fuel' num den (k + 1)
      else k
  end.

Definition floor_log10 (num den : Z) : Z :=
  adjust_log10 8 num den (((Z.log2 num - Z.log2 den) * 30103) / 100000).

(** [floor (num / den / 10^q)] *)
Definition scaled_floor (num den q : Z) : Z :=
  if (0 <=? q)%Z then (num / (den * 10 ^ q))%Z else ((num * 10 ^ (- q)) / den)%Z.

(** Whether [c * 10^q] is at most as far from [num/den] as [c' * 10^q]. *)
Definition closer (num den q c c' : Z) : bool :=
  (* compare |c * 10^q - v| and |c' * 10^q - v| after clearing denominators *)
  let scale x := if (0 <=? q)%Z then (x * 10 ^ q * den)%Z else (x * den)%Z in
  let v := if (0 <=? q)%Z then num else (num * 10 ^ (- q))%Z in
  (Z.abs (scale c - v) <=? Z.abs (scale c' - v))%Z.

(** Of two neighbouring candidates, the one nearer to [num/den]; the even
    one when they are equally near. *)
Definition nearest (num den q lo hi : Z) : Z :=
  if closer num den q lo hi then
    if closer num den q hi lo then (if Z.even lo then lo else hi) else lo
  else hi.

(** The decimal digits and decimal-point position of the shortest decimal
    with [p] significant digits that rounds to [x = num / den], if any. *)
Definition shortest_at (x : float) (num den : Z) (k : Z) (p : Z) : option (Z * Z) :=
  let q := (k - p + 1)%Z in
  let lo := scaled_floor num den q in
  let hi := (lo + 1)%Z in
  let ok c := PrimFloat.eqb (float_of_decimal false c q) x in
  match ok lo, ok hi with
  | true, true => Some (nearest num den q lo hi, q)
  | true, false => Some (lo, q)
  | false, true => Some (hi, q)
  | false, false => None
  end.

Fixpoint shortest_from (fuel : nat) (x : float) (num den k p : Z) : Z * Z :=
  match fuel with
  | O => (scaled_floor num den (k - p + 1), (k - p + 1)%Z)
  | S fuel' =>
      match shortest_at x num den k p with
      | Some r => r
      | None => shortest_from fuel' x num den k (p + 1)
      end
  end.

Fixpoint strip_zeros (fuel : nat) (c q : Z) : Z * Z :=
  match fuel with
  | O => (c, q)
  | S fuel' =>
      if ((c mod 10 =? 0) && negb (c =? 0))%Z
      then strip_zeros fuel' (c / 10)%Z (q + 1)%Z
      else (c, q)
  end.

(** Layout of [repr]: digits [ds] with the decimal point [decpt] places
    after the first digit position; exponent notation when
    [decpt <= -4] or [decpt > 16]. *)
Definition layout_repr (ds : string) (decpt : Z) : string :=
  let n := Z.of_nat (String.length ds) in
  if ((-4 <? decpt) && (decpt <=? 16))%Z then
    if (decpt <=? 0)%Z then
      "0." ++ repeat_char "0" (Z.to_nat (- decpt)) ++ ds
    else if (n <=? decpt)%Z then
      ds ++ repeat_char "0" (Z.to_nat (decpt - n)) ++ ".0"
    else
      substring 0 (Z.to_nat decpt) ds ++ "." ++
      substring (Z.to_nat decpt) (Z.to_nat (n - decpt)) ds
  else
    let e := (decpt - 1)%Z in
    let mant :=
      match ds with
      | String c EmptyString => ds
      | String c rest => String c ("." ++ rest)
      | EmptyString => ds
      end in
    mant ++ "e" ++ (if (e <? 0)%Z then "-" else "+") ++ zero_pad 2 (Z.abs e).

(** [repr(x)], which is also [str(x)]. *)
Definition float_repr (x : float) : string :=
  match Prim2SF x with
  | S754_nan => "nan"
  | S754_infinity s => if s then "-inf" else "inf"
  | S754_zero s => if s then "-0.0" else "0.0"
  | S754_finite s m e =>
      let num := if (0 <=? e)%Z then (Zpos m * 2 ^ e)%Z else Zpos m in
      let den := if (0 <=? e)%Z then 1%Z else (2 ^ (- e))%Z in
      let k := floor_log10 num den in
      let '(c0, q0) := shortest_from 17 (abs x) num den k 1 in
      let '(c, q) := strip_zeros 20 c0 q0 in
      let ds := string_of_Z c in
      (if s then "-" else "") ++ layout_repr ds (Z.of_nat (String.length ds) + q)
  end.

(** *** [format(x, ".Nf")]: fixed notation with [N] decimals *)

(** [num / den] rounded to the nearest integer, ties to even. *)
Definition round_half_even (num den : Z) : Z :=
  let q := (num / den)%Z in
  let r := (num mod den)%Z in
  if (2 * r <? den)%Z then q
  else if (den <? 2 * r)%Z then (q + 1)%Z
  else if Z.even q then q else (q + 1)%Z.

Definition float_fmt (decimals : nat) (x : float) : string :=
  match Prim2SF x with
  | S754_nan => "nan"
  | S754_infinity s => if s then "-inf" else "inf"
  | sf =>
      let '(s, num, den) :=
        match sf with
        | S754_finite s m e =>
            (s, (if (0 <=? e)%Z then (Zpos m * 2 ^ e)%Z else Zpos m),
                (if (0 <=? e)%Z then 1%Z else (2 ^ (- e))%Z))
        | S754_zero s => (s, 0%Z, 1%Z)
        | _ => (false, 0%Z, 1%Z)
        end in
      let r := round_half_even (num * 10 ^ Z.of_nat decimals) den in
      let ds := zero_pad (S decimals) r in
      let n := String.length ds in
      (if s then "-" else "") ++ substring 0 (n - decimals) ds ++
      (match decimals with
       | O => ""
       | _ => "." ++ substring (n - decimals) decimals ds
       end)
  end.

End PyFloat.

Export PyFloat.

(* ================================================================= *)
(** ** Python values, dictionaries, slices and ranges *)

Module PyVal.

(** The values an external model's response, or a decoded JSON document,
    can be made of.  A [dict] keeps its keys in insertion order. *)
Inductive pyval : Type :=
| PNone
| PBool (b : bool)
| PInt (n : Z)
| PFloat (x : float)
| PStr (s : string)
| PList (items : list pyval)
| PTuple (items : list pyval)
| PDict (entries : list (string * pyval)).

(** *** Dictionaries with string keys *)

Definition dict (A : Type) : Type := list (string * A).

Fixpoint dict_get {A : Type} (d : dict A) (k : string) : option A :=
  match d with
  | [] => None
  | (k', v) :: d' => if String.eqb k' k then Some v else dict_get d' k
  end.

(** [k in d] *)
Definition dict_contains {A : Type} (d : dict A) (k : string) : bool :=
  match dict_get d k with Some _ => true | None => false end.

(** [d[k]] *)
Definition dict_getitem {A : Type} (d : dict A) (k : string) : result A :=
  match dict_get d k with
  | Some v => Ok v
  | None => Raise (KeyError k)
  end.

(** [d.get(k, default)] *)
Definition dict_get_default {A : Type} (d : dict A) (k : string) (default : A) : A :=
  match dict_get d k with Some v => v | None => default end.

(** [d[k] = v]: an existing key keeps its place, a new one goes last. *)
Fixpoint dict_set {A : Type} (d : dict A) (k : string) (v : A) : dict A :=
  match d with
  | [] => [(k, v)]
  | (k', v') :: d' =>
      if String.eqb k' k then (k', v) :: d' else (k', v') :: dict_set d' k v
  end.

(** [d.setdefault(k, v)] *)
Definition dict_setdefault {A : Type} (d : dict A) (k : string) (v : A) : dict A :=
  if dict_contains d k then d else dict_set d k v.

Definition dict_keys {A : Type} (d : dict A) : list string := map fst d.

(** *** Slices and ranges *)

(** An index of a slice over a sequence of length [n]: a negative index
    counts from the end, and the result is clamped to [[0, n]]. *)
Definition slice_index (n i : Z) : Z :=
  if i <? 0 then Z.max (i + n) 0 else Z.min i n.

(** [l[lo:hi]] *)
Definition py_slice {A : Type} (l : list A) (lo hi : Z) : list A :=
  let n := Z.of_nat (List.length l) in
  let a := slice_index n lo in
  let b := slice_index n hi in
  firstn (Z.to_nat (b - a)) (skipn (Z.to_nat a) l).

(** [l[:hi]] *)
Definition py_slice_to {A : Type} (l : list A) (hi : Z) : list A :=
  py_slice l 0 hi.

(** [l[-1]] *)
Definition py_last {A : Type} (l : list A) : result A :=
  match rev l with
  | x :: _ => Ok x
  | [] => Raise (IndexError "list index out of range")
  end.

Fixpoint range_from (start step : Z) (count : nat) : list Z :=
  match count with
  | O => []
  | S c => start :: range_from (start + step) step c
  end.

(** [len(range(start, stop, step))] for a non-zero step *)
Definition range_length (start stop step : Z) : Z :=
  if 0 <? step then
    if start <? stop then (stop - start - 1) / step + 1 else 0
  else
    if stop <? start then (start - stop - 1) / (- step) + 1 else 0.

(** [range(start, stop, step)] *)
Definition py_range3 (start stop step : Z) : result (list Z) :=
  if step =? 0 then Raise (ValueError "range() arg 3 must not be zero" None)
  else Ok (range_from start step (Z.to_nat (range_length start stop step))).

(** [range(stop)] *)
Definition py_range (stop : Z) : list Z :=
  range_from 0 1 (Z.to_nat stop).

(** *** [repr], [str] and [float] *)

Definition needs_hex_escape (c : ascii) : bool :=
  (code c <? 32) || (code c =? 127).

Definition repr_char (quote : ascii) (c : ascii) : string :=
  if Ascii.eqb c backslash then String backslash (String backslash EmptyString)
  else if Ascii.eqb c quote then String backslash (String quote EmptyString)
  else if code c =? 10 then String backslash "n"
  else if code c =? 13 then String backslash "r"
  else if code c =? 9 then String backslash "t"
  else if needs_hex_escape c then
    String backslash ("x" ++ String (hex_digit (code c / 16))
                         (String (hex_digit (code c mod 16)) EmptyString))
  else String c EmptyString.

Fixpoint contains_char (c : ascii) (s : string) : bool :=
  match s with
  | EmptyString => false
  | String c' s' => Ascii.eqb c c' || contains_char c s'
  end.

Fixpoint concat_map_chars (f : ascii -> string) (s : string) : string :=
  match s with
  | EmptyString => EmptyString
  | String c s' => f c ++ concat_map_chars f s'
  end.

(** [repr(s)] for a [str]: single quotes, unless the text holds a single
    quote and no double quote. *)
Definition repr_str (s : string) : string :=
  let quote :=
    if contains_char "'" s && negb (contains_char dquote s) then dquote else "'"%char in
  String quote (concat_map_chars (repr_char quote) s ++ String quote EmptyString).

Fixpoint py_repr (v : pyval) : string :=
  match v with
  | PNone => "None"
  | PBool b => if b then "True" else "False"
  | PInt n => string_of_Z n
  | PFloat x => float_repr x
  | PStr s => repr_str s
  | PList items => "[" ++ join ", " (map py_repr items) ++ "]"
  | PTuple items =>
      match items with
      | [x] => "(" ++ py_repr x ++ ",)"
      | _ => "(" ++ join ", " (map py_repr items) ++ ")"
      end
  | PDict entries =>
      "{" ++ join ", "
               (map (fun kv => match kv with
                               | (k, x) => repr_str k ++ ": " ++ py_repr x
                               end) entries) ++ "}"
  end.

(** [str(v)] *)
Definition py_str (v : pyval) : string :=
  match v with
  | PStr s => s
  | _ => py_repr v
  end.

(** [type(v).__name__] *)
Definition type_name (v : pyval) : string :=
  match v with
  | PNone => "NoneType"
  | PBool _ => "bool"
  | PInt _ => "int"
  | PFloat _ => "float"
  | PStr _ => "str"
  | PList _ => "list"
  | PTuple _ => "tuple"
  | PDict _ => "dict"
  end.

(** [float(v)] *)
Definition py_float (v : pyval) : result float :=
  match v with
  | PFloat x => Ok x
  | PInt n => float_of_int n
  | PBool b => Ok (if b then 1%float else 0%float)
  | PStr s =>
      match float_of_str s with
      | Some x => Ok x
      | None =>
          Raise (ValueError ("could not convert string to float: " ++ repr_str s) None)
      end
  | _ =>
      Raise (TypeError ("float() argument must be a string or a real number, not '"
                          ++ type_name v ++ "'"))
  end.

(** [isinstance(v, Iterable)] *)
Definition is_iterable (v : pyval) : bool :=
  match v with
  | PStr _ | PList _ | PTuple _ | PDict _ => true
  | _ => false
  end.

Fixpoint chars_of (s : string) : list pyval :=
  match s with
  | EmptyString => []
  | String c s' => PStr (String c EmptyString) :: chars_of s'
  end.

(** What [for value in v] goes through: the items of a list or tuple, the
    keys of a dict, the characters of a string. *)
Definition py_iter (v : pyval) : list pyval :=
  match v with
  | PList items | PTuple items => items
  | PDict entries => map (fun kv => PStr (fst kv)) entries
  | PStr s => chars_of s
  | _ => []
  end.

End PyVal.

Export PyVal.

(* ================================================================= *)
(** ** [json.dumps] and [json.loads] *)

Module Json.

(** *** Encoding *)

Definition hex4 (n : Z) : string :=
  String (hex_digit (n / 4096 mod 16))
    (String (hex_digit (n / 256 mod 16))
       (String (hex_digit (n / 16 mod 16))
          (String (hex_digit (n mod 16)) EmptyString))).

(** One character of a string, escaped as [ensure_ascii=True] does. *)
Definition escape_char (c : ascii) : string :=
  if Ascii.eqb c dquote then String backslash dq
  else if Ascii.eqb c backslash then String backslash (String backslash EmptyString)
  else if code c =? 10 then String backslash "n"
  else if code c =? 13 then String backslash "r"
  else if code c =? 9 then String backslash "t"
  else if code c =? 8 then String backslash "b"
  else if code c =? 12 then String backslash "f"
  else if (code c <? 32) || (126 <? code c) then String backslash ("u" ++ hex4 (code c))
  else String c EmptyString.

Definition encode_str (s : string) : string :=
  dq ++ concat_map_chars escape_char s ++ dq.

(** How the encoder writes a float: [NaN] and the infinities by name,
    everything else by [repr]. *)
Definition floatstr (x : float) : string :=
  if PrimFloat.is_nan x then "NaN"
  else if PrimFloat.eqb x infinity then "Infinity"
  else if PrimFloat.eqb x neg_infinity then "-Infinity"
  else float_repr x.

(** [json.dumps(v)] with the default separators. *)
Fixpoint json_dumps (v : pyval) : string :=
  match v with
  | PNone => "null"
  | PBool b => if b then "true" else "false"
  | PInt n => string_of_Z n
  | PFloat x => floatstr x
  | PStr s => encode_str s
  | PList items | PTuple items => "[" ++ join ", " (map json_dumps items) ++ "]"
  | PDict entries =>
      "{" ++ join ", "
               (map (fun kv => match kv with
                               | (k, x) => encode_str k ++ ": " ++ json_dumps x
                               end) entries) ++ "}"
  end.

(** *** Decoding *)

Definition skip_ws (s : string) : string := drop_while is_json_ws s.

Definition decode_error {A : Type} (msg : string) : result A :=
  Raise (JSONDecodeError msg).

(** The character a one-letter escape stands for. *)
Definition unescape (e : ascii) : option ascii :=
  if Ascii.eqb e dquote then Some dquote
  else if Ascii.eqb e backslash then Some backslash
  else if Ascii.eqb e "/" then Some "/"%char
  else if Ascii.eqb e "b" then Some (chr 8)
  else if Ascii.eqb e "f" then Some (chr 12)
  else if Ascii.eqb e "n" then Some (chr 10)
  else if Ascii.eqb e "r" then Some (chr 13)
  else if Ascii.eqb e "t" then Some (chr 9)
  else None.

Definition hex4_val (a b c d : ascii) : option Z :=
  match hex_val a, hex_val b, hex_val c, hex_val d with
  | Some x, Some y, Some z, Some w => Some (((x * 16 + y) * 16 + z) * 16 + w)
  | _, _, _, _ => None
  end.

(** A code point as text: itself below 256, its UTF-8 bytes above (text
    outside the modelled alphabet). *)
Definition string_of_codepoint (cp : Z) : string :=
  if cp <? 256 then String (chr cp) EmptyString
  else if cp <? 2048 then
    String (chr (192 + cp / 64)) (String (chr (128 + cp mod 64)) EmptyString)
  else if cp <? 65536 then
    String (chr (224 + cp / 4096))
      (String (chr (128 + cp / 64 mod 64))
         (String (chr (128 + cp mod 64)) EmptyString))
  else
    String (chr (240 + cp / 262144))
      (String (chr (128 + cp / 4096 mod 64))
         (String (chr (128 + cp / 64 mod 64))
            (String (chr (128 + cp mod 64)) EmptyString))).

(** The low surrogate of a pair, when the text goes on with one. *)
Definition low_surrogate (s : string) : option (Z * string) :=
  match s with
  | String b (String u (String h1 (String h2 (String h3 (String h4 r))))) =>
      if Ascii.eqb b backslash && Ascii.eqb u "u" then
        match hex4_val h1 h2 h3 h4 with
        | Some lo => if (56320 <=? lo) && (lo <=? 57343) then Some (lo, r) else None
        | None => None
        end
      else None
  | _ => None
  end.

(** The string that starts after an opening quote: its content and the text
    after the closing quote (strict mode: no raw control character). *)
Fixpoint scanstring (s : string) : result (string * string) :=
  match s with
  | EmptyString => decode_error "Unterminated string starting at"
  | String c s' =>
      if Ascii.eqb c dquote then Ok (EmptyString, s')
      else if Ascii.eqb c backslash then
        match s' with
        | EmptyString => decode_error "Unterminated string starting at"
        | String e s'' =>
            if Ascii.eqb e "u" then
              match s'' with
              | String h1 (String h2 (String h3 (String h4 r))) =>
                  match hex4_val h1 h2 h3 h4 with
                  | None => decode_error "Invalid \uXXXX escape"
                  | Some hi =>
                      match
                        (if (55296 <=? hi) && (hi <=? 56319) then low_surrogate r else None)
                      with
                      | Some (lo, _) =>
                          (* a surrogate pair: six more characters are consumed *)
                          match r with
                          | String _ (String _ (String _ (String _ (String _ (String _ r'))))) =>
                              match scanstring r' with
                              | Ok (t, rest) =>
                                  Ok (string_of_codepoint
                                        (65536 + (hi - 55296) * 1024 + (lo - 56320)) ++ t,
                                      rest)
                              | Raise e => Raise e
                              end
                          | _ => decode_error "Invalid \uXXXX escape"
                          end
                      | None =>
                          match scanstring r with
                          | Ok (t, rest) => Ok (string_of_codepoint hi ++ t, rest)
                          | Raise e => Raise e
                          end
                      end
                  end
              | _ => decode_error "Invalid \uXXXX escape"
              end
            else
              match unescape e with
              | None => decode_error "Invalid \escape"
              | Some ch =>
                  match scanstring s'' with
                  | Ok (t, rest) => Ok (String ch t, rest)
                  | Raise e => Raise e
                  end
              end
        end
      else if code c <? 32 then decode_error "Invalid control character at"
      else
        match scanstring s' with
        | Ok (t, rest) => Ok (String c t, rest)
        | Raise e => Raise e
        end
  end.

(** The integer part of a number: [0] alone, or a non-zero digit and the
    digits after it. *)
Definition scan_int_part (s : string) : option (string * string) :=
  match s with
  | String c s' =>
      if Ascii.eqb c "0" then Some ("0", s')
      else if is_digit c then Some (span is_digit s)
      else None
  | EmptyString => None
  end.

(** [(\.\d+)?] *)
Definition scan_frac (s : string) : string * string :=
  match s with
  | String c s' =>
      if is_dot c then
        match span is_digit s' with
        | (EmptyString, _) => (EmptyString, s)
        | (ds, r) => (String c ds, r)
        end
      else (EmptyString, s)
  | EmptyString => (EmptyString, s)
  end.

(** [([eE][-+]?\d+)?] *)
Definition scan_exp (s : string) : string * string :=
  match s with
  | String c s' =>
      if Ascii.eqb c "e" || Ascii.eqb c "E" then
        let '(sg, s1) :=
          match s' with
          | String c' s'' =>
              if is_sign c' then (String c' EmptyString, s'') else (EmptyString, s')
          | EmptyString => (EmptyString, s')
          end in
        match span is_digit s1 with
        | (EmptyString, _) => (EmptyString, s)
        | (ds, r) => (String c (sg ++ ds), r)
        end
      else (EmptyString, s)
  | EmptyString => (EmptyString, s)
  end.

(** A number at the head of the text, as the scanner's number pattern reads
    it (an optional minus, the integer part, an optional fraction, an
    optional exponent): an [int] when it has neither fraction nor exponent,
    else [float] of the matched text. *)
Definition scan_number (s : string) : option (pyval * string) :=
  let '(neg, s1) :=
    match s with
    | String c s' => if Ascii.eqb c "-" then (true, s') else (false, s)
    | EmptyString => (false, s)
    end in
  match scan_int_part s1 with
  | None => None
  | Some (ip, r1) =>
      let '(fp, r2) := scan_frac r1 in
      let '(ep, r3) := scan_exp r2 in
      match (fp ++ ep)%string with
      | EmptyString =>
          Some (PInt (if neg then - digits_value 0 ip else digits_value 0 ip), r3)
      | _ =>
          match float_of_str ((if neg then "-" else "") ++ ip ++ fp ++ ep) with
          | Some x => Some (PFloat x, r3)
          | None => None
          end
      end
  end.

(** The constants and numbers [scan_once] reads after strings, objects and
    arrays have been ruled out, in the scanner's order. *)
Definition scan_atom (s : string) : result (pyval * string) :=
  match strip_prefix "null" s with
  | Some r => Ok (PNone, r)
  | None =>
  match strip_prefix "true" s with
  | Some r => Ok (PBool true, r)
  | None =>
  match strip_prefix "false" s with
  | Some r => Ok (PBool false, r)
  | None =>
  match scan_number s with
  | Some vr => Ok vr
  | None =>
  match strip_prefix "NaN" s with
  | Some r => Ok (PFloat nan, r)
  | None =>
  match strip_prefix "Infinity" s with
  | Some r => Ok (PFloat infinity, r)
  | None =>
  match strip_prefix "-Infinity" s with
  | Some r => Ok (PFloat neg_infinity, r)
  | None => decode_error "Expecting value"
  end end end end end end end.

Definition out_of_fuel {A : Type} : result A :=
  Raise (RecursionError "maximum recursion depth exceeded").

(** [scan_once]: the value at the head of the text and the text after it.
    [array_items] reads the items of an array after its opening bracket (or
    after a comma), [object_items] the members of an object from just after
    the opening quote of a key.  The fuel bounds the number of nested
    calls; [json_loads] gives enough of it (see [scan_once_fuel]). *)
Fixpoint scan_once (fuel : nat) (s : string) {struct fuel} : result (pyval * string) :=
  match fuel with
  | O => out_of_fuel
  | S fuel' =>
      match s with
      | EmptyString => decode_error "Expecting value"
      | String c s' =>
          if Ascii.eqb c dquote then
            match scanstring s' with
            | Ok (t, r) => Ok (PStr t, r)
            | Raise e => Raise e
            end
          else if Ascii.eqb c "{" then
            match skip_ws s' with
            | String c1 r1 =>
                if Ascii.eqb c1 "}" then Ok (PDict [], r1)
                else if Ascii.eqb c1 dquote then object_items fuel' r1 []
                else decode_error "Expecting property name enclosed in double quotes"
            | EmptyString =>
                decode_error "Expecting property name enclosed in double quotes"
            end
          else if Ascii.eqb c "[" then
            match skip_ws s' with
            | String c1 r1 =>
                if Ascii.eqb c1 "]" then Ok (PList [], r1)
                else array_items fuel' (String c1 r1) []
            | EmptyString => decode_error "Expecting value"
            end
          else scan_atom s
      end
  end
with array_items (fuel : nat) (s : string) (acc : list pyval) {struct fuel}
  : result (pyval * string) :=
  match fuel with
  | O => out_of_fuel
  | S fuel' =>
      match scan_once fuel' s with
      | Raise e => Raise e
      | Ok (v, r) =>
          match skip_ws r with
          | String c r1 =>
              if Ascii.eqb c "]" then Ok (PList (rev (v :: acc)), r1)
              else if Ascii.eqb c "," then array_items fuel' (skip_ws r1) (v :: acc)
              else decode_error "Expecting ',' delimiter"
          | EmptyString => decode_error "Expecting ',' delimiter"
          end
      end
  end
with object_items (fuel : nat) (s : string) (acc : dict pyval) {struct fuel}
  : result (pyval * string) :=
  match fuel with
  | O => out_of_fuel
  | S fuel' =>
      match scanstring s with
      | Raise e => Raise e
      | Ok (k, r) =>
          match skip_ws r with
          | String c r1 =>
              if Ascii.eqb c ":" then
                match scan_once fuel' (skip_ws r1) with
                | Raise e => Raise e
                | Ok (v, r2) =>
                    match skip_ws r2 with
                    | String c2 r3 =>
                        if Ascii.eqb c2 "}" then Ok (PDict (dict_set acc k v), r3)
                        else if Ascii.eqb c2 "," then
                          match skip_ws r3 with
                          | String c3 r4 =>
                              if Ascii.eqb c3 dquote
                              then object_items fuel' r4 (dict_set acc k v)
                              else decode_error
                                     "Expecting property name enclosed in double quotes"
                          | EmptyString =>
                              decode_error
                                "Expecting property name enclosed in double quotes"
                          end
                        else decode_error "Expecting ',' delimiter"
                    | EmptyString => decode_error "Expecting ',' delimiter"
                    end
                end
              else decode_error "Expecting ':' delimiter"
          | EmptyString => decode_error "Expecting ':' delimiter"
          end
      end
  end.

Definition loads_fuel (s : string) : nat := 2 * String.length s + 1.

(** [json.loads(s)]: one value, with nothing but whitespace around it.
    The fuel is enough for every text; the exceptions the interpreter
    raises at its own limits (the nesting depth of arrays and objects, the
    4300 digits of an integer) are not modelled. *)
Definition json_loads (s : string) : result pyval :=
  let s0 := skip_ws s in
  match scan_once (loads_fuel s0) s0 with
  | Raise e => Raise e
  | Ok (v, r) =>
      match skip_ws r with
      | EmptyString => Ok v
      | String _ _ => decode_error "Extra data"
      end
  end.

End Json.

Export Json.

(* ================================================================= *)
(** ** [re.findall] for patterns made of quantified character classes *)

Module Re.

(** One element of a pattern: a character class taken once, at most once
    ([?]), any number of times ([*]) or at least once ([+]); quantifiers
    are greedy. *)
Inductive item : Type :=
| One (p : ascii -> bool)
| Opt (p : ascii -> bool)
| Star (p : ascii -> bool)
| Plus (p : ascii -> bool).

Definition pattern : Type := list item.

(** A greedy repetition of the class [p] followed by the continuation [k]:
    the longest run is tried first, then shorter ones (backtracking). *)
Fixpoint star_then (k : string -> option string) (p : ascii -> bool) (s : string)
  : option string :=
  match s with
  | String c s' =>
      if p c then
        match star_then k p s' with
        | Some r => Some r
        | None => k s
        end
      else k s
  | EmptyString => k s
  end.

(** A match of the pattern at the head of the text: what is left after it. *)
Fixpoint match_here (pat : pattern) (s : string) : option string :=
  match pat with
  | [] => Some s
  | One p :: pat' =>
      match s with
      | String c s' => if p c then match_here pat' s' else None
      | EmptyString => None
      end
  | Opt p :: pat' =>
      match
        match s with
        | String c s' => if p c then match_here pat' s' else None
        | EmptyString => None
        end
      with
      | Some r => Some r
      | None => match_here pat' s
      end
  | Star p :: pat' => star_then (match_here pat') p s
  | Plus p :: pat' =>
      match s with
      | String c s' => if p c then star_then (match_here pat') p s' else None
      | EmptyString => None
      end
  end.

(** The first [n] characters of the text. *)
Fixpoint take (n : nat) (s : string) : string :=
  match n, s with
  | S n', String c s' => String c (take n' s')
  | _, _ => EmptyString
  end.

(** The text matched at the head of [s], if the pattern matches there. *)
Definition match_text (pat : pattern) (s : string) : option string :=
  match match_here pat s with
  | Some r => Some (take (String.length s - String.length r) s)
  | None => None
  end.

(** The scan of [findall]: [skip] characters still belong to the last
    match; otherwise a match is looked for at the current position, and the
    search goes on after it (one character further when nothing, or the
    empty text, matched). *)
Fixpoint findall_scan (pat : pattern) (skip : nat) (s : string) : list string :=
  match s with
  | EmptyString =>
      match skip, match_text pat EmptyString with
      | O, Some m => [m]
      | _, _ => []
      end
  | String c s' =>
      match skip with
      | S k => findall_scan pat k s'
      | O =>
          match match_text pat s with
          | Some m => m :: findall_scan pat (String.length m - 1) s'
          | None => findall_scan pat 0 s'
          end
      end
  end.

(** [re.findall(pat, s)]: the non-overlapping matches, left to right. *)
Definition findall (pat : pattern) (s : string) : list string :=
  findall_scan pat 0 s.

End Re.

(* ================================================================= *)
(** ** [datetime] and [timedelta] *)

Module Datetime.

(** Microseconds since 0001-01-01T00:00:00 ([datetime.min]), and a duration
    in microseconds. *)
Definition datetime : Type := Z.
Definition timedelta : Type := Z.

Definition us_per_second : Z := 1000000.
Definition us_per_hour : Z := 3600 * us_per_second.
Definition us_per_day : Z := 24 * us_per_hour.

(** [dt.timedelta(hours=n)] *)
Definition hours (n : Z) : timedelta := n * us_per_hour.

(** [datetime.max], 9999-12-31T23:59:59.999999: the last microsecond of the
    3652059 days a [datetime] can tell apart. *)
Definition max_datetime : Z := 3652059 * us_per_day - 1.

(** Whether a number of microseconds is an instant a [datetime] can hold. *)
Definition in_range (t : Z) : bool := (0 <=? t) && (t <=? max_datetime).

(** [t + d]: a sum before [datetime.min] or after [datetime.max] raises. *)
Definition datetime_add (t : datetime) (d : timedelta) : result datetime :=
  if in_range (t + d) then Ok (t + d)
  else Raise (OverflowError "date value out of range").

(** [d.total_seconds()]: the true division of the microseconds by 10^6. *)
Definition total_seconds (d : timedelta) : float :=
  float_of_Z_ratio d 1000000.

(** Days from 0001-01-01 to the civil date [y-m-d] (proleptic Gregorian). *)
Definition days_from_civil (y m d : Z) : Z :=
  let y' := if m <=? 2 then y - 1 else y in
  let era := y' / 400 in
  let yoe := y' - era * 400 in
  let mp := (m + 9) mod 12 in
  let doy := (153 * mp + 2) / 5 + d - 1 in
  let doe := yoe * 365 + yoe / 4 - yoe / 100 + doy in
  era * 146097 + doe - 306.

(** [dt.datetime(y, m, d, hh, mm, ss)] *)
Definition make (y m d hh mm ss : Z) : datetime :=
  days_from_civil y m d * us_per_day + (hh * 3600 + mm * 60 + ss) * us_per_second.

(** The civil date of a day number. *)
Definition civil_from_days (days : Z) : Z * Z * Z :=
  let z := days + 306 in
  let era := z / 146097 in
  let doe := z mod 146097 in
  let yoe := (doe - doe / 1460 + doe / 36524 - doe / 146096) / 365 in
  let doy := doe - (365 * yoe + yoe / 4 - yoe / 100) in
  let mp := (5 * doy + 2) / 153 in
  let d := doy - (153 * mp + 2) / 5 + 1 in
  let m := if mp <? 10 then mp + 3 else mp - 9 in
  let y := yoe + era * 400 + (if m <=? 2 then 1 else 0) in
  (y, m, d).

(** [t.isoformat()] *)
Definition isoformat (t : datetime) : string :=
  let '(y, m, d) := civil_from_days (t / us_per_day) in
  let r := t mod us_per_day in
  let us := r mod us_per_second in
  let secs := r / us_per_second in
  zero_pad 4 y ++ "-" ++ zero_pad 2 m ++ "-" ++ zero_pad 2 d ++ "T" ++
  zero_pad 2 (secs / 3600) ++ ":" ++ zero_pad 2 (secs / 60 mod 60) ++ ":" ++
  zero_pad 2 (secs mod 60) ++
  (if us =? 0 then "" else "." ++ zero_pad 6 us).

End Datetime.

(* ================================================================= *)
(** ** The call log of the external model *)

Module IO.

(** A computation that may call the external model: it is given the
    prompts sent so far and returns its outcome with the prompts sent up to
    its end.  An exception ends the computation; the log stays. *)
Definition io (A : Type) : Type := list string -> result A * list string.

Definition ret {A : Type} (a : A) : io A := fun log => (Ok a, log).

Definition lift {A : Type} (c : result A) : io A := fun log => (c, log).

Definition io_bind {A B : Type} (c : io A) (k : A -> io B) : io B :=
  fun log =>
    match c log with
    | (Ok a, log') => k a log'
    | (Raise e, log') => (Raise e, log')
    end.

(** Run from an empty log. *)
Definition run {A : Type} (c : io A) : result A * list string := c [].

End IO.

Export IO.

Declare Scope io_scope.
Delimit Scope io_scope with io.
Notation "x <<- c ;; k" := (IO.io_bind c (fun x => k))
  (at level 61, c at next level, right associativity) : io_scope.

(* ================================================================= *)
(** ** core.py *)

Module Core.

Import Datetime.

(** [l[i]] *)
Definition py_index {A : Type} (l : list A) (i : Z) : result A :=
  let n := Z.of_nat (List.length l) in
  let j := if i <? 0 then i + n else i in
  if (j <? 0) || (n <=? j) then Raise (IndexError "list index out of range")
  else
    match nth_error l (Z.to_nat j) with
    | Some x => Ok x
    | None => Raise (IndexError "list index out of range")
    end.

(** [x / n] for a float [x] and an integer [n] that counts the items of a
    sequence ([len] is far below the range of a float, so the conversion of
    [n] cannot overflow). *)
Definition float_div_len (x : float) (n : Z) : result float :=
  if n =? 0 then Raise (ZeroDivisionError "float division by zero")
  else Ok (x / round_Z n)%float.

Record AtmosphericState : Type := mkAtmosphericState {
  timestamp : datetime;
  temperature_c : float;
  relative_humidity : float;
  precipitation_mm : float;
  soil_moisture : float
}.

Record SoilMoistureForecast : Type := mkSoilMoistureForecast {
  issued_at : datetime;
  horizon_hours : Z;
  values : list float;
  metadata : dict pyval
}.

(** The body of the loop of [to_daily_averages] over the remaining days. *)
Fixpoint daily_loop (vals : list float) (hours_per_day : Z) (days : list Z)
  : result (list float) :=
  match days with
  | [] => Ok []
  | day :: days' =>
      match py_slice vals day (day + hours_per_day) with
      | [] => Ok []                                   (* break *)
      | chunk =>
          avg <- float_div_len (py_sum chunk) (Z.of_nat (List.length chunk)) ;;
          rest <- daily_loop vals hours_per_day days' ;;
          Ok (avg :: rest)
      end
  end.

(** [SoilMoistureForecast.to_daily_averages] *)
Definition to_daily_averages (self : SoilMoistureForecast) (hours_per_day : Z)
  : result (list float) :=
  days <- py_range3 0 (horizon_hours self) hours_per_day ;;
  daily_loop (values self) hours_per_day days.

Record DeterministicAtmosphericModel : Type := mkDeterministicAtmosphericModel {
  evaporation_rate : float;
  percolation_rate : float
}.

(** [DeterministicAtmosphericModel()] *)
Definition default_model : DeterministicAtmosphericModel :=
  {| evaporation_rate := 0.015; percolation_rate := 0.01 |}.

(** [evolve_state(state, weather, step, model)] *)
Definition evolve_state (state : AtmosphericState) (weather : dict float)
    (step : timedelta) (model : DeterministicAtmosphericModel)
  : result AtmosphericState :=
  let hours := (total_seconds step / 3600)%float in
  temperature <- dict_getitem weather "temperature_c" ;;
  humidity <- dict_getitem weather "relative_humidity" ;;
  precipitation <- dict_getitem weather "precipitation_mm" ;;
  let evapotranspiration :=
    ((1 - humidity / 100) * evaporation_rate model * hours)%float in
  let infiltration := (precipitation * percolation_rate model * hours)%float in
  let new_soil_moisture :=
    (soil_moisture state + infiltration - evapotranspiration)%float in
  let new_soil_moisture := py_max 0 (py_min 1 new_soil_moisture) in
  new_timestamp <- datetime_add (timestamp state) step ;;
  Ok {| timestamp := new_timestamp;
        temperature_c := temperature;
        relative_humidity := humidity;
        precipitation_mm := precipitation;
        soil_moisture := new_soil_moisture |}.

(** The loop of [predict] over the remaining hours. *)
Fixpoint predict_loop (self : DeterministicAtmosphericModel)
    (weather_inputs : list (dict float)) (hours_left : list Z)
    (current_state : AtmosphericState) : result (list AtmosphericState) :=
  match hours_left with
  | [] => Ok []
  | hour :: hours' =>
      weather <- py_index weather_inputs hour ;;
      next <- evolve_state current_state weather (hours 1) self ;;
      rest <- predict_loop self weather_inputs hours' next ;;
      Ok (next :: rest)
  end.

(** [DeterministicAtmosphericModel.predict] *)
Definition predict (self : DeterministicAtmosphericModel)
    (initial_state : AtmosphericState) (weather_inputs : list (dict float))
    (hours_ahead : Z) : result (list AtmosphericState) :=
  predict_loop self weather_inputs
    (py_range (Z.min hours_ahead (Z.of_nat (List.length weather_inputs))))
    initial_state.

(** The abstract interface [AtmosphericModel]. *)
Class AtmosphericModel (M : Type) : Type := {
  model_predict :
    M -> AtmosphericState -> list (dict float) -> Z -> result (list AtmosphericState)
}.

#[export] Instance deterministic_is_model : AtmosphericModel DeterministicAtmosphericModel :=
  {| model_predict := predict |}.

(** One entry of [load_numerical_weather_outputs]. *)
Definition normalise_entry (index : Z) (entry : dict pyval) : result (dict float) :=
  temperature <- py_float (dict_get_default entry "temperature_c" (PFloat 0)) ;;
  humidity <- py_float (dict_get_default entry "relative_humidity" (PFloat 0)) ;;
  precipitation <- py_float (dict_get_default entry "precipitation_mm" (PFloat 0)) ;;
  hour_index <- py_float (dict_get_default entry "hour_index" (PInt index)) ;;
  Ok [("temperature_c", temperature);
      ("relative_humidity", humidity);
      ("precipitation_mm", precipitation);
      ("hour_index", hour_index)].

Fixpoint normalise_from (index : Z) (raw : list (dict pyval))
  : result (list (dict float)) :=
  match raw with
  | [] => Ok []
  | entry :: raw' =>
      rec <- normalise_entry index entry ;;
      rest <- normalise_from (index + 1) raw' ;;
      Ok (rec :: rest)
  end.

(** [load_numerical_weather_outputs(raw_weather_data)] *)
Definition load_numerical_weather_outputs (raw_weather_data : list (dict pyval))
  : result (list (dict float)) :=
  normalise_from 0 raw_weather_data.

(** [export_soil_moisture_features(states)] *)
Definition export_soil_moisture_features (states : list AtmosphericState)
  : result (dict float) :=
  match states with
  | [] =>
      Ok [("mean_temperature", 0%float);
          ("mean_humidity", 0%float);
          ("total_precipitation", 0%float);
          ("final_soil_moisture", 0%float)]
  | _ =>
      let n := Z.of_nat (List.length states) in
      mean_temperature <- float_div_len (py_sum (map temperature_c states)) n ;;
      mean_humidity <- float_div_len (py_sum (map relative_humidity states)) n ;;
      let total_precipitation := py_sum (map precipitation_mm states) in
      last_state <- py_last states ;;
      let final_soil_moisture := soil_moisture last_state in
      Ok [("mean_temperature", mean_temperature);
          ("mean_humidity", mean_humidity);
          ("total_precipitation", total_precipitation);
          ("final_soil_moisture", final_soil_moisture)]
  end.

End Core.

(* ================================================================= *)
(** ** llm_postprocessing.py *)

Module LLM.

Import Datetime Core.

(** [LLMClient = Callable[[str], Any]]: the external model, which may
    raise. *)
Definition LLMClient : Type := string -> result pyval.

Record LLMPostProcessor : Type := mkLLMPostProcessor {
  client : option LLMClient;
  horizon_hours : Z
}.

(** [LLMPostProcessor()] *)
Definition default_post_processor : LLMPostProcessor :=
  {| client := None; horizon_hours := 72 |}.

(** [sorted(items)] for pairs with distinct names: a stable insertion sort
    on the names. *)
Fixpoint insert_sorted {A : Type} (kv : string * A) (l : list (string * A))
  : list (string * A) :=
  match l with
  | [] => [kv]
  | kv' :: l' =>
      if String.ltb (fst kv) (fst kv') then kv :: l else kv' :: insert_sorted kv l'
  end.

Definition sorted_items {A : Type} (d : dict A) : list (string * A) :=
  fold_left (fun acc kv => insert_sorted kv acc) d [].

Definition state_line (state : AtmosphericState) : string :=
  isoformat (timestamp state) ++ " | T=" ++ float_fmt 1 (temperature_c state) ++ "C | " ++
  "RH=" ++ float_fmt 1 (relative_humidity state) ++ "% | P=" ++
  float_fmt 2 (precipitation_mm state) ++ "mm | " ++
  "SM=" ++ float_fmt 3 (soil_moisture state).

Definition feature_line (kv : string * float) : string :=
  "- " ++ fst kv ++ ": " ++ float_fmt 3 (snd kv).

(** [LLMPostProcessor.build_prompt] *)
Definition build_prompt (self : LLMPostProcessor) (initial_state : AtmosphericState)
    (projected_states : list AtmosphericState) (features : dict float) : string :=
  let state_lines := map state_line projected_states in
  let feature_lines := join nl (map feature_line (sorted_items features)) in
  "You are an expert hydrologist. Based on the projected atmospheric " ++
  "states, estimate the soil moisture for the next 72 hours in hourly " ++
  "increments. Return the results as a JSON object with the key " ++
  "'soil_moisture' containing a list of 72 decimal numbers between 0 and 1." ++ nl ++
  "Initial state: " ++
  "T=" ++ float_fmt 1 (temperature_c initial_state) ++ "C, RH=" ++
  float_fmt 1 (relative_humidity initial_state) ++ "%, " ++
  "P=" ++ float_fmt 2 (precipitation_mm initial_state) ++ "mm, SM=" ++
  float_fmt 3 (soil_moisture initial_state) ++ "." ++ nl ++
  "Projected states (hourly):" ++ nl ++
  join nl state_lines ++
  nl ++ "Key summary features:" ++ nl ++
  feature_lines.

(** [LLMPostProcessor._call_client]: the one place the external model is
    called; the prompt sent is logged. *)
Definition _call_client (self : LLMPostProcessor) (prompt : string) : io pyval :=
  fun log =>
    match client self with
    | None => (Raise (RuntimeError "No LLM client configured for post-processing"), log)
    | Some call => (call prompt, (log ++ [prompt])%list)
    end.

(** [LLMPostProcessor._coerce_response_text] *)
Fixpoint _coerce_response_text (response : pyval) : string :=
  match response with
  | PStr s => s
  | PDict _ => json_dumps response
  | PList (first :: _) => _coerce_response_text first
  | PTuple (first :: _) => _coerce_response_text first
  | _ => py_str response
  end.

(** The pattern [[-+]?[0-9]*\.?[0-9]+] of the fallback. *)
Definition number_pattern : Re.pattern :=
  [Re.Opt is_sign; Re.Star is_digit; Re.Opt is_dot; Re.Plus is_digit].

(** The body of the loop over the candidate series: [float(value)], with a
    [TypeError] or [ValueError] turned into the parser's [ValueError]. *)
Definition coerce_value (value : pyval) : result float :=
  match py_float value with
  | Ok x => Ok x
  | Raise (TypeError msg) =>
      Raise (ValueError "Invalid soil moisture value in LLM response"
               (Some (TypeError msg)))
  | Raise (ValueError msg cause) =>
      Raise (ValueError "Invalid soil moisture value in LLM response"
               (Some (ValueError msg cause)))
  | Raise e => Raise e
  end.

(** The candidate series of the structured tier. *)
Definition candidate_values (data : pyval) : pyval :=
  match data with
  | PDict entries =>
      match dict_get entries "soil_moisture" with
      | Some v => v
      | None => data
      end
  | _ => data
  end.

(** [LLMPostProcessor.parse_response] *)
Definition parse_response (self : LLMPostProcessor) (response : pyval)
  : result (list float) :=
  let text := _coerce_response_text response in
  match json_loads text with
  | Raise (JSONDecodeError _) =>
      numbers <- map_result (fun value => py_float (PStr value))
                   (Re.findall number_pattern text) ;;
      Ok (py_slice_to numbers (horizon_hours self))
  | Raise e => Raise e
  | Ok data =>
      let vals := candidate_values data in
      if negb (is_iterable vals) then
        Raise (ValueError "LLM response does not contain an iterable of values" None)
      else
        res <- map_result coerce_value (py_iter vals) ;;
        Ok (py_slice_to res (horizon_hours self))
  end.

Local Open Scope io_scope.

(** [LLMPostProcessor.postprocess] *)
Definition postprocess (self : LLMPostProcessor) (initial_state : AtmosphericState)
    (projected_states : list AtmosphericState) (features : dict float)
  : io SoilMoistureForecast :=
  let prompt := build_prompt self initial_state projected_states features in
  response <<- _call_client self prompt ;;
  vals <<- lift (parse_response self response) ;;
  ret {| issued_at :=
           match projected_states with
           | first :: _ => timestamp first
           | [] => timestamp initial_state
           end;
         Core.horizon_hours := horizon_hours self;
         values := vals;
         metadata := [("prompt", PStr prompt)] |}.

End LLM.

(* ================================================================= *)
(** ** pipeline.py *)

Module Pipeline.

Import Datetime Core LLM.

Local Open Scope io_scope.

(** [while len(extended) < hours_ahead: extended.append(last_value)] *)
Fixpoint extend_loop (fuel : nat) (extended : list float) (last_value : float)
    (hours_ahead : Z) : list float :=
  match fuel with
  | O => extended
  | S fuel' =>
      if Z.of_nat (List.length extended) <? hours_ahead
      then extend_loop fuel' (extended ++ [last_value])%list last_value hours_ahead
      else extended
  end.

(** The length reconciliation of the pipeline. *)
Definition reconcile_length (forecast : SoilMoistureForecast)
    (initial_state : AtmosphericState) (hours_ahead : Z) : SoilMoistureForecast :=
  if Z.of_nat (List.length (values forecast)) <? hours_ahead then
    let extended := values forecast in
    let last_value :=
      match rev extended with
      | x :: _ => x
      | [] => soil_moisture initial_state
      end in
    let extended :=
      extend_loop (Z.to_nat (hours_ahead - Z.of_nat (List.length extended)))
        extended last_value hours_ahead in
    {| issued_at := issued_at forecast;
       Core.horizon_hours := Core.horizon_hours forecast;
       values := extended;
       metadata := metadata forecast |}
  else forecast.

Definition features_value (features : dict float) : pyval :=
  PDict (map (fun kv => (fst kv, PFloat (snd kv))) features).

(** The metadata the pipeline leaves on the forecast. *)
Definition finalize_metadata (forecast : SoilMoistureForecast) (now : datetime)
    (features : dict float) : SoilMoistureForecast :=
  let md := dict_setdefault (metadata forecast) "issued_at" (PStr (isoformat now)) in
  let md := dict_set md "features" (features_value features) in
  {| issued_at := issued_at forecast;
     Core.horizon_hours := Core.horizon_hours forecast;
     values := values forecast;
     metadata := md |}.

(** [predict_three_day_soil_moisture]; [now] is what [utcnow()] returns. *)
Definition predict_three_day_soil_moisture (initial_state : AtmosphericState)
    (weather_data : list (dict pyval))
    (model : option DeterministicAtmosphericModel)
    (post_processor : option LLMPostProcessor) (now : datetime)
  : io SoilMoistureForecast :=
  let model := match model with Some m => m | None => default_model end in
  let post_processor :=
    match post_processor with Some p => p | None => default_post_processor end in
  normalised_weather <<- lift (load_numerical_weather_outputs weather_data) ;;
  let hours_ahead := LLM.horizon_hours post_processor in
  projected_states <<-
    lift (model_predict model initial_state normalised_weather hours_ahead) ;;
  features <<- lift (export_soil_moisture_features projected_states) ;;
  forecast <<- postprocess post_processor initial_state projected_states features ;;
  let forecast := reconcile_length forecast initial_state hours_ahead in
  ret (finalize_metadata forecast now features).

End Pipeline.

(* ================================================================= *)
(** ** Loading a state and the weather (core.py, scripts/predict_soil_moisture.py) *)

Module Loading.

Import Datetime Core.

(** What a payload holds under a key: a [datetime] object, or a value of
    the other types. *)
Inductive field : Type :=
| Stamp (t : datetime)
| Plain (v : pyval).

(** [float(value)] *)
Definition field_float (value : field) : result float :=
  match value with
  | Plain v => py_float v
  | Stamp _ =>
      Raise (TypeError ("float() argument must be a string or a real number, not '"
                          ++ "datetime.datetime'"))
  end.

(** What [data[key]] raises for a string key when [data] is a decoded
    document that is not a mapping. *)
Definition subscript_error (data : pyval) : exn :=
  match data with
  | PStr _ => TypeError "string indices must be integers, not 'str'"
  | PList _ => TypeError "list indices must be integers or slices, not str"
  | PTuple _ => TypeError "tuple indices must be integers or slices, not str"
  | _ => TypeError ("'" ++ type_name data ++ "' object is not subscriptable")
  end.

Section WithParser.

(** [dt.datetime.fromisoformat] on a [str]: the library's parser, whose
    accepted formats depend on the version of the library. *)
Variable fromisoformat : string -> result datetime.

(** [_ensure_timestamp(value)] *)
Definition _ensure_timestamp (value : field) : result datetime :=
  match value with
  | Stamp t => Ok t
  | Plain (PStr s) => fromisoformat s
  | Plain _ => Raise (TypeError "fromisoformat: argument must be str")
  end.

(** [AtmosphericState.from_dict(payload)] *)
Definition from_dict (payload : dict field) : result AtmosphericState :=
  value <- dict_getitem payload "timestamp" ;;
  timestamp <- _ensure_timestamp value ;;
  value <- dict_getitem payload "temperature_c" ;;
  temperature_c <- field_float value ;;
  value <- dict_getitem payload "relative_humidity" ;;
  relative_humidity <- field_float value ;;
  value <- dict_getitem payload "precipitation_mm" ;;
  precipitation_mm <- field_float value ;;
  soil_moisture <-
    field_float (dict_get_default payload "soil_moisture" (Plain (PFloat 0))) ;;
  Ok {| timestamp := timestamp;
        temperature_c := temperature_c;
        relative_humidity := relative_humidity;
        precipitation_mm := precipitation_mm;
        soil_moisture := soil_moisture |}.

(** A decoded JSON object as a payload. *)
Definition payload_of (entries : dict pyval) : dict field :=
  map (fun kv => (fst kv, Plain (snd kv))) entries.

(** [_load_state(path)], from the text of the file. *)
Definition _load_state (text : string) : result AtmosphericState :=
  data <- json_loads text ;;
  match data with
  | PDict entries => from_dict (payload_of entries)
  | _ => Raise (subscript_error data)
  end.

End WithParser.

(** [_load_weather(path)], from the text of the file. *)
Definition _load_weather (text : string) : result (list pyval) :=
  data <- json_loads text ;;
  let data :=
    match data with
    | PDict entries => dict_get_default entries "weather" (PList [])
    | _ => data
    end in
  match data with
  | PList items => Ok items
  | _ => Raise (ValueError "Weather data must be a list of hourly entries" None)
  end.

End Loading.

(* ================================================================= *)
(** * Notions used to state the properties *)

Module Notions.

Import Datetime Core LLM Pipeline Re.

(** [x] lies in the closed unit interval (false for a NaN). *)
Definition in_unit (x : float) : bool := ((0 <=? x) && (x <=? 1))%float.

(** The duration of a step in hours, as [evolve_state] computes it. *)
Definition step_hours (step : timedelta) : float :=
  (total_seconds step / 3600)%float.

(** The water balance of one step before clamping: the previous soil
    moisture, plus infiltration, minus evapotranspiration. *)
Definition moisture_balance (previous humidity precipitation : float)
    (step : timedelta) (model : DeterministicAtmosphericModel) : float :=
  (previous + precipitation * percolation_rate model * step_hours step
   - (1 - humidity / 100) * evaporation_rate model * step_hours step)%float.

(** A weather record that holds the three forcing fields. *)
Definition forcing_complete (weather : dict float) : bool :=
  dict_contains weather "temperature_c" &&
  dict_contains weather "relative_humidity" &&
  dict_contains weather "precipitation_mm".

(** The sample state and forcing record of the test suite. *)
Definition sample_state : AtmosphericState :=
  {| timestamp := make 2024 1 1 0 0 0;
     temperature_c := 18;
     relative_humidity := 60;
     precipitation_mm := 0.5;
     soil_moisture := 0.4 |}.

Definition sample_forcing : dict float :=
  [("temperature_c", 18%float); ("relative_humidity", 55%float);
   ("precipitation_mm", 0.2%float); ("hour_index", 0%float)].

(** Feeding each output state into the next step, one hour at a time, over
    a sequence of weather records. *)
Fixpoint feed_forward (model : DeterministicAtmosphericModel)
    (current : AtmosphericState) (records : list (dict float))
  : result (list AtmosphericState) :=
  match records with
  | [] => Ok []
  | weather :: records' =>
      next <- evolve_state current weather (hours 1) model ;;
      rest <- feed_forward model next records' ;;
      Ok (next :: rest)
  end.

(** The instant [t] is one a [datetime] holds, and so is the instant [n]
    hours later ([t] itself when [n] is negative: no step is taken). *)
Definition can_advance (t : datetime) (n : Z) : bool :=
  in_range t && in_range (t + Z.max 0 n * us_per_hour).

(** The sample state half an hour before the end of the range of
    [datetime]. *)
Definition late_state : AtmosphericState :=
  {| timestamp := make 9999 12 31 23 30 0;
     temperature_c := 18;
     relative_humidity := 60;
     precipitation_mm := 0.5;
     soil_moisture := 0.4 |}.

(** The arithmetic mean of a non-empty sequence of floats: its sum divided
    by its length. *)
Definition arithmetic_mean (xs : list float) : float :=
  (py_sum xs / round_Z (Z.of_nat (List.length xs)))%float.

(** The stored values of day [k] when a day has 24 hours. *)
Definition day_chunk (vals : list float) (k : nat) : list float :=
  firstn 24 (skipn (24 * k) vals).

(** The number of days that hold at least one value. *)
Definition stored_days (vals : list float) : nat := (List.length vals + 23) / 24.

(** A 72-hour forecast that stores 50 values: three averages. *)
Definition short_forecast : SoilMoistureForecast :=
  {| issued_at := 0; Core.horizon_hours := 72;
     values := map round_Z (py_range 50); metadata := [] |}.

(** The forecast [postprocess] assembles from the parsed values. *)
Definition assembled_forecast (self : LLMPostProcessor) (initial_state : AtmosphericState)
    (projected_states : list AtmosphericState) (features : dict float)
    (vals : list float) : SoilMoistureForecast :=
  {| issued_at :=
       match projected_states with
       | first :: _ => timestamp first
       | [] => timestamp initial_state
       end;
     Core.horizon_hours := horizon_hours self;
     values := vals;
     metadata :=
       [("prompt", PStr (build_prompt self initial_state projected_states features))] |}.

(** The candidate series of a response, before truncation: the numbers of
    the fallback when the text is not JSON, else the coerced items of the
    structured candidate. *)
Definition candidate_series (response : pyval) : result (list float) :=
  let text := _coerce_response_text response in
  match json_loads text with
  | Raise (JSONDecodeError _) =>
      map_result (fun value => py_float (PStr value)) (Re.findall number_pattern text)
  | Raise e => Raise e
  | Ok data =>
      let vals := candidate_values data in
      if negb (is_iterable vals) then
        Raise (ValueError "LLM response does not contain an iterable of values" None)
      else map_result coerce_value (py_iter vals)
  end.

(** The post-processor the pipeline uses. *)
Definition effective_post_processor (post_processor : option LLMPostProcessor)
  : LLMPostProcessor :=
  match post_processor with Some p => p | None => default_post_processor end.

Definition effective_model (model : option DeterministicAtmosphericModel)
  : DeterministicAtmosphericModel :=
  match model with Some m => m | None => default_model end.

(** A client that answers three values, a horizon of 72 hours and two raw
    weather entries. *)
Definition three_value_processor : LLMPostProcessor :=
  {| client := Some (fun _ => Ok (PStr "[0.1, 0.2, 0.3]")); LLM.horizon_hours := 72 |}.

Definition sample_weather : list (dict pyval) :=
  [[("temperature_c", PFloat 18); ("relative_humidity", PFloat 55);
    ("precipitation_mm", PFloat 0.2)];
   [("temperature_c", PFloat 18.05); ("relative_humidity", PInt 55)]].

Definition three_value_run : result SoilMoistureForecast * list string :=
  run (predict_three_day_soil_moisture sample_state sample_weather None
         (Some three_value_processor) 0).

Definition three_value_forecast : SoilMoistureForecast :=
  match fst three_value_run with
  | Ok forecast => forecast
  | Raise _ => {| issued_at := 0; Core.horizon_hours := 0; values := []; metadata := [] |}
  end.

Fixpoint all_chars (p : ascii -> bool) (s : string) : bool :=
  match s with
  | EmptyString => true
  | String c s' => p c && all_chars p s'
  end.

(** The texts a pattern denotes. *)
Fixpoint matches (pat : pattern) (m : string) : Prop :=
  match pat with
  | [] => m = ""
  | One p :: pat' =>
      exists c m', m = String c m' /\ p c = true /\ matches pat' m'
  | Opt p :: pat' =>
      (exists c m', m = String c m' /\ p c = true /\ matches pat' m') \/
      matches pat' m
  | Star p :: pat' =>
      exists a m', m = a ++ m' /\ all_chars p a = true /\ matches pat' m'
  | Plus p :: pat' =>
      exists c a m',
        m = String c (a ++ m') /\ p c = true /\ all_chars p a = true /\
        matches pat' m'
  end.

(** A text at which a run of digits ends: the end, or a character that is
    neither a digit nor an underscore. *)
Definition ends_digits (rest : string) : Prop :=
  match rest with
  | EmptyString => True
  | String c _ => is_digit c = false /\ Ascii.eqb c "_" = false
  end.

(** The unsigned part of a text of the number pattern: digits, an optional
    point, and at least one digit. *)
Definition number_body (a : string) (dotted : bool) (c : ascii) (b : string) : string :=
  a ++ (if dotted then "." else "") ++ String c b.

(** A text that can follow an item of a JSON array. *)
Definition ends_item (rest : string) : Prop :=
  exists r, rest = String "," r \/ rest = String "]" r.

(** The JSON text of the float [x] reads back as [x] wherever it stands as
    an item of an array: what [float.__repr__] guarantees and the JSON
    grammar needs. *)
Definition reads_back (x : float) : Prop :=
  forall (fuel : nat) (rest : string),
    ends_item rest ->
    scan_once (S fuel) (floatstr x ++ rest) = Ok (PFloat x, rest).

(** The mapping [{"soil_moisture": [x] * (n + 1)}] as [json.dumps] writes
    it. *)
Definition float_list_text (x : float) (n : nat) : string :=
  String "{" (String dquote ("soil_moisture" ++ String dquote
    (": [" ++ join ", " (repeat (floatstr x) (S n)) ++ "]}"))).

(** The JSON list [[1000...0]] whose only item is 1 followed by 400
    zeros. *)
Definition huge_integer_text : string := "[1" ++ repeat_char "0" 400 ++ "]".

(** What a reader of the decoder does with a text: it returns a value and
    a strictly shorter text, or refuses the text with a decoding error. *)
Definition scans {A : Type} (s : string) (res : result (A * string)) : Prop :=
  match res with
  | Ok (_, rest) => (String.length rest < String.length s)%nat
  | Raise (JSONDecodeError _) => True
  | Raise _ => False
  end.

(** A client that fails on every prompt. *)
Definition failing_processor : LLMPostProcessor :=
  {| client := Some (fun _ => Raise (ClientError "timeout")); LLM.horizon_hours := 72 |}.

(** The issuance time of a forecast over the projected states. *)
Definition first_timestamp (initial_state : AtmosphericState)
    (states : list AtmosphericState) : datetime :=
  match states with
  | [] => timestamp initial_state
  | _ :: _ => timestamp initial_state + us_per_hour
  end.

(** No character of the text is a digit. *)
Definition digitless (text : string) : bool :=
  all_chars (fun c => negb (is_digit c)) text.

(** The record [load_numerical_weather_outputs] builds for one entry. *)
Definition weather_record (t h p x : float) : dict float :=
  [("temperature_c", t); ("relative_humidity", h);
   ("precipitation_mm", p); ("hour_index", x)].

(** A normalised record given again as a raw entry. *)
Definition raw_of (record : dict float) : dict pyval :=
  map (fun kv => (fst kv, PFloat (snd kv))) record.

(** The names of the three forcing fields, in the order they are read. *)
Definition forcing_fields : list string :=
  ["temperature_c"; "relative_humidity"; "precipitation_mm"].

(** A projected state carries the forcing of its weather record, and a soil
    moisture in the unit interval. *)
Definition carries (state : AtmosphericState) (weather : dict float) : Prop :=
  dict_get weather "temperature_c" = Some (temperature_c state) /\
  dict_get weather "relative_humidity" = Some (relative_humidity state) /\
  dict_get weather "precipitation_mm" = Some (precipitation_mm state) /\
  in_unit (soil_moisture state) = true.

(** The number of days of [range(0, horizon, 24)]. *)
Definition horizon_days (horizon : Z) : nat := Z.to_nat ((horizon + 23) / 24).

(** A 30-hour forecast that stores 48 values. *)
Definition long_forecast : SoilMoistureForecast :=
  {| issued_at := 0; Core.horizon_hours := 30;
     values := map round_Z (py_range 48); metadata := [] |}.

(** The one-character texts of a string, as iterating over it gives them. *)
Fixpoint char_texts (s : string) : list string :=
  match s with
  | EmptyString => []
  | String c s' => String c EmptyString :: char_texts s'
  end.

(** The values of the digits of a text. *)
Fixpoint digit_values (s : string) : list float :=
  match s with
  | EmptyString => []
  | String c s' => round_Z (digit_val c) :: digit_values s'
  end.

(** The text holds a character of the ASCII range that is not a digit. *)
Definition has_plain_non_digit (s : string) : bool :=
  negb (all_chars (fun c => is_digit c || (127 <? code c)) s).

(** The error [parse_response] raises on an item [float()] refuses. *)
Definition invalid_value (cause : exn) : exn :=
  ValueError "Invalid soil moisture value in LLM response" (Some cause).

(** The features of an empty sequence of states. *)
Definition no_features : dict float :=
  [("mean_temperature", 0%float); ("mean_humidity", 0%float);
   ("total_precipitation", 0%float); ("final_soil_moisture", 0%float)].

(** The answer [{"soil_moisture": xs}] as a mapping. *)
Definition series_answer (xs : list float) : pyval :=
  PDict [("soil_moisture", PList (map PFloat xs))].

(** The text [json.dumps] writes for [{"soil_moisture": xs}]. *)
Definition series_text (xs : list float) : string :=
  String "{" (String dquote ("soil_moisture" ++ String dquote
    (": [" ++ join ", " (map floatstr xs) ++ "]}"))).

(** A post-processor with a horizon of -1 whose client answers three
    values, and its run. *)
Definition negative_horizon_processor : LLMPostProcessor :=
  {| client := Some (fun _ => Ok (PStr "[0.1, 0.2, 0.3]")); LLM.horizon_hours := -1 |}.

Definition negative_horizon_run : result SoilMoistureForecast * list string :=
  run (predict_three_day_soil_moisture sample_state sample_weather None
         (Some negative_horizon_processor) 0).

Definition negative_horizon_forecast : SoilMoistureForecast :=
  match fst negative_horizon_run with
  | Ok forecast => forecast
  | Raise _ => {| issued_at := 0; Core.horizon_hours := 0; values := []; metadata := [] |}
  end.

(** The integers [str] writes: those of at most 4300 digits. *)
Definition has_int_text (n : Z) : bool := Z.abs n <? 10 ^ 4300.

(** The error of [parse_response] for a candidate that is not iterable. *)
Definition not_iterable : exn :=
  ValueError "LLM response does not contain an iterable of values" None.

(** The text [part] occurs in the text [whole]. *)
Definition occurs (part whole : string) : Prop :=
  exists before after, whole = before ++ part ++ after.

End Notions.

(* ================================================================= *)
(** * Properties *)

Unset Implicit Arguments.

(** ** Facts about float comparisons *)

Module FloatFacts.

Import Notions.

Local Open Scope float_scope.

Lemma ltb_leb (x y : float) : (x <? y) = true -> (x <=? y) = true.
Proof.
  rewrite ltb_spec, leb_spec. unfold SFltb, SFleb.
  destruct (SFcompare (Prim2SF x) (Prim2SF y)) as [[ | | ]|]; congruence.
Qed.

Lemma leb_not_ltb (x y : float) :
  (x <=? y) = true -> (x <? y) = false -> (x =? y) = true.
Proof.
  rewrite ltb_spec, leb_spec, FloatAxioms.eqb_spec. unfold SFltb, SFleb, SFeqb.
  destruct (SFcompare (Prim2SF x) (Prim2SF y)) as [[ | | ]|]; congruence.
Qed.

Lemma ltb_not_leb_swap (x y : float) : (x <? y) = true -> (y <=? x) = false.
Proof.
  rewrite ltb_spec, leb_spec. unfold SFltb, SFleb.
  destruct (Prim2SF x) as [[]|[]| |[] mx ex], (Prim2SF y) as [[]|[]| |[] my ey];
    simpl; try congruence;
    destruct (Z.compare_spec ex ey), (Z.compare_spec ey ex);
    try lia; try congruence; subst;
    rewrite (ZC4 my mx); destruct (Pos.compare_cont Eq mx my); simpl; congruence.
Qed.

(** A float that compares with something is equal to itself. *)
Lemma SFcompare_refl (f g : spec_float) (c : comparison) :
  SFcompare g f = Some c -> SFcompare f f = Some Eq.
Proof.
  destruct f as [s|s| |s m e]; destruct g as [sg|sg| |sg mg eg];
    simpl; try congruence; destruct s; intros _; try reflexivity;
    rewrite Z.compare_refl; fold (Pos.compare m m);
    rewrite Pos.compare_refl; reflexivity.
Qed.

Lemma ltb_eqb_refl (x y : float) : (y <? x) = true -> (x =? x) = true.
Proof.
  rewrite ltb_spec, FloatAxioms.eqb_spec. unfold SFltb, SFeqb.
  destruct (SFcompare (Prim2SF y) (Prim2SF x)) as [c|] eqn:E; [|congruence].
  intros _. now rewrite (@SFcompare_refl _ _ _ E).
Qed.

Lemma leb_eqb_refl (x y : float) : (y <=? x) = true -> (x =? x) = true.
Proof.
  rewrite leb_spec, FloatAxioms.eqb_spec. unfold SFleb, SFeqb.
  destruct (SFcompare (Prim2SF y) (Prim2SF x)) as [c|] eqn:E; [|congruence].
  intros _. now rewrite (@SFcompare_refl _ _ _ E).
Qed.

(** Equality with 1 determines the float. *)
Lemma eqb_one (x : float) : (x =? 1) = true -> x = 1.
Proof.
  rewrite FloatAxioms.eqb_spec. unfold SFeqb. intros H.
  rewrite <- (SF2Prim_Prim2SF x).
  change 1 with (SF2Prim (S754_finite false 4503599627370496 (-52))).
  change (Prim2SF 1) with (S754_finite false 4503599627370496 (-52)) in H.
  f_equal.
  destruct (Prim2SF x) as [s|s| |s m e]; cbn [SFcompare] in H;
    try congruence; destruct s; try congruence.
  destruct (Z.compare_spec e (-52)); try congruence. subst.
  destruct (Pos.compare_cont Eq m 4503599627370496) eqn:E; try congruence.
  apply Pcompare_Eq_eq in E. now subst.
Qed.

Lemma zero_lt_one : (0 <? 1) = true.
Proof. reflexivity. Qed.

(** The clamp [max(0.0, min(1.0, x))] always lands in the unit interval. *)
Lemma clamp_in_unit (x : float) : in_unit (py_max 0 (py_min 1 x)) = true.
Proof.
  unfold in_unit, py_max, py_min.
  destruct (x <? 1) eqn:H1.
  - destruct (0 <? x) eqn:H0.
    + now rewrite (@ltb_leb _ _ H0), (@ltb_leb _ _ H1).
    + reflexivity.
  - reflexivity.
Qed.

Lemma ltb_zero_ltb_one (x : float) : (x <? 0) = true -> (x <? 1) = true.
Proof.
  rewrite !ltb_spec. unfold SFltb.
  change (Prim2SF 0) with (S754_zero false).
  change (Prim2SF 1) with (S754_finite false 4503599627370496 (-52)).
  destruct (Prim2SF x) as [[]|[]| |[] m e]; cbn [SFcompare]; congruence.
Qed.

(** Below the interval the clamp is 0, above it 1. *)
Lemma clamp_below (x : float) : (x <? 0) = true -> py_max 0 (py_min 1 x) = 0.
Proof.
  intros H. unfold py_max, py_min.
  assert (H0 : (0 <? x) = false).
  { pose proof (@ltb_not_leb_swap _ _ H) as N.
    destruct (0 <? x) eqn:E; [|reflexivity].
    now rewrite (@ltb_leb _ _ E) in N. }
  now rewrite (@ltb_zero_ltb_one _ H), H0.
Qed.

Lemma clamp_above (x : float) : (1 <? x) = true -> py_max 0 (py_min 1 x) = 1.
Proof.
  intros H. unfold py_max, py_min.
  assert (H1 : (x <? 1) = false).
  { pose proof (@ltb_not_leb_swap _ _ H) as N.
    destruct (x <? 1) eqn:E; [|reflexivity].
    now rewrite (@ltb_leb _ _ E) in N. }
  now rewrite H1.
Qed.

(** Inside the interval the clamp returns its argument (as floats compare:
    a negative zero comes back as zero). *)
Lemma clamp_inside (x : float) :
  in_unit x = true -> (py_max 0 (py_min 1 x) =? x) = true.
Proof.
  unfold in_unit, py_max, py_min. intros H.
  apply andb_prop in H. destruct H as [H0 H1].
  destruct (x <? 1) eqn:L1.
  - destruct (0 <? x) eqn:L0.
    + exact (@ltb_eqb_refl _ _ L0).
    + exact (@leb_not_ltb _ _ H0 L0).
  - pose proof (@leb_not_ltb _ _ H1 L1) as E.
    rewrite (@eqb_one _ E). reflexivity.
Qed.

End FloatFacts.

(* ================================================================= *)
(** ** The evolution step and the multi-step predictor (core.py) *)

Module CoreFacts.

Import Notions.

Import Datetime Core FloatFacts.

Lemma dict_contains_get {A : Type} (d : dict A) (k : string) :
  dict_contains d k = true -> exists v, dict_get d k = Some v.
Proof.
  unfold dict_contains. destruct (dict_get d k) as [v|]; [eauto | discriminate].
Qed.

Lemma forcing_complete_get (weather : dict float) :
  forcing_complete weather = true ->
  exists t h p,
    dict_get weather "temperature_c" = Some t /\
    dict_get weather "relative_humidity" = Some h /\
    dict_get weather "precipitation_mm" = Some p.
Proof.
  unfold forcing_complete. intros H.
  apply andb_prop in H. destruct H as [H Hp].
  apply andb_prop in H. destruct H as [Ht Hh].
  destruct (dict_contains_get _ _ Ht) as [t Et].
  destruct (dict_contains_get _ _ Hh) as [h Eh].
  destruct (dict_contains_get _ _ Hp) as [p Ep].
  exists t, h, p. auto.
Qed.

(** What [evolve_state] does on a record that holds the forcing fields:
    only the new timestamp can still fail. *)
Lemma evolve_state_eq (state : AtmosphericState) (weather : dict float)
    (step : timedelta) (model : DeterministicAtmosphericModel) (t h p : float) :
  dict_get weather "temperature_c" = Some t ->
  dict_get weather "relative_humidity" = Some h ->
  dict_get weather "precipitation_mm" = Some p ->
  evolve_state state weather step model =
  (new_timestamp <- datetime_add (timestamp state) step ;;
   Ok {| timestamp := new_timestamp;
         temperature_c := t;
         relative_humidity := h;
         precipitation_mm := p;
         soil_moisture :=
           py_max 0 (py_min 1 (moisture_balance (soil_moisture state) h p step model)) |}).
Proof.
  intros Et Eh Ep. unfold evolve_state, dict_getitem.
  rewrite Et, Eh, Ep. reflexivity.
Qed.

(** When the new instant is one a [datetime] holds, the step returns. *)
Lemma evolve_state_in_range (state : AtmosphericState) (weather : dict float)
    (step : timedelta) (model : DeterministicAtmosphericModel) (t h p : float) :
  dict_get weather "temperature_c" = Some t ->
  dict_get weather "relative_humidity" = Some h ->
  dict_get weather "precipitation_mm" = Some p ->
  in_range (timestamp state + step) = true ->
  evolve_state state weather step model =
  Ok {| timestamp := timestamp state + step;
        temperature_c := t;
        relative_humidity := h;
        precipitation_mm := p;
        soil_moisture :=
          py_max 0 (py_min 1 (moisture_balance (soil_moisture state) h p step model)) |}.
Proof.
  intros Et Eh Ep Hr. rewrite (evolve_state_eq state weather step model t h p Et Eh Ep).
  unfold datetime_add. rewrite Hr. reflexivity.
Qed.

(** When it is not, the step raises instead of returning. *)
Lemma evolve_state_out_of_range (state : AtmosphericState) (weather : dict float)
    (step : timedelta) (model : DeterministicAtmosphericModel) :
  forcing_complete weather = true ->
  in_range (timestamp state + step) = false ->
  evolve_state state weather step model =
  Raise (OverflowError "date value out of range").
Proof.
  intros Hw Hr. destruct (forcing_complete_get weather Hw) as (t & h & p & Et & Eh & Ep).
  rewrite (evolve_state_eq state weather step model t h p Et Eh Ep).
  unfold datetime_add. rewrite Hr. reflexivity.
Qed.

(** [evolve_state] does not return for every state, record and step: one
    hour after 9999-12-31T23:30 there is no [datetime]. *)
Lemma evolve_state_overflows :
  ~ (forall (state : AtmosphericState) (weather : dict float) (step : timedelta)
            (model : DeterministicAtmosphericModel),
       forcing_complete weather = true ->
       exists next,
         evolve_state state weather step model = Ok next /\
         in_unit (soil_moisture next) = true).
Proof.
  intros H.
  destruct (H late_state sample_forcing (hours 1) default_model eq_refl)
    as (next & Hnext & _).
  vm_compute in Hnext. discriminate Hnext.
Qed.

(** C1, amended.  For every state, every weather record holding the forcing
    fields and every step duration that leads to an instant a [datetime]
    holds, [evolve_state] returns a state whose soil moisture is the water
    balance (previous soil moisture plus
    precipitation x percolation_rate x hours minus
    (1 - humidity/100) x evaporation_rate x hours) clamped to the unit
    interval: it always lies in the interval, whatever the previous soil
    moisture; it is 0 when the balance is below 0, 1 when it is above 1, and
    the balance itself (as floats compare) when the balance is inside.
    When the step leads outside the range of [datetime], [evolve_state]
    raises [OverflowError] and returns no state. *)
Theorem evolve_state_soil_moisture_clamped
    (state : AtmosphericState) (weather : dict float) (step : timedelta)
    (model : DeterministicAtmosphericModel) (t h p : float) :
  dict_get weather "temperature_c" = Some t ->
  dict_get weather "relative_humidity" = Some h ->
  dict_get weather "precipitation_mm" = Some p ->
  let balance := moisture_balance (soil_moisture state) h p step model in
  (in_range (timestamp state + step) = true ->
   exists next,
     evolve_state state weather step model = Ok next /\
     soil_moisture next = py_max 0 (py_min 1 balance) /\
     in_unit (soil_moisture next) = true /\
     ((balance <? 0)%float = true -> soil_moisture next = 0%float) /\
     ((1 <? balance)%float = true -> soil_moisture next = 1%float) /\
     (in_unit balance = true -> (soil_moisture next =? balance)%float = true)) /\
  (in_range (timestamp state + step) = false ->
   evolve_state state weather step model =
   Raise (OverflowError "date value out of range")).
Proof.
  intros Et Eh Ep balance. split.
  - intros Hr. eexists.
    split; [exact (evolve_state_in_range state weather step model t h p Et Eh Ep Hr)|].
    cbn [soil_moisture]. fold balance.
    split; [reflexivity|].
    split; [apply clamp_in_unit|].
    split; [apply clamp_below|].
    split; [apply clamp_above | apply clamp_inside].
  - intros Hr. rewrite (evolve_state_eq state weather step model t h p Et Eh Ep).
    unfold datetime_add. rewrite Hr. reflexivity.
Qed.

(** The sample state has soil moisture 0.4; a sample with soil moisture 7,
    far outside the interval, is clamped as well. *)
Lemma evolve_state_soil_moisture_clamped_witness :
  let state := {| timestamp := make 2024 1 1 0 0 0; temperature_c := 18;
                  relative_humidity := 60;
                  precipitation_mm := 0.5; soil_moisture := 7 |} in
  let balance :=
    moisture_balance (soil_moisture state) 55 0.2 (hours 1) default_model in
  exists next,
    evolve_state state sample_forcing (hours 1) default_model = Ok next /\
    soil_moisture next = py_max 0 (py_min 1 balance) /\
    in_unit (soil_moisture next) = true /\
    ((balance <? 0)%float = true -> soil_moisture next = 0%float) /\
    ((1 <? balance)%float = true -> soil_moisture next = 1%float) /\
    (in_unit balance = true -> (soil_moisture next =? balance)%float = true).
Proof.
  intros state.
  exact (proj1 (evolve_state_soil_moisture_clamped state sample_forcing (hours 1)
                  default_model 18%float 55%float 0.2%float eq_refl eq_refl eq_refl)
           eq_refl).
Defined.

(** *** The multi-step predictor *)

Lemma py_index_nth {A : Type} (l : list A) (k : nat) (x : A) :
  nth_error l k = Some x -> py_index l (Z.of_nat k) = Ok x.
Proof.
  intros H. unfold py_index.
  assert (Hk : (k < List.length l)%nat).
  { apply nth_error_Some. congruence. }
  replace (Z.of_nat k <? 0) with false by (symmetry; apply Z.ltb_ge; lia).
  replace ((Z.of_nat k <? 0) || (Z.of_nat (List.length l) <=? Z.of_nat k)) with false.
  - now rewrite Nat2Z.id, H.
  - symmetry. apply orb_false_iff. split; [apply Z.ltb_ge | apply Z.leb_gt]; lia.
Qed.

Lemma skipn_nth_error {A : Type} (l : list A) (k : nat) (x : A) :
  nth_error l k = Some x -> skipn k l = x :: skipn (S k) l.
Proof.
  revert l. induction k as [|k IH]; intros [|y l] H; try discriminate.
  - now inversion H.
  - simpl in H. apply IH in H. exact H.
Qed.

(** The indexed loop of [predict] walks the records in order. *)
Lemma predict_loop_feed_forward (model : DeterministicAtmosphericModel)
    (records : list (dict float)) (n k : nat) (current : AtmosphericState) :
  (k + n <= List.length records)%nat ->
  predict_loop model records (range_from (Z.of_nat k) 1 n) current =
  feed_forward model current (firstn n (skipn k records)).
Proof.
  revert k current. induction n as [|n IH]; intros k current Hlen.
  - reflexivity.
  - destruct (nth_error records k) as [w|] eqn:E.
    2:{ apply nth_error_None in E. lia. }
    cbn [range_from predict_loop].
    rewrite (py_index_nth _ _ _ E), (skipn_nth_error _ _ _ E).
    cbn [firstn feed_forward bind].
    destruct (evolve_state current w (hours 1) model) as [next|e]; [|reflexivity].
    specialize (IH (S k) next).
    rewrite Nat2Z.inj_succ in IH. unfold Z.succ in IH.
    cbn [bind]. rewrite IH by lia. reflexivity.
Qed.

(** [predict] is [feed_forward] over the first [min(hours_ahead, len)]
    records. *)
Lemma predict_feed_forward (model : DeterministicAtmosphericModel)
    (initial_state : AtmosphericState) (records : list (dict float)) (hours_ahead : Z) :
  predict model initial_state records hours_ahead =
  feed_forward model initial_state
    (firstn (Z.to_nat (Z.min hours_ahead (Z.of_nat (List.length records)))) records).
Proof.
  unfold predict, py_range.
  apply (predict_loop_feed_forward model records _ 0 initial_state). lia.
Qed.

(** The instants from which [n] hourly steps stay in the range. *)
Lemma can_advance_iff (t : datetime) (n : Z) :
  can_advance t n = true <->
  0 <= t /\ t + Z.max 0 n * us_per_hour <= max_datetime.
Proof.
  unfold can_advance, in_range.
  rewrite !andb_true_iff, !Z.leb_le.
  unfold us_per_hour, us_per_second. lia.
Qed.

Lemma in_range_iff (t : Z) : in_range t = true <-> 0 <= t <= max_datetime.
Proof. unfold in_range. rewrite andb_true_iff, !Z.leb_le. reflexivity. Qed.

(** On records that hold the forcing fields, and from an instant that leaves
    room for one hour per record, feeding forward succeeds with one state
    per record, the [i]-th one [i + 1] hours after the start. *)
Lemma feed_forward_complete (model : DeterministicAtmosphericModel)
    (records : list (dict float)) (current : AtmosphericState) :
  forallb forcing_complete records = true ->
  can_advance (timestamp current) (Z.of_nat (List.length records)) = true ->
  exists states,
    feed_forward model current records = Ok states /\
    List.length states = List.length records /\
    forall (i : nat) (d : AtmosphericState),
      (i < List.length states)%nat ->
      timestamp (nth i states d) = timestamp current + (Z.of_nat i + 1) * us_per_hour.
Proof.
  revert current. induction records as [|w records IH]; intros current Hall Hadv.
  - exists []. repeat split; auto. intros i d Hi. inversion Hi.
  - cbn [forallb] in Hall. apply andb_prop in Hall. destruct Hall as [Hw Hall].
    destruct (forcing_complete_get w Hw) as (t & h & p & Et & Eh & Ep).
    apply can_advance_iff in Hadv. cbn [List.length] in Hadv.
    assert (Hr : in_range (timestamp current + hours 1) = true).
    { apply in_range_iff. unfold hours, us_per_hour, us_per_second in *. lia. }
    cbn [feed_forward].
    rewrite (evolve_state_in_range current w (hours 1) model t h p Et Eh Ep Hr).
    cbn [bind].
    match goal with |- context [feed_forward model ?next records] =>
      destruct (IH next Hall) as (states & Es & Hl & Ht); [|rewrite Es]
    end.
    { apply can_advance_iff. cbn [timestamp].
      unfold hours, us_per_hour, us_per_second in *. lia. }
    eexists. split; [reflexivity|]. split; [cbn; now rewrite Hl|].
    intros [|i] d Hi.
    + cbn. unfold hours. lia.
    + cbn [nth]. rewrite Ht by (cbn in Hi; lia).
      cbn [timestamp]. unfold hours. lia.
Qed.

(** From an instant that does not leave that room, feeding forward raises
    at the step that would leave the range. *)
Lemma feed_forward_overflow (model : DeterministicAtmosphericModel)
    (records : list (dict float)) (current : AtmosphericState) :
  forallb forcing_complete records = true ->
  in_range (timestamp current) = true ->
  can_advance (timestamp current) (Z.of_nat (List.length records)) = false ->
  feed_forward model current records =
  Raise (OverflowError "date value out of range").
Proof.
  revert current. induction records as [|w records IH]; intros current Hall Hin Hadv.
  - unfold can_advance in Hadv. cbn in Hadv.
    rewrite Z.add_0_r, Hin in Hadv. discriminate Hadv.
  - cbn [forallb] in Hall. apply andb_prop in Hall. destruct Hall as [Hw Hall].
    cbn [feed_forward].
    destruct (in_range (timestamp current + hours 1)) eqn:Hr.
    + destruct (forcing_complete_get w Hw) as (t & h & p & Et & Eh & Ep).
      rewrite (evolve_state_in_range current w (hours 1) model t h p Et Eh Ep Hr).
      cbn [bind].
      match goal with |- context [feed_forward model ?next records] =>
        rewrite (IH next Hall)
      end.
      * reflexivity.
      * exact Hr.
      * cbn [timestamp].
        destruct (can_advance (timestamp current + hours 1)
                    (Z.of_nat (List.length records))) eqn:Hnext; [|reflexivity].
        apply can_advance_iff in Hnext. apply in_range_iff in Hin.
        assert (Hyes : can_advance (timestamp current)
                         (Z.of_nat (List.length (w :: records))) = true).
        { apply can_advance_iff. cbn [List.length].
          unfold hours, us_per_hour, us_per_second in *. lia. }
        rewrite Hyes in Hadv. discriminate Hadv.
    + rewrite (evolve_state_out_of_range current w (hours 1) model Hw Hr).
      reflexivity.
Qed.

(** The records [predict] reads hold the forcing fields when all do. *)
Lemma firstn_forcing_complete (n : nat) (records : list (dict float)) :
  forallb forcing_complete records = true ->
  forallb forcing_complete (firstn n records) = true.
Proof.
  intros Hall. rewrite forallb_forall in *. intros w Hw. apply Hall.
  rewrite <- (firstn_skipn n records). apply in_or_app. now left.
Qed.

(** [predict] does not return for every initial state: at 9999-12-31T23:30
    the first step already leaves the range of [datetime]. *)
Lemma predict_overflows :
  ~ (forall (model : DeterministicAtmosphericModel) (initial_state : AtmosphericState)
            (records : list (dict float)) (hours_ahead : Z),
       0 <= hours_ahead ->
       forallb forcing_complete records = true ->
       exists states,
         predict model initial_state records hours_ahead = Ok states /\
         Z.of_nat (List.length states) =
           Z.min hours_ahead (Z.of_nat (List.length records))).
Proof.
  intros H.
  destruct (H default_model late_state [sample_forcing] 1 ltac:(lia) eq_refl)
    as (states & Hstates & _).
  vm_compute in Hstates. discriminate Hstates.
Qed.

(** C2, amended.  For a non-negative number of requested hours, weather
    records that hold the forcing fields and an initial instant from which
    [min(hours_ahead, number of records)] hours stay in the range of
    [datetime], [predict] returns exactly that many states: the initial
    state is not among them, each state is the evolution of the one before
    it (the initial state for the first) by one hour on the next record;
    when there are at least [hours_ahead] records there are exactly
    [hours_ahead] states, and in every case the first timestamp is one hour
    after the initial state's and each next one exactly one hour after the
    previous.  When those hours lead beyond the range of [datetime],
    [predict] raises [OverflowError] and returns no state. *)
Theorem predict_states_count_and_timestamps
    (model : DeterministicAtmosphericModel) (initial_state : AtmosphericState)
    (records : list (dict float)) (hours_ahead : Z) :
  0 <= hours_ahead ->
  forallb forcing_complete records = true ->
  let n := Z.min hours_ahead (Z.of_nat (List.length records)) in
  (can_advance (timestamp initial_state) n = true ->
   exists states,
     predict model initial_state records hours_ahead = Ok states /\
     Z.of_nat (List.length states) = n /\
     (hours_ahead <= Z.of_nat (List.length records) ->
      Z.of_nat (List.length states) = hours_ahead) /\
     feed_forward model initial_state (firstn (List.length states) records) = Ok states /\
     (forall d, (0 < List.length states)%nat ->
        timestamp (nth 0 states d) = timestamp initial_state + us_per_hour) /\
     (forall (i : nat) d, (S i < List.length states)%nat ->
        timestamp (nth (S i) states d) = timestamp (nth i states d) + us_per_hour)) /\
  (in_range (timestamp initial_state) = true ->
   can_advance (timestamp initial_state) n = false ->
   predict model initial_state records hours_ahead =
   Raise (OverflowError "date value out of range")).
Proof.
  intros Hh Hall n0.
  rewrite predict_feed_forward. fold n0.
  set (n := Z.to_nat n0).
  assert (Hn : (n <= List.length records)%nat) by (unfold n, n0; lia).
  assert (Hn0 : Z.of_nat n = n0) by (unfold n, n0; lia).
  pose proof (firstn_forcing_complete n records Hall) as Hall'.
  assert (Hlen : List.length (firstn n records) = n)
    by (rewrite length_firstn; lia).
  split.
  - intros Hadv.
    destruct (feed_forward_complete model (firstn n records) initial_state Hall')
      as (states & Es & Hl & Ht).
    { now rewrite Hlen, Hn0. }
    rewrite Hlen in Hl.
    exists states. split; [exact Es|].
    split; [rewrite Hl; exact Hn0|].
    split; [intros Hle; rewrite Hl; unfold n, n0; lia|].
    split; [rewrite Hl; exact Es|].
    split.
    + intros d H0. rewrite (Ht 0%nat d H0). lia.
    + intros i d Hi. rewrite (Ht (S i) d Hi), (Ht i d) by lia. lia.
  - intros Hin Hadv.
    apply (feed_forward_overflow model (firstn n records) initial_state Hall' Hin).
    now rewrite Hlen, Hn0.
Qed.

(** Three complete records and a request for 72 hours: three states. *)
Lemma predict_states_count_and_timestamps_witness :
  exists states,
    predict default_model sample_state
      [sample_forcing; sample_forcing; sample_forcing] 72 = Ok states /\
    Z.of_nat (List.length states) = Z.min 72 3 /\
    (72 <= 3 -> Z.of_nat (List.length states) = 72) /\
    feed_forward default_model sample_state
      (firstn (List.length states) [sample_forcing; sample_forcing; sample_forcing])
      = Ok states /\
    (forall d, (0 < List.length states)%nat ->
       timestamp (nth 0 states d) = timestamp sample_state + us_per_hour) /\
    (forall (i : nat) d, (S i < List.length states)%nat ->
       timestamp (nth (S i) states d) = timestamp (nth i states d) + us_per_hour).
Proof.
  apply (predict_states_count_and_timestamps default_model sample_state
           [sample_forcing; sample_forcing; sample_forcing] 72).
  - lia.
  - reflexivity.
  - reflexivity.
Defined.

(** *** Normalised weather records *)

Lemma normalise_entry_complete (index : Z) (entry : dict pyval) (w : dict float) :
  normalise_entry index entry = Ok w -> forcing_complete w = true.
Proof.
  unfold normalise_entry. intros H.
  destruct (py_float (dict_get_default entry "temperature_c" (PFloat 0))); [|discriminate].
  destruct (py_float (dict_get_default entry "relative_humidity" (PFloat 0))); [|discriminate].
  destruct (py_float (dict_get_default entry "precipitation_mm" (PFloat 0))); [|discriminate].
  destruct (py_float (dict_get_default entry "hour_index" (PInt index))); [|discriminate].
  cbn [bind] in H. inversion H. reflexivity.
Qed.

Lemma normalise_from_complete (raw : list (dict pyval)) (index : Z)
    (records : list (dict float)) :
  normalise_from index raw = Ok records ->
  forallb forcing_complete records = true /\
  List.length records = List.length raw.
Proof.
  revert index records. induction raw as [|entry raw IH]; intros index records H.
  - inversion H. now split.
  - cbn [normalise_from] in H.
    destruct (normalise_entry index entry) as [w|] eqn:Ew; [|discriminate].
    cbn [bind] in H.
    destruct (normalise_from (index + 1) raw) as [rest|] eqn:Er; [|discriminate].
    cbn [bind] in H. inversion H. subst.
    destruct (IH _ _ Er) as [Hall Hl].
    split; [|cbn; now rewrite Hl].
    cbn [forallb]. now rewrite (normalise_entry_complete _ _ _ Ew), Hall.
Qed.

(** Every record [load_numerical_weather_outputs] returns holds the forcing
    fields, and there is one record per raw entry. *)
Lemma load_numerical_weather_outputs_complete (raw : list (dict pyval))
    (records : list (dict float)) :
  load_numerical_weather_outputs raw = Ok records ->
  forallb forcing_complete records = true /\
  List.length records = List.length raw.
Proof. apply normalise_from_complete. Qed.

End CoreFacts.

(* ================================================================= *)
(** ** Feature export and daily averages (core.py) *)

Module FeatureFacts.

Import Notions.

Import Datetime Core.

Lemma py_last_last {A : Type} (l : list A) (d : A) :
  l <> [] -> py_last l = Ok (last l d).
Proof.
  intros Hl. destruct (exists_last Hl) as (l' & x & ->).
  unfold py_last. rewrite rev_app_distr. cbn. now rewrite last_last.
Qed.

Lemma float_div_len_pos (x : float) (n : nat) :
  (0 < n)%nat -> float_div_len x (Z.of_nat n) = Ok (x / round_Z (Z.of_nat n))%float.
Proof.
  intros Hn. unfold float_div_len.
  replace (Z.of_nat n =? 0) with false; [reflexivity|].
  symmetry. apply Z.eqb_neq. lia.
Qed.

(** C8.  For the empty sequence the exporter returns the four features, all
    0.0, and does not fail; for a non-empty sequence it returns the
    arithmetic means of temperature and humidity, the sum of precipitation
    and the soil moisture of the last state. *)
Theorem export_soil_moisture_features_spec :
  export_soil_moisture_features [] =
    Ok [("mean_temperature", 0%float); ("mean_humidity", 0%float);
        ("total_precipitation", 0%float); ("final_soil_moisture", 0%float)] /\
  forall (first : AtmosphericState) (others : list AtmosphericState),
    let states := first :: others in
    export_soil_moisture_features states =
      Ok [("mean_temperature", arithmetic_mean (map temperature_c states));
          ("mean_humidity", arithmetic_mean (map relative_humidity states));
          ("total_precipitation", py_sum (map precipitation_mm states));
          ("final_soil_moisture", soil_moisture (last states first))].
Proof.
  split; [reflexivity|].
  intros first others states.
  unfold export_soil_moisture_features, arithmetic_mean. subst states.
  rewrite !length_map.
  rewrite !float_div_len_pos by (cbn; lia).
  rewrite (py_last_last (first :: others) first) by discriminate.
  reflexivity.
Qed.

(** *** Daily averages *)

Lemma py_slice_day_chunk (vals : list float) (k : nat) :
  py_slice vals (24 * Z.of_nat k) (24 * Z.of_nat k + 24) = day_chunk vals k.
Proof.
  unfold py_slice, slice_index, day_chunk.
  replace (24 * Z.of_nat k <? 0) with false by (symmetry; apply Z.ltb_ge; lia).
  replace (24 * Z.of_nat k + 24 <? 0) with false by (symmetry; apply Z.ltb_ge; lia).
  set (n := List.length vals).
  destruct (Nat.le_gt_cases n (24 * k)) as [Hge|Hlt].
  - rewrite !Z.min_r by lia. rewrite Z.sub_diag. cbn [Z.to_nat firstn].
    rewrite (skipn_all2 vals) by (fold n; lia). now destruct (24%nat).
  - rewrite (Z.min_l (24 * Z.of_nat k)) by lia.
    replace (Z.to_nat (24 * Z.of_nat k)) with (24 * k)%nat by lia.
    assert (Hs : List.length (skipn (24 * k) vals) = (n - 24 * k)%nat)
      by (now rewrite length_skipn).
    destruct (Nat.le_gt_cases (24 * k + 24) n) as [Hfull|Hpart].
    + rewrite Z.min_l by lia. f_equal. lia.
    + rewrite Z.min_r by lia.
      rewrite !firstn_all2; [reflexivity | lia | lia].
Qed.

Lemma day_chunk_nil (vals : list float) (k : nat) :
  day_chunk vals k = [] <-> (List.length vals <= 24 * k)%nat.
Proof.
  unfold day_chunk. split.
  - intros H. apply (f_equal (@List.length float)) in H.
    rewrite length_firstn, length_skipn in H. cbn [List.length] in H. lia.
  - intros H. now rewrite (skipn_all2 vals) by lia.
Qed.

Lemma daily_loop_chunks (vals : list float) (count j : nat) :
  daily_loop vals 24 (range_from (24 * Z.of_nat j) 24 count) =
  Ok (map (fun k => arithmetic_mean (day_chunk vals k))
        (seq j (Nat.min count (stored_days vals - j)))).
Proof.
  revert j. induction count as [|count IH]; intros j; [reflexivity|].
  cbn [range_from daily_loop].
  rewrite py_slice_day_chunk.
  assert (Hd : (stored_days vals <= j <-> List.length vals <= 24 * j)%nat).
  { unfold stored_days.
    pose proof (Nat.div_mod_eq (List.length vals + 23) 24).
    pose proof (Nat.mod_upper_bound (List.length vals + 23) 24). lia. }
  destruct (day_chunk vals j) as [|x chunk] eqn:Ec.
  - apply day_chunk_nil in Ec. apply Hd in Ec.
    replace (stored_days vals - j)%nat with 0%nat by lia.
    now rewrite Nat.min_0_r.
  - assert (Hj : (j < stored_days vals)%nat).
    { destruct (Nat.le_gt_cases (stored_days vals) j) as [Hle|Hgt]; [|exact Hgt].
      apply Hd in Hle. apply day_chunk_nil in Hle. congruence. }
    rewrite float_div_len_pos by (cbn; lia). cbn [bind].
    replace (24 * Z.of_nat j + 24) with (24 * Z.of_nat (S j)) by lia.
    rewrite IH. cbn [bind].
    replace (Nat.min (S count) (stored_days vals - j))
      with (S (Nat.min count (stored_days vals - S j))) by lia.
    cbn [seq map]. rewrite <- Ec. reflexivity.
Qed.

(** C9.  For a forecast that stores at most [horizon_hours] values,
    [to_daily_averages] with 24 hours per day returns without error one
    entry per day that holds a value, entry [k] being the arithmetic mean of
    [values[24k : 24k+24]]: [ceil(horizon_hours / 24)] entries when the
    values fill the horizon, and when they fall short the iteration stops at
    the first empty day, so the days after the stored values produce no
    entry. *)
Theorem to_daily_averages_spec (forecast : SoilMoistureForecast) :
  Z.of_nat (List.length (values forecast)) <= horizon_hours forecast ->
  exists averages,
    to_daily_averages forecast 24 = Ok averages /\
    List.length averages = stored_days (values forecast) /\
    (Z.of_nat (List.length (values forecast)) = horizon_hours forecast ->
     Z.of_nat (List.length averages) = (horizon_hours forecast + 23) / 24) /\
    (forall (k : nat) (d : float), (k < List.length averages)%nat ->
       let chunk :=
         py_slice (values forecast) (24 * Z.of_nat k) (24 * Z.of_nat k + 24) in
       chunk <> [] /\ nth k averages d = arithmetic_mean chunk) /\
    py_slice (values forecast)
      (24 * Z.of_nat (List.length averages))
      (24 * Z.of_nat (List.length averages) + 24) = [].
Proof.
  intros Hle.
  set (vals := values forecast) in *.
  set (h := horizon_hours forecast) in *.
  set (count := Z.to_nat (range_length 0 h 24)).
  assert (Hcount : (stored_days vals <= count)%nat).
  { unfold count, range_length, stored_days. cbn [Z.ltb Z.compare].
    pose proof (Nat.div_mod_eq (List.length vals + 23) 24).
    pose proof (Nat.mod_upper_bound (List.length vals + 23) 24).
    destruct (0 <? h) eqn:Hh.
    - apply Z.ltb_lt in Hh.
      pose proof (Z.div_mod (h - 0 - 1) 24). pose proof (Z.mod_pos_bound (h - 0 - 1) 24).
      lia.
    - apply Z.ltb_ge in Hh. lia. }
  assert (Hrun : to_daily_averages forecast 24 =
                 Ok (map (fun k => arithmetic_mean (day_chunk vals k))
                       (seq 0 (stored_days vals)))).
  { unfold to_daily_averages, py_range3. cbn [Z.eqb bind]. fold h vals count.
    pose proof (daily_loop_chunks vals count 0) as L.
    change (24 * Z.of_nat 0) with 0 in L. rewrite L.
    now rewrite Nat.sub_0_r, Nat.min_r by exact Hcount. }
  eexists. split; [exact Hrun|].
  rewrite length_map, length_seq.
  split; [reflexivity|].
  split.
  { intros Heq. unfold stored_days.
    rewrite <- Heq. rewrite Nat2Z.inj_div, Nat2Z.inj_add. reflexivity. }
  split.
  - intros k d Hk chunk. subst chunk. rewrite py_slice_day_chunk.
    split.
    + intros Hnil. apply day_chunk_nil in Hnil. unfold stored_days in Hk.
      pose proof (Nat.div_mod_eq (List.length vals + 23) 24).
      pose proof (Nat.mod_upper_bound (List.length vals + 23) 24). lia.
    + rewrite (nth_indep _ d (arithmetic_mean (day_chunk vals 0)))
        by (now rewrite length_map, length_seq).
      rewrite (map_nth (fun k => arithmetic_mean (day_chunk vals k))).
      now rewrite seq_nth.
  - rewrite py_slice_day_chunk. apply day_chunk_nil. unfold stored_days.
    pose proof (Nat.div_mod_eq (List.length vals + 23) 24).
    pose proof (Nat.mod_upper_bound (List.length vals + 23) 24). lia.
Qed.

Lemma to_daily_averages_spec_witness :
  exists averages,
    to_daily_averages short_forecast 24 = Ok averages /\
    List.length averages = stored_days (values short_forecast) /\
    (Z.of_nat (List.length (values short_forecast)) = horizon_hours short_forecast ->
     Z.of_nat (List.length averages) = (horizon_hours short_forecast + 23) / 24) /\
    (forall (k : nat) (d : float), (k < List.length averages)%nat ->
       let chunk :=
         py_slice (values short_forecast) (24 * Z.of_nat k) (24 * Z.of_nat k + 24) in
       chunk <> [] /\ nth k averages d = arithmetic_mean chunk) /\
    py_slice (values short_forecast)
      (24 * Z.of_nat (List.length averages))
      (24 * Z.of_nat (List.length averages) + 24) = [].
Proof.
  apply (to_daily_averages_spec short_forecast).
  vm_compute. discriminate.
Defined.

End FeatureFacts.

(* ================================================================= *)
(** ** The post-processor (llm_postprocessing.py) *)

Module LLMFacts.

Import Notions.

Import Datetime Core LLM.

(** C7.  Without a configured callable, post-processing fails with the
    configuration error [RuntimeError] before any call of the external
    model (the log of calls is unchanged) and nothing is substituted for
    the forecast; with a callable, exactly one call is made, with the
    constructed prompt, whatever the callable answers, and the forecast is
    assembled from the parsed answer of that call. *)
Theorem postprocess_client_contract
    (horizon : Z) (initial_state : AtmosphericState)
    (projected_states : list AtmosphericState) (features : dict float)
    (log : list string) :
  let unconfigured := {| client := None; horizon_hours := horizon |} in
  postprocess unconfigured initial_state projected_states features log =
    (Raise (RuntimeError "No LLM client configured for post-processing"), log) /\
  forall call : LLMClient,
    let self := {| client := Some call; horizon_hours := horizon |} in
    let prompt := build_prompt self initial_state projected_states features in
    postprocess self initial_state projected_states features log =
      (response <- call prompt ;;
       vals <- parse_response self response ;;
       Ok (assembled_forecast self initial_state projected_states features vals),
       (log ++ [prompt])%list).
Proof.
  intros unconfigured. split; [reflexivity|].
  intros call self prompt.
  unfold postprocess, io_bind, _call_client, lift, ret.
  fold prompt. unfold self at 1. cbn [client].
  destruct (call prompt) as [response|e]; [|reflexivity].
  cbn [bind].
  destruct (parse_response self response) as [vals|e]; reflexivity.
Qed.

End LLMFacts.

(* ================================================================= *)
(** ** Slices *)

Module SliceFacts.

(** For a non-negative bound, [l[:hi]] is the first [hi] items of [l]. *)
Lemma py_slice_to_firstn {A : Type} (l : list A) (hi : Z) :
  0 <= hi -> py_slice_to l hi = firstn (Z.to_nat hi) l.
Proof.
  intros H. unfold py_slice_to, py_slice, slice_index.
  replace (hi <? 0) with false by (symmetry; apply Z.ltb_ge; lia).
  cbn [Z.ltb Z.compare].
  rewrite (Z.min_l 0) by lia. cbn [Z.to_nat skipn]. rewrite Z.sub_0_r.
  destruct (Z.le_gt_cases hi (Z.of_nat (List.length l))) as [Hle|Hgt].
  - now rewrite Z.min_l by lia.
  - rewrite Z.min_r by lia. rewrite Nat2Z.id.
    rewrite !firstn_all2; [reflexivity | lia | lia].
Qed.

(** For a negative bound, [l[:hi]] drops the last [-hi] items of [l]. *)
Lemma py_slice_to_negative {A : Type} (l : list A) (hi : Z) :
  hi < 0 -> py_slice_to l hi = firstn (List.length l - Z.to_nat (- hi)) l.
Proof.
  intros H. unfold py_slice_to, py_slice, slice_index.
  replace (hi <? 0) with true by (symmetry; apply Z.ltb_lt; lia).
  cbn [Z.ltb Z.compare].
  rewrite (Z.min_l 0) by lia. cbn [Z.to_nat skipn]. rewrite Z.sub_0_r.
  f_equal. lia.
Qed.

Lemma py_slice_to_nil {A : Type} (hi : Z) : py_slice_to (@nil A) hi = [].
Proof. unfold py_slice_to, py_slice. cbn [skipn]. apply firstn_nil. Qed.

Lemma py_slice_to_length {A : Type} (l : list A) (hi : Z) :
  0 <= hi -> Z.of_nat (List.length (py_slice_to l hi)) = Z.min hi (Z.of_nat (List.length l)).
Proof.
  intros H. rewrite py_slice_to_firstn by exact H. rewrite length_firstn. lia.
Qed.

Lemma to_nat_sub (h : Z) (n : nat) :
  Z.to_nat (h - Z.of_nat n) = (Z.to_nat h - n)%nat.
Proof. lia. Qed.

Lemma rev_head_last {A : Type} (l : list A) (d : A) :
  match rev l with x :: _ => x | [] => d end = last l d.
Proof.
  destruct l as [|y l]; [reflexivity|].
  destruct (@exists_last A (y :: l)) as (l' & x & E); [discriminate|].
  rewrite E, rev_app_distr, last_last. reflexivity.
Qed.

End SliceFacts.

(* ================================================================= *)
(** ** Parsing a response (llm_postprocessing.py) *)

Module ParseFacts.

Import Notions.

Import Datetime Core LLM SliceFacts.

(** [parse_response] is the candidate series cut at [horizon_hours]. *)
Lemma parse_response_candidates (self : LLMPostProcessor) (response : pyval) :
  parse_response self response =
  (series <- candidate_series response ;; Ok (py_slice_to series (horizon_hours self))).
Proof.
  unfold parse_response, candidate_series.
  destruct (json_loads (_coerce_response_text response)) as [data|e].
  - destruct (negb (is_iterable (candidate_values data))); reflexivity.
  - destruct e; reflexivity.
Qed.

(** What [parse_response] returns is never longer than the horizon. *)
Lemma parse_response_length (self : LLMPostProcessor) (response : pyval)
    (vals : list float) :
  0 <= horizon_hours self ->
  parse_response self response = Ok vals ->
  Z.of_nat (List.length vals) <= horizon_hours self.
Proof.
  intros Hh. rewrite parse_response_candidates.
  destruct (candidate_series response) as [series|e]; [|discriminate].
  cbn [bind]. intros H. inversion H. subst.
  rewrite py_slice_to_length by exact Hh. lia.
Qed.

End ParseFacts.

(* ================================================================= *)
(** ** The pipeline (pipeline.py) *)

Module PipelineFacts.

Import Notions.

Import Datetime Core LLM Pipeline SliceFacts ParseFacts CoreFacts.

(** The loop that extends the series appends [last_value] once per unit of
    fuel when the fuel is what is missing to the horizon. *)
Lemma extend_loop_repeat (fuel : nat) (extended : list float) (last_value : float)
    (hours_ahead : Z) :
  Z.of_nat (List.length extended) + Z.of_nat fuel <= hours_ahead ->
  extend_loop fuel extended last_value hours_ahead =
  (extended ++ repeat last_value fuel)%list.
Proof.
  revert extended. induction fuel as [|fuel IH]; intros extended H.
  - cbn. now rewrite app_nil_r.
  - cbn [extend_loop].
    replace (Z.of_nat (List.length extended) <? hours_ahead) with true
      by (symmetry; apply Z.ltb_lt; lia).
    rewrite IH by (rewrite length_app; cbn [List.length]; lia).
    rewrite <- app_assoc. reflexivity.
Qed.

(** Length reconciliation keeps the series and appends copies of its last
    value (of the initial soil moisture, for an empty series) up to the
    horizon. *)
Lemma reconcile_length_values (forecast : SoilMoistureForecast)
    (initial_state : AtmosphericState) (hours_ahead : Z) :
  values (reconcile_length forecast initial_state hours_ahead) =
  (values forecast ++
   repeat (last (values forecast) (soil_moisture initial_state))
     (Z.to_nat (hours_ahead - Z.of_nat (List.length (values forecast)))))%list.
Proof.
  unfold reconcile_length.
  destruct (Z.of_nat (List.length (values forecast)) <? hours_ahead) eqn:E.
  - apply Z.ltb_lt in E. cbn [values].
    rewrite extend_loop_repeat by lia. now rewrite rev_head_last.
  - apply Z.ltb_ge in E.
    replace (Z.to_nat (hours_ahead - Z.of_nat (List.length (values forecast))))
      with 0%nat by lia.
    cbn. now rewrite app_nil_r.
Qed.

Lemma finalize_metadata_values (forecast : SoilMoistureForecast) (now : datetime)
    (features : dict float) :
  values (finalize_metadata forecast now features) = values forecast.
Proof. reflexivity. Qed.

(** A pipeline run that returns went through every stage. *)
Lemma pipeline_returns (initial_state : AtmosphericState)
    (weather_data : list (dict pyval)) (model : option DeterministicAtmosphericModel)
    (post_processor : option LLMPostProcessor) (now : datetime)
    (forecast : SoilMoistureForecast) (log : list string) :
  run (predict_three_day_soil_moisture initial_state weather_data model
         post_processor now) = (Ok forecast, log) ->
  let pp := effective_post_processor post_processor in
  exists records states features processed,
    load_numerical_weather_outputs weather_data = Ok records /\
    predict (effective_model model) initial_state records (LLM.horizon_hours pp)
      = Ok states /\
    export_soil_moisture_features states = Ok features /\
    postprocess pp initial_state states features [] = (Ok processed, log) /\
    forecast =
      finalize_metadata
        (reconcile_length processed initial_state (LLM.horizon_hours pp)) now features.
Proof.
  intros H pp.
  unfold run, predict_three_day_soil_moisture, io_bind, lift, ret in H.
  fold (effective_model model) in H.
  fold (effective_post_processor post_processor) in H. fold pp in H.
  destruct (load_numerical_weather_outputs weather_data) as [records|] eqn:El;
    [|discriminate].
  cbn [model_predict deterministic_is_model] in H.
  destruct (predict (effective_model model) initial_state records (LLM.horizon_hours pp))
    as [states|] eqn:Es; [|discriminate].
  destruct (export_soil_moisture_features states) as [features|] eqn:Ef; [|discriminate].
  destruct (postprocess pp initial_state states features []) as [[processed|] log'] eqn:Ep;
    [|discriminate].
  inversion H. subst.
  exists records, states, features, processed. repeat split; auto.
Qed.

(** What a successful [postprocess] returns. *)
Lemma postprocess_returns (self : LLMPostProcessor) (initial_state : AtmosphericState)
    (states : list AtmosphericState) (features : dict float)
    (log0 log : list string) (processed : SoilMoistureForecast) :
  postprocess self initial_state states features log0 = (Ok processed, log) ->
  exists call response,
    client self = Some call /\
    call (build_prompt self initial_state states features) = Ok response /\
    parse_response self response = Ok (values processed) /\
    log = (log0 ++ [build_prompt self initial_state states features])%list.
Proof.
  unfold postprocess, io_bind, _call_client, lift, ret.
  destruct (client self) as [call|]; [|discriminate].
  destruct (call (build_prompt self initial_state states features)) as [response|] eqn:Ec;
    [|discriminate].
  destruct (parse_response self response) as [vals|] eqn:Ev; [|discriminate].
  intros H. inversion H. subst. cbn [values].
  exists call, response. auto.
Qed.

(** C3.  For a non-negative horizon, a pipeline invocation that returns
    gives a forecast with exactly [horizon_hours] values: it is the series
    the post-processor returned, kept whole as a prefix (never truncated
    here), followed by copies of its last value (of the initial soil
    moisture when the series is empty) up to the horizon; a series that
    already has [horizon_hours] values is returned unchanged, and every
    entry after the series equals its last value (entries 4 to 72 equal
    entry 3 for a series of 3 values and a horizon of 72). *)
Theorem pipeline_values_length (initial_state : AtmosphericState)
    (weather_data : list (dict pyval)) (model : option DeterministicAtmosphericModel)
    (post_processor : option LLMPostProcessor) (now : datetime)
    (forecast : SoilMoistureForecast) (log : list string) :
  let pp := effective_post_processor post_processor in
  0 <= LLM.horizon_hours pp ->
  run (predict_three_day_soil_moisture initial_state weather_data model
         post_processor now) = (Ok forecast, log) ->
  Z.of_nat (List.length (values forecast)) = LLM.horizon_hours pp /\
  exists states features processed,
    postprocess pp initial_state states features [] = (Ok processed, log) /\
    let series := values processed in
    let last_value := last series (soil_moisture initial_state) in
    values forecast =
      (series ++ repeat last_value
                   (Z.to_nat (LLM.horizon_hours pp) - List.length series))%list /\
    firstn (List.length series) (values forecast) = series /\
    (Z.of_nat (List.length series) = LLM.horizon_hours pp ->
     values forecast = series) /\
    (forall (k : nat) (d : float),
       (List.length series <= k < List.length (values forecast))%nat ->
       nth k (values forecast) d = last_value).
Proof.
  intros pp Hh Hrun.
  destruct (pipeline_returns _ _ _ _ _ _ _ Hrun)
    as (records & states & features & processed & _ & _ & _ & Hpost & ->).
  fold pp in Hpost.
  destruct (postprocess_returns _ _ _ _ _ _ _ Hpost) as (call & response & _ & _ & Hparse & _).
  pose proof (parse_response_length _ _ _ Hh Hparse) as Hlen.
  rewrite finalize_metadata_values, reconcile_length_values.
  set (series := values processed) in *.
  set (last_value := last series (soil_moisture initial_state)).
  fold pp. rewrite to_nat_sub.
  split.
  { rewrite length_app, repeat_length. lia. }
  exists states, features, processed.
  split; [exact Hpost|]. fold series. cbv zeta. fold last_value.
  split; [reflexivity|].
  split.
  { rewrite firstn_app, Nat.sub_diag, firstn_all. cbn. now rewrite app_nil_r. }
  split.
  { intros Heq. replace (Z.to_nat (LLM.horizon_hours pp) - List.length series)%nat
      with 0%nat by lia. cbn. now rewrite app_nil_r. }
  intros k d [Hk1 Hk2].
  rewrite app_nth2 by lia. apply nth_repeat_lt.
  rewrite length_app, repeat_length in Hk2. lia.
Qed.

Lemma three_value_run_returns :
  three_value_run = (Ok three_value_forecast, snd three_value_run).
Proof. vm_compute. reflexivity. Qed.

(** The three-value answer on a 72-hour horizon: 72 values, the entries
    after the third all equal to the third. *)
Lemma pipeline_values_length_witness :
  Z.of_nat (List.length (values three_value_forecast)) = 72 /\
  firstn 3 (values three_value_forecast) = [0.1; 0.2; 0.3]%float /\
  forall (k : nat) (d : float), (3 <= k < 72)%nat ->
    nth k (values three_value_forecast) d = 0.3%float.
Proof.
  destruct (pipeline_values_length sample_state sample_weather None
              (Some three_value_processor) 0 three_value_forecast
              (snd three_value_run) ltac:(cbn; lia) three_value_run_returns)
    as (Hlen & states & features & processed & Hpost & Hvals & Hpre & _ & Hrest).
  destruct (postprocess_returns _ _ _ _ _ _ _ Hpost)
    as (call & response & Hcall & Hresp & Hparse & _).
  cbn in Hcall. inversion Hcall. subst call. inversion Hresp. subst response.
  assert (Hs : values processed = [0.1; 0.2; 0.3]%float).
  { vm_compute in Hparse. now inversion Hparse. }
  rewrite Hs in *. cbn [List.length last] in *.
  split; [exact Hlen|]. split; [exact Hpre|].
  intros k d Hk. apply Hrest. split; [lia|].
  apply Nat2Z.inj_lt. rewrite Hlen. cbn. lia.
Defined.

(** *** Empty responses *)

Lemma export_features_total (states : list AtmosphericState) :
  exists features, export_soil_moisture_features states = Ok features.
Proof.
  destruct states as [|first others]; [eexists; reflexivity|].
  unfold export_soil_moisture_features.
  rewrite !(FeatureFacts.float_div_len_pos _ (List.length (first :: others)))
    by (cbn; lia).
  rewrite (FeatureFacts.py_last_last (first :: others) first) by discriminate.
  eexists. reflexivity.
Qed.

(** The steps [predict] takes stay in the range when those of the request
    do. *)
Lemma can_advance_firstn {A : Type} (t : datetime) (hours_ahead : Z) (records : list A) :
  can_advance t (Z.min hours_ahead (Z.of_nat (List.length records))) = true ->
  can_advance t
    (Z.of_nat (List.length
       (firstn (Z.to_nat (Z.min hours_ahead (Z.of_nat (List.length records))))
          records))) = true.
Proof.
  rewrite !can_advance_iff, length_firstn. intros [H0 H1]. split; [exact H0|].
  replace (Z.max 0 (Z.of_nat (Init.Nat.min
             (Z.to_nat (Z.min hours_ahead (Z.of_nat (List.length records))))
             (List.length records))))
    with (Z.max 0 (Z.min hours_ahead (Z.of_nat (List.length records)))) by lia.
  exact H1.
Qed.

(** On records that hold the forcing fields, and from an instant that
    leaves room for the hours it advances, [predict] returns. *)
Lemma predict_total (model : DeterministicAtmosphericModel)
    (initial_state : AtmosphericState) (records : list (dict float)) (hours_ahead : Z) :
  forallb forcing_complete records = true ->
  can_advance (timestamp initial_state)
    (Z.min hours_ahead (Z.of_nat (List.length records))) = true ->
  exists states, predict model initial_state records hours_ahead = Ok states.
Proof.
  intros Hall Hadv. rewrite predict_feed_forward.
  set (n := Z.to_nat (Z.min hours_ahead (Z.of_nat (List.length records)))).
  destruct (feed_forward_complete model (firstn n records) initial_state
              (firstn_forcing_complete n records Hall)
              (can_advance_firstn _ _ _ Hadv))
    as (states & Es & _).
  now exists states.
Qed.

(** From an instant that does not leave that room, [predict] raises. *)
Lemma predict_overflow (model : DeterministicAtmosphericModel)
    (initial_state : AtmosphericState) (records : list (dict float)) (hours_ahead : Z) :
  forallb forcing_complete records = true ->
  in_range (timestamp initial_state) = true ->
  can_advance (timestamp initial_state)
    (Z.min hours_ahead (Z.of_nat (List.length records))) = false ->
  predict model initial_state records hours_ahead =
  Raise (OverflowError "date value out of range").
Proof.
  intros Hall Hin Hadv. rewrite predict_feed_forward.
  set (n := Z.to_nat (Z.min hours_ahead (Z.of_nat (List.length records)))).
  apply (feed_forward_overflow model (firstn n records) initial_state
           (firstn_forcing_complete n records Hall) Hin).
  destruct (can_advance (timestamp initial_state)
              (Z.of_nat (List.length (firstn n records)))) eqn:E; [|reflexivity].
  rewrite <- Hadv. symmetry.
  apply can_advance_iff. apply can_advance_iff in E.
  rewrite length_firstn in E. unfold n in E.
  destruct E as [H0 H1]. split; [exact H0|].
  replace (Z.max 0 (Z.min hours_ahead (Z.of_nat (List.length records))))
    with (Z.max 0 (Z.of_nat (Init.Nat.min
            (Z.to_nat (Z.min hours_ahead (Z.of_nat (List.length records))))
            (List.length records)))) by lia.
  exact H1.
Qed.

(** When the weather normalises, the projected hours stay in the range of
    [datetime] and the client answers [response] to every prompt, the
    pipeline returns the parsed series reconciled to the horizon. *)
Lemma pipeline_with_response (initial_state : AtmosphericState)
    (weather_data : list (dict pyval)) (model : option DeterministicAtmosphericModel)
    (call : LLMClient) (horizon : Z) (now : datetime)
    (records : list (dict float)) (response : pyval) (series : list float) :
  let pp := {| client := Some call; LLM.horizon_hours := horizon |} in
  load_numerical_weather_outputs weather_data = Ok records ->
  can_advance (timestamp initial_state)
    (Z.min horizon (Z.of_nat (List.length weather_data))) = true ->
  (forall prompt, call prompt = Ok response) ->
  parse_response pp response = Ok series ->
  exists forecast log,
    run (predict_three_day_soil_moisture initial_state weather_data model
           (Some pp) now) = (Ok forecast, log) /\
    values forecast =
      (series ++ repeat (last series (soil_moisture initial_state))
                   (Z.to_nat horizon - List.length series))%list.
Proof.
  intros pp Hload Hadv Hcall Hparse.
  destruct (load_numerical_weather_outputs_complete _ _ Hload) as [Hall Hlen].
  rewrite <- Hlen in Hadv.
  destruct (predict_total (effective_model model) initial_state records horizon Hall Hadv)
    as [states Es].
  destruct (export_features_total states) as [features Ef].
  unfold run, predict_three_day_soil_moisture, io_bind, lift, ret.
  fold (effective_model model). rewrite Hload.
  cbn [model_predict deterministic_is_model LLM.horizon_hours]. fold pp.
  cbn [LLM.horizon_hours pp]. rewrite Es, Ef.
  unfold postprocess, io_bind, _call_client, lift, ret. cbn [client pp].
  rewrite Hcall. fold pp. rewrite Hparse.
  eexists. eexists. split; [reflexivity|].
  rewrite finalize_metadata_values, reconcile_length_values. cbn [values].
  now rewrite to_nat_sub.
Qed.

(** The empty tuple is not written as an empty JSON list. *)
Lemma empty_tuple_text_is_not_json :
  ~ (forall response : pyval,
       response = PList [] \/ response = PTuple [] ->
       _coerce_response_text response = "[]" /\
       json_loads (_coerce_response_text response) = Ok (PList [])).
Proof.
  intros H. destruct (H (PTuple []) (or_intror eq_refl)) as [Htext _].
  discriminate Htext.
Qed.

(** C10, amended.  An empty list or an empty tuple is not a string, not a
    mapping and not a non-empty sequence, so its text is [str] of it:
    ["[]"] for the list, which the structured tier decodes to an empty
    series, and ["()"] for the tuple, which is not JSON, so that the
    fallback runs and finds no number.  Either way the parsed series is
    empty, and when the weather normalises, the horizon is not negative and
    the projected hours (the smaller of the horizon and the number of
    weather entries) stay in the range of [datetime] from the initial
    timestamp, the pipeline returns [horizon_hours] values all equal to the
    initial soil moisture. *)
Theorem empty_response_pipeline (initial_state : AtmosphericState)
    (weather_data : list (dict pyval)) (model : option DeterministicAtmosphericModel)
    (call : LLMClient) (horizon : Z) (now : datetime)
    (records : list (dict float)) (response : pyval) :
  let pp := {| client := Some call; LLM.horizon_hours := horizon |} in
  0 <= horizon ->
  load_numerical_weather_outputs weather_data = Ok records ->
  can_advance (timestamp initial_state)
    (Z.min horizon (Z.of_nat (List.length weather_data))) = true ->
  response = PList [] \/ response = PTuple [] ->
  (forall prompt, call prompt = Ok response) ->
  _coerce_response_text (PList []) = "[]" /\
  json_loads "[]" = Ok (PList []) /\
  _coerce_response_text (PTuple []) = "()" /\
  json_loads "()" = Raise (JSONDecodeError "Expecting value") /\
  Re.findall number_pattern "()" = [] /\
  parse_response pp response = Ok [] /\
  exists forecast log,
    run (predict_three_day_soil_moisture initial_state weather_data model
           (Some pp) now) = (Ok forecast, log) /\
    Z.of_nat (List.length (values forecast)) = horizon /\
    values forecast = repeat (soil_moisture initial_state) (Z.to_nat horizon).
Proof.
  intros pp Hh Hload Hadv Hresp Hcall.
  assert (Hparse : parse_response pp response = Ok []).
  { rewrite parse_response_candidates.
    assert (Hc : candidate_series response = Ok [])
      by (destruct Hresp as [-> | ->]; reflexivity).
    rewrite Hc. cbn [bind]. now rewrite py_slice_to_nil. }
  repeat (split; [reflexivity|]).
  split; [exact Hparse|].
  destruct (pipeline_with_response initial_state weather_data model call horizon now
              records response [] Hload Hadv Hcall Hparse)
    as (forecast & log & Hrun & Hvals).
  exists forecast, log. split; [exact Hrun|].
  cbn [app last List.length] in Hvals. rewrite Nat.sub_0_r in Hvals.
  rewrite Hvals, repeat_length. split; [lia | reflexivity].
Qed.

Lemma empty_response_pipeline_witness :
  let pp := {| client := Some (fun _ => Ok (PTuple [])); LLM.horizon_hours := 72 |} in
  parse_response pp (PTuple []) = Ok [] /\
  exists forecast log,
    run (predict_three_day_soil_moisture sample_state sample_weather None
           (Some pp) 0) = (Ok forecast, log) /\
    Z.of_nat (List.length (values forecast)) = 72 /\
    values forecast = repeat (soil_moisture sample_state) 72.
Proof.
  intros pp.
  destruct (empty_response_pipeline sample_state sample_weather None
              (fun _ => Ok (PTuple [])) 72 0
              (match load_numerical_weather_outputs sample_weather with
               | Ok records => records
               | Raise _ => []
               end)
              (PTuple []) ltac:(lia) eq_refl eq_refl (or_intror eq_refl)
              (fun _ => eq_refl))
    as (_ & _ & _ & _ & _ & Hparse & Hrun).
  split; [exact Hparse | exact Hrun].
Defined.

End PipelineFacts.

(* ================================================================= *)
(** ** Text and pattern matching *)

Module TextFacts.

Import Notions.

Lemma append_nil_r (s : string) : s ++ "" = s.
Proof. induction s as [|c s IH]; cbn; congruence. Qed.

Lemma append_assoc (a b c : string) : (a ++ b) ++ c = a ++ (b ++ c).
Proof. induction a as [|x a IH]; cbn; congruence. Qed.

Lemma length_append (a b : string) :
  String.length (a ++ b) = (String.length a + String.length b)%nat.
Proof. induction a as [|x a IH]; cbn; congruence. Qed.

Lemma take_append (m r : string) : Re.take (String.length m) (m ++ r) = m.
Proof. induction m as [|c m IH]; cbn; [now destruct r | congruence]. Qed.

Lemma all_chars_append (p : ascii -> bool) (a b : string) :
  all_chars p (a ++ b) = all_chars p a && all_chars p b.
Proof.
  induction a as [|c a IH]; cbn; [reflexivity|].
  now rewrite IH, andb_assoc.
Qed.

(** *** Reversal and stripping *)

Lemma rev_string_append (acc a b : string) :
  rev_string acc (a ++ b) = rev_string (rev_string acc a) b.
Proof. revert acc. induction a as [|c a IH]; intros acc; cbn; [reflexivity | apply IH]. Qed.

Lemma rev_string_acc (acc s : string) :
  rev_string acc s = rev_string "" s ++ acc.
Proof.
  revert acc. induction s as [|c s IH]; intros acc; cbn; [reflexivity|].
  rewrite (IH (String c acc)), (IH (String c "")), append_assoc. reflexivity.
Qed.

Lemma rev_string_involutive (s : string) : rev_string "" (rev_string "" s) = s.
Proof.
  induction s as [|c s IH]; [reflexivity|].
  cbn. rewrite (rev_string_acc (String c "") s), rev_string_append, IH.
  reflexivity.
Qed.

(** A text whose first and last characters are not stripped is left as it
    is. *)
Lemma strip_unchanged (p : ascii -> bool) (s body : string) (first last : ascii)
    (rest : string) :
  s = String first rest -> s = body ++ String last "" ->
  p first = false -> p last = false ->
  strip p s = s.
Proof.
  intros Hs Hb Hf Hl. unfold strip.
  assert (Hd : drop_while p s = s) by (rewrite Hs; cbn; now rewrite Hf).
  rewrite Hd.
  assert (Hr : drop_while p (rev_string "" s) = rev_string "" s).
  { rewrite Hb, rev_string_append. cbn. now rewrite Hl. }
  rewrite Hr. apply rev_string_involutive.
Qed.

(** A non-empty text ends with its last character. *)
Lemma string_last (c : ascii) (s : string) :
  exists body last, String c s = body ++ String last "".
Proof.
  revert c. induction s as [|c' s IH]; intros c.
  - exists "", c. reflexivity.
  - destruct (IH c') as (body & last & E).
    exists (String c body), last. cbn. now rewrite E.
Qed.

Lemma all_chars_last (p : ascii -> bool) (body : string) (last : ascii) :
  all_chars p (body ++ String last "") = true -> p last = true.
Proof.
  rewrite all_chars_append. cbn. rewrite andb_true_r.
  intros H. apply andb_prop in H. tauto.
Qed.

(** *** Characters *)

Lemma ascii_eqb_false_of (p : ascii -> bool) (c x : ascii) :
  p c = true -> p x = false -> Ascii.eqb c x = false.
Proof.
  intros Hc Hx. destruct (Ascii.eqb c x) eqn:E; [|reflexivity].
  apply Ascii.eqb_eq in E. congruence.
Qed.

Lemma is_sign_cases (c : ascii) : is_sign c = true -> c = "+"%char \/ c = "-"%char.
Proof.
  unfold is_sign. intros H. apply orb_prop in H.
  destruct H as [H|H]; apply Ascii.eqb_eq in H; auto.
Qed.

Lemma is_dot_eq (c : ascii) : is_dot c = true -> c = "."%char.
Proof. unfold is_dot. apply Ascii.eqb_eq. Qed.

Lemma to_lower_digit (c : ascii) : is_digit c = true -> to_lower c = c.
Proof.
  unfold is_digit, to_lower. intros H. apply andb_prop in H. destruct H as [H1 H2].
  apply Z.leb_le in H2.
  replace ((65 <=? code c) && (code c <=? 90)) with false; [reflexivity|].
  symmetry. apply andb_false_iff. left. apply Z.leb_gt. lia.
Qed.

End TextFacts.

(* ================================================================= *)
(** ** The pattern matcher *)

Module ReFacts.

Import Notions.

Import Re TextFacts.

Lemma star_then_sound (k : string -> option string) (p : ascii -> bool)
    (s r : string) :
  star_then k p s = Some r ->
  exists a s', s = a ++ s' /\ all_chars p a = true /\ k s' = Some r.
Proof.
  revert r. induction s as [|c s IH]; intros r H.
  - exists "", "". repeat split. exact H.
  - cbn [star_then] in H. destruct (p c) eqn:Hp.
    + destruct (star_then k p s) as [r'|] eqn:E.
      * inversion H. subst r'.
        destruct (IH r eq_refl) as (a & s' & -> & Ha & Hk).
        exists (String c a), s'. cbn. rewrite Hp, Ha. auto.
      * exists "", (String c s). repeat split. exact H.
    + exists "", (String c s). repeat split. exact H.
Qed.

(** What [match_here] consumes is a text the pattern denotes. *)
Lemma match_here_sound (pat : pattern) (s r : string) :
  match_here pat s = Some r -> exists m, s = m ++ r /\ matches pat m.
Proof.
  revert s r. induction pat as [|it pat IH]; intros s r H.
  - inversion H. subst. exists "". split; reflexivity.
  - destruct it as [p|p|p|p]; cbn [match_here] in H.
    + destruct s as [|c s]; [discriminate|].
      destruct (p c) eqn:Hp; [|discriminate].
      destruct (IH _ _ H) as (m & -> & Hm).
      exists (String c m). split; [reflexivity|]. cbn. exists c, m. auto.
    + destruct s as [|c s].
      * destruct (IH _ _ H) as (m & E & Hm). exists m. split; [exact E|]. cbn. right. exact Hm.
      * destruct (p c) eqn:Hp.
        -- destruct (match_here pat s) as [r'|] eqn:E.
           ++ inversion H. subst r'.
              destruct (IH _ _ E) as (m & -> & Hm).
              exists (String c m). split; [reflexivity|]. cbn. left. exists c, m. auto.
           ++ destruct (IH _ _ H) as (m & E' & Hm). exists m. split; [exact E'|]. cbn. right. exact Hm.
        -- destruct (IH _ _ H) as (m & E' & Hm). exists m. split; [exact E'|]. cbn. right. exact Hm.
    + destruct (star_then_sound _ _ _ _ H) as (a & s' & -> & Ha & Hk).
      destruct (IH _ _ Hk) as (m & -> & Hm).
      exists (a ++ m). rewrite append_assoc. split; [reflexivity|]. cbn.
      exists a, m. auto.
    + destruct s as [|c s]; [discriminate|].
      destruct (p c) eqn:Hp; [|discriminate].
      destruct (star_then_sound _ _ _ _ H) as (a & s' & -> & Ha & Hk).
      destruct (IH _ _ Hk) as (m & -> & Hm).
      exists (String c (a ++ m)). cbn. rewrite append_assoc.
      split; [reflexivity|]. exists c, a, m. auto.
Qed.

Lemma match_text_sound (pat : pattern) (s m : string) :
  match_text pat s = Some m -> matches pat m.
Proof.
  unfold match_text. destruct (match_here pat s) as [r|] eqn:E; [|discriminate].
  intros H. inversion H. subst m.
  destruct (match_here_sound _ _ _ E) as (m & -> & Hm).
  rewrite length_append, Nat.add_sub, take_append. exact Hm.
Qed.

(** Every text [findall] returns is one the pattern denotes. *)
Lemma findall_scan_sound (pat : pattern) (s : string) (skip : nat) :
  Forall (matches pat) (findall_scan pat skip s).
Proof.
  revert skip. induction s as [|c s IH]; intros skip; cbn [findall_scan].
  - destruct skip; [|constructor].
    destruct (match_text pat "") as [m|] eqn:E; [|constructor].
    constructor; [exact (match_text_sound _ _ _ E) | constructor].
  - destruct skip as [|k]; [|apply IH].
    destruct (match_text pat (String c s)) as [m|] eqn:E; [|apply IH].
    constructor; [exact (match_text_sound _ _ _ E) | apply IH].
Qed.

Lemma findall_sound (pat : pattern) (s : string) :
  Forall (matches pat) (findall pat s).
Proof. apply findall_scan_sound. Qed.

End ReFacts.

(* ================================================================= *)
(** ** [float()] on the texts of the number pattern *)

Module FloatTextFacts.

Import Notions.

Import Re TextFacts ReFacts LLM.

Lemma digitpart_rest_digits (ds rest : string) :
  all_chars is_digit ds = true -> ends_digits rest ->
  digitpart_rest (ds ++ rest) = (ds, rest).
Proof.
  intros Hd Hr. induction ds as [|d ds IH].
  - cbn. destruct rest as [|c rest]; [reflexivity|].
    destruct Hr as [H1 H2]. cbn. now rewrite H1, H2.
  - cbn in Hd. apply andb_prop in Hd. destruct Hd as [Hd Hds].
    cbn. rewrite Hd, (IH Hds). reflexivity.
Qed.

Lemma digitpart_digits (ds rest : string) :
  all_chars is_digit ds = true -> ends_digits rest ->
  digitpart (ds ++ rest) = (ds, rest).
Proof.
  intros Hd Hr. destruct ds as [|d ds].
  - cbn. destruct rest as [|c rest]; [reflexivity|].
    destruct Hr as [H1 _]. cbn. now rewrite H1.
  - pose proof Hd as Hd'. cbn in Hd'. apply andb_prop in Hd'. destruct Hd' as [H1 _].
    change (digitpart (String d ds ++ rest))
      with (if is_digit d then digitpart_rest (String d ds ++ rest)
            else (EmptyString, String d ds ++ rest)).
    rewrite H1. now apply digitpart_rest_digits.
Qed.

Lemma digit_not_space (c : ascii) : is_digit c = true -> is_space c = false.
Proof.
  unfold is_digit, is_space. intros H. apply andb_prop in H. destruct H as [H1 H2].
  apply Z.leb_le in H1. apply Z.leb_le in H2.
  rewrite !orb_false_iff. repeat split.
  - apply andb_false_iff. right. apply Z.leb_gt. lia.
  - apply Z.eqb_neq. lia.
  - apply Z.eqb_neq. lia.
  - apply Z.eqb_neq. lia.
Qed.

(** The first character of such a body is a digit or the point. *)
Lemma number_body_head (a : string) (dotted : bool) (c : ascii) (b : string) :
  all_chars is_digit a = true -> is_digit c = true ->
  exists f rest,
    number_body a dotted c b = String f rest /\
    (is_digit f = true \/ f = "."%char).
Proof.
  intros Ha Hc. unfold number_body. destruct a as [|x a].
  - destruct dotted; cbn; eauto.
  - cbn in Ha. apply andb_prop in Ha. destruct Ha as [Hx _].
    cbn. eauto.
Qed.

Lemma number_body_last (a : string) (dotted : bool) (c : ascii) (b : string) :
  is_digit c = true -> all_chars is_digit b = true ->
  exists body last,
    number_body a dotted c b = body ++ String last "" /\ is_digit last = true.
Proof.
  intros Hc Hb. destruct (string_last c b) as (bb & last & E).
  exists (a ++ (if dotted then "." else "") ++ bb), last. split.
  - unfold number_body. rewrite E, !append_assoc. reflexivity.
  - apply (all_chars_last is_digit bb). rewrite <- E. cbn. now rewrite Hc, Hb.
Qed.

Lemma head_not_special (f : ascii) (rest : string) :
  is_digit f = true \/ f = "."%char ->
  String.eqb (lower (String f rest)) "inf" = false /\
  String.eqb (lower (String f rest)) "infinity" = false /\
  String.eqb (lower (String f rest)) "nan" = false /\
  read_sign (String f rest) = (false, String f rest) /\
  is_space f = false.
Proof.
  intros [Hd | ->].
  - cbn [lower String.eqb read_sign]. rewrite (to_lower_digit f Hd).
    rewrite (ascii_eqb_false_of is_digit f "i" Hd eq_refl).
    rewrite (ascii_eqb_false_of is_digit f "n" Hd eq_refl).
    rewrite (ascii_eqb_false_of is_digit f "-" Hd eq_refl).
    rewrite (ascii_eqb_false_of is_digit f "+" Hd eq_refl).
    rewrite (digit_not_space f Hd). repeat split; reflexivity.
  - repeat split; reflexivity.
Qed.

(** [float()] accepts the unsigned part, with either sign. *)
Lemma parse_floatnumber_body (neg : bool) (a : string) (dotted : bool) (c : ascii)
    (b : string) :
  all_chars is_digit a = true -> is_digit c = true -> all_chars is_digit b = true ->
  exists x, parse_floatnumber neg (number_body a dotted c b) = Some x.
Proof.
  intros Ha Hc Hb. unfold parse_floatnumber, number_body.
  assert (Hcb : all_chars is_digit (String c b) = true) by (cbn; now rewrite Hc, Hb).
  destruct dotted.
  - rewrite (digitpart_digits a ("." ++ String c b) Ha) by (split; reflexivity).
    cbn [append is_dot Ascii.eqb Bool.eqb].
    change (is_dot ".") with true. cbv iota.
    rewrite <- (append_nil_r (String c b)).
    rewrite (digitpart_digits (String c b) "" Hcb I).
    destruct (a ++ String c b) as [|h t] eqn:E.
    + destruct a; discriminate.
    + cbn [read_exponent]. eauto.
  - cbn [append].
    rewrite <- (append_nil_r (a ++ String c b)).
    rewrite (digitpart_digits (a ++ String c b) "");
      [|rewrite all_chars_append; now rewrite Ha, Hcb | exact I].
    rewrite !append_nil_r.
    destruct (a ++ String c b) as [|h t] eqn:E.
    + destruct a; discriminate.
    + cbn [read_exponent]. eauto.
Qed.

(** [float()] accepts a body of the number pattern as it stands. *)
Lemma float_of_str_body (a : string) (dotted : bool) (c : ascii) (b : string) :
  all_chars is_digit a = true -> is_digit c = true -> all_chars is_digit b = true ->
  exists x, float_of_str (number_body a dotted c b) = Some x.
Proof.
  intros Ha Hc Hb.
  destruct (number_body_head a dotted c b Ha Hc) as (f & rest & E & Hf).
  destruct (number_body_last a dotted c b Hc Hb) as (body & last & El & Hl).
  destruct (head_not_special f rest Hf) as (H1 & H2 & H3 & H4 & H5).
  destruct (parse_floatnumber_body false a dotted c b Ha Hc Hb) as [x Hx].
  exists x. unfold float_of_str.
  rewrite (strip_unchanged is_space _ body f last rest E El H5 (digit_not_space _ Hl)).
  rewrite E in *. rewrite H4, H1, H2, H3. exact Hx.
Qed.

(** [float()] accepts a signed body as well. *)
Lemma float_of_str_signed_body (sg : ascii) (a : string) (dotted : bool) (c : ascii)
    (b : string) :
  is_sign sg = true ->
  all_chars is_digit a = true -> is_digit c = true -> all_chars is_digit b = true ->
  exists x, float_of_str (String sg (number_body a dotted c b)) = Some x.
Proof.
  intros Hs Ha Hc Hb.
  destruct (number_body_head a dotted c b Ha Hc) as (f & rest & E & Hf).
  destruct (number_body_last a dotted c b Hc Hb) as (body & last & El & Hl).
  destruct (head_not_special f rest Hf) as (H1 & H2 & H3 & _ & _).
  assert (Hsp : is_space sg = false)
    by (destruct (is_sign_cases sg Hs) as [-> | ->]; reflexivity).
  unfold float_of_str.
  rewrite (strip_unchanged is_space _ (String sg body) sg last
             (number_body a dotted c b) eq_refl
             ltac:(cbn; now rewrite El) Hsp (digit_not_space _ Hl)).
  destruct (is_sign_cases sg Hs) as [-> | ->]; cbn [read_sign Ascii.eqb Bool.eqb];
    cbv iota; rewrite E, H1, H2, H3; rewrite <- E; cbn [orb];
    apply parse_floatnumber_body; assumption.
Qed.

(** Every text the number pattern denotes is accepted by [float()]. *)
Lemma float_of_str_number (m : string) :
  matches number_pattern m -> exists x, float_of_str m = Some x.
Proof.
  unfold number_pattern. cbn [matches].
  assert (Hbody : forall m1,
    (exists a m2, m1 = a ++ m2 /\ all_chars is_digit a = true /\
       ((exists c m3, m2 = String c m3 /\ is_dot c = true /\
           exists c0 b m4, m3 = String c0 (b ++ m4) /\ is_digit c0 = true /\
             all_chars is_digit b = true /\ m4 = "") \/
        exists c0 b m4, m2 = String c0 (b ++ m4) /\ is_digit c0 = true /\
          all_chars is_digit b = true /\ m4 = "")) ->
    exists a dotted c b,
      m1 = number_body a dotted c b /\ all_chars is_digit a = true /\
      is_digit c = true /\ all_chars is_digit b = true).
  { intros m1 (a & m2 & -> & Ha & [H | H]).
    - destruct H as (d & m3 & -> & Hd & c0 & b & m4 & -> & Hc & Hb & ->).
      apply is_dot_eq in Hd. subst d. rewrite append_nil_r.
      exists a, true, c0, b. auto.
    - destruct H as (c0 & b & m4 & -> & Hc & Hb & ->). rewrite append_nil_r.
      exists a, false, c0, b. auto. }
  intros [H | H].
  - destruct H as (sg & m1 & -> & Hs & H).
    destruct (Hbody m1 H) as (a & dotted & c & b & -> & Ha & Hc & Hb).
    now apply float_of_str_signed_body.
  - destruct (Hbody m H) as (a & dotted & c & b & -> & Ha & Hc & Hb).
    now apply float_of_str_body.
Qed.

(** The comprehension of the fallback never raises. *)
Lemma fallback_numbers_total (texts : list string) :
  Forall (matches number_pattern) texts ->
  exists numbers,
    map_result (fun value => py_float (PStr value)) texts = Ok numbers /\
    map float_of_str texts = map Some numbers.
Proof.
  induction 1 as [|m texts Hm Hall IH].
  - exists []. split; reflexivity.
  - destruct (float_of_str_number m Hm) as [x Hx].
    destruct IH as (numbers & E1 & E2).
    exists (x :: numbers). split.
    + change (map_result (fun value => py_float (PStr value)) (m :: texts))
        with (match py_float (PStr m) with
              | Raise e => Raise e
              | Ok y =>
                  match map_result (fun value => py_float (PStr value)) texts with
                  | Raise e => Raise e
                  | Ok ys => Ok (y :: ys)
                  end
              end).
      assert (Hp : py_float (PStr m) = Ok x) by (cbn [py_float]; now rewrite Hx).
      rewrite Hp, E1. reflexivity.
    + cbn [map]. now rewrite Hx, E2.
Qed.

End FloatTextFacts.

(* ================================================================= *)
(** ** The two parsing tiers (llm_postprocessing.py) *)

Module ResponseFacts.

Import Notions.

Import Datetime Core LLM Re TextFacts ReFacts FloatTextFacts SliceFacts ParseFacts.

(** *** The fallback tier *)

(** C5.  When the text of a response is not JSON, [parse_response] falls
    back to the texts [re.findall] extracts with the pattern
    [[-+]?[0-9]*\.?[0-9]+], left to right: each of them is an optional
    sign, digits, an optional point and at least one digit, [float()]
    accepts every one of them, and the floats obtained, in that order, are
    the candidate series, which is returned cut at [horizon_hours]. *)
Theorem fallback_extracts_numbers (self : LLMPostProcessor) (response : pyval)
    (msg : string) :
  let text := _coerce_response_text response in
  json_loads text = Raise (JSONDecodeError msg) ->
  let found := findall number_pattern text in
  Forall (matches number_pattern) found /\
  exists numbers,
    map float_of_str found = map Some numbers /\
    candidate_series response = Ok numbers /\
    parse_response self response = Ok (py_slice_to numbers (horizon_hours self)).
Proof.
  intros text Hjson found.
  pose proof (findall_sound number_pattern text) as Hfound. fold found in Hfound.
  split; [exact Hfound|].
  destruct (fallback_numbers_total found Hfound) as (numbers & Hmap & Hfloats).
  exists numbers. split; [exact Hfloats|].
  assert (Hc : candidate_series response = Ok numbers).
  { unfold candidate_series. fold text. rewrite Hjson. exact Hmap. }
  split; [exact Hc|].
  rewrite parse_response_candidates, Hc. reflexivity.
Qed.

(** The text ["values: 0.1, 0.2 and 0.33"] is not JSON and parses to
    [[0.1, 0.2, 0.33]]. *)
Lemma fallback_extracts_numbers_witness :
  parse_response default_post_processor (PStr "values: 0.1, 0.2 and 0.33") =
  Ok [0.1; 0.2; 0.33]%float.
Proof.
  destruct (fallback_extracts_numbers default_post_processor
              (PStr "values: 0.1, 0.2 and 0.33") "Expecting value" eq_refl)
    as (_ & numbers & Hfloats & _ & Hparse).
  rewrite Hparse.
  assert (Hn : numbers = [0.1; 0.2; 0.33]%float).
  { vm_compute in Hfloats.
    destruct numbers as [|a [|b [|c [|d numbers]]]]; try discriminate.
    now inversion Hfloats. }
  rewrite Hn. reflexivity.
Defined.

(** *** The structured tier on a list of floats *)

Lemma ascii_of_code (c : ascii) (n : Z) : code c = n -> c = chr n.
Proof.
  unfold code, chr. intros <-. rewrite N2Z.id. symmetry. apply ascii_N_embedding.
Qed.

Lemma json_ws_cases (c : ascii) :
  is_json_ws c = true -> c = chr 32 \/ c = chr 9 \/ c = chr 10 \/ c = chr 13.
Proof.
  unfold is_json_ws. intros H.
  repeat (apply orb_prop in H; destruct H as [H|H]);
    apply Z.eqb_eq in H; apply ascii_of_code in H; auto.
Qed.

(** Such a text starts with a character that is neither whitespace nor a
    closing bracket. *)
Lemma reads_back_head (x : float) :
  reads_back x ->
  exists c s, floatstr x = String c s /\ is_json_ws c = false /\ Ascii.eqb c "]" = false.
Proof.
  intros H. specialize (H 0%nat (String "," "") (ex_intro _ "" (or_introl eq_refl))).
  destruct (floatstr x) as [|c s]; [discriminate H|].
  exists c, s. split; [reflexivity|]. split.
  - destruct (is_json_ws c) eqn:E; [|reflexivity].
    destruct (json_ws_cases c E) as [-> | [-> | [-> | ->]]]; discriminate H.
  - destruct (Ascii.eqb c "]") eqn:E; [|reflexivity].
    apply Ascii.eqb_eq in E. subst c. discriminate H.
Qed.

Lemma skip_ws_head (c : ascii) (s : string) :
  is_json_ws c = false -> skip_ws (String c s) = String c s.
Proof. intros H. unfold skip_ws. cbn. now rewrite H. Qed.

Lemma array_items_step (fuel : nat) (s : string) (acc : list pyval) :
  array_items (S fuel) s acc =
  match scan_once fuel s with
  | Raise e => Raise e
  | Ok (v, r) =>
      match skip_ws r with
      | String c r1 =>
          if Ascii.eqb c "]" then Ok (PList (rev (v :: acc)), r1)
          else if Ascii.eqb c "," then array_items fuel (skip_ws r1) (v :: acc)
          else decode_error "Expecting ',' delimiter"
      | EmptyString => decode_error "Expecting ',' delimiter"
      end
  end.
Proof. reflexivity. Qed.

(** The items of [", ".join([repr(x)] * (n + 1))] followed by the closing
    bracket are read as [n + 1] copies of [x]. *)
Lemma array_items_floats (x : float) (n fuel : nat) (acc : list pyval) (rest : string) :
  reads_back x -> (n + 2 <= fuel)%nat ->
  array_items fuel (join ", " (repeat (floatstr x) (S n)) ++ String "]" rest) acc =
  Ok (PList (rev acc ++ repeat (PFloat x) (S n)), rest).
Proof.
  intros Hx. destruct (reads_back_head x Hx) as (c & s & Ec & Hws & _).
  revert fuel acc. induction n as [|n IH]; intros fuel acc Hfuel.
  - destruct fuel as [|[|fuel]]; try lia.
    cbn [repeat join String.concat]. rewrite array_items_step.
    rewrite Hx by (exists rest; auto).
    rewrite (skip_ws_head "]" rest eq_refl). cbn. reflexivity.
  - destruct fuel as [|[|fuel]]; try lia.
    change (join ", " (repeat (floatstr x) (S (S n))))
      with (floatstr x ++ ", " ++ join ", " (repeat (floatstr x) (S n))).
    rewrite !append_assoc. rewrite array_items_step.
    rewrite Hx by (eexists; left; reflexivity).
    cbn [append]. rewrite (skip_ws_head "," _ eq_refl).
    cbn [Ascii.eqb Bool.eqb]. cbv iota.
    assert (Hs : forall t, skip_ws (String " " t) = skip_ws t) by reflexivity.
    rewrite Hs.
    assert (Hj : exists t, join ", " (repeat (floatstr x) (S n)) = String c t).
    { destruct n; cbn [repeat join String.concat]; rewrite Ec; cbn; eauto. }
    destruct Hj as [t Et].
    assert (Hsk : forall u, skip_ws (join ", " (repeat (floatstr x) (S n)) ++ u)
                            = join ", " (repeat (floatstr x) (S n)) ++ u).
    { intros u. rewrite Et. cbn [append]. now apply skip_ws_head. }
    rewrite Hsk, IH by lia.
    cbn [rev repeat]. rewrite <- app_assoc. reflexivity.
Qed.

Lemma scan_once_object (fuel : nat) (s : string) :
  scan_once (S fuel) (String "{" s) =
  match skip_ws s with
  | String c1 r1 =>
      if Ascii.eqb c1 "}" then Ok (PDict [], r1)
      else if Ascii.eqb c1 dquote then object_items fuel r1 []
      else decode_error "Expecting property name enclosed in double quotes"
  | EmptyString => decode_error "Expecting property name enclosed in double quotes"
  end.
Proof. reflexivity. Qed.

Lemma scan_once_array (fuel : nat) (s : string) :
  scan_once (S fuel) (String "[" s) =
  match skip_ws s with
  | String c1 r1 =>
      if Ascii.eqb c1 "]" then Ok (PList [], r1)
      else array_items fuel (String c1 r1) []
  | EmptyString => decode_error "Expecting value"
  end.
Proof. reflexivity. Qed.

Lemma object_items_step (fuel : nat) (s : string) (acc : dict pyval) :
  object_items (S fuel) s acc =
  match scanstring s with
  | Raise e => Raise e
  | Ok (k, r) =>
      match skip_ws r with
      | String c r1 =>
          if Ascii.eqb c ":" then
            match scan_once fuel (skip_ws r1) with
            | Raise e => Raise e
            | Ok (v, r2) =>
                match skip_ws r2 with
                | String c2 r3 =>
                    if Ascii.eqb c2 "}" then Ok (PDict (dict_set acc k v), r3)
                    else if Ascii.eqb c2 "," then
                      match skip_ws r3 with
                      | String c3 r4 =>
                          if Ascii.eqb c3 dquote
                          then object_items fuel r4 (dict_set acc k v)
                          else decode_error
                                 "Expecting property name enclosed in double quotes"
                      | EmptyString =>
                          decode_error
                            "Expecting property name enclosed in double quotes"
                      end
                    else decode_error "Expecting ',' delimiter"
                | EmptyString => decode_error "Expecting ',' delimiter"
                end
            end
          else decode_error "Expecting ':' delimiter"
      | EmptyString => decode_error "Expecting ':' delimiter"
      end
  end.
Proof. reflexivity. Qed.

(** The key of the candidate series, as [json.dumps] writes it and as the
    decoder reads it back. *)
Lemma scanstring_soil_moisture (rest : string) :
  scanstring ("soil_moisture" ++ String dquote rest) = Ok ("soil_moisture", rest).
Proof. vm_compute. reflexivity. Qed.

Lemma length_join_repeat (sep item : string) (n : nat) :
  (n * String.length sep <= String.length (join sep (repeat item (S n))))%nat.
Proof.
  induction n as [|n IH]; [cbn; lia|].
  change (join sep (repeat item (S (S n))))
    with (item ++ sep ++ join sep (repeat item (S n))).
  rewrite !length_append. cbn [Nat.mul]. lia.
Qed.

Lemma dumps_float_list (x : float) (n : nat) :
  json_dumps (PDict [("soil_moisture", PList (repeat (PFloat x) (S n)))]) =
  float_list_text x n.
Proof.
  cbn [json_dumps map join String.concat].
  rewrite map_repeat. cbn [json_dumps].
  change (encode_str "soil_moisture")
    with (String dquote ("soil_moisture" ++ String dquote "")).
  unfold float_list_text, join.
  cbn [append]. rewrite !append_assoc. reflexivity.
Qed.

(** The decoder reads that text back as the mapping. *)
Lemma loads_float_list (x : float) (n : nat) :
  reads_back x ->
  json_loads (float_list_text x n) =
  Ok (PDict [("soil_moisture", PList (repeat (PFloat x) (S n)))]).
Proof.
  intros Hx. destruct (reads_back_head x Hx) as (c & s & Ec & Hws & Hbr).
  unfold json_loads.
  assert (Hsk : skip_ws (float_list_text x n) = float_list_text x n) by reflexivity.
  rewrite Hsk.
  assert (Hfuel : (n + 5 <= loads_fuel (float_list_text x n))%nat).
  { unfold loads_fuel, float_list_text. cbn [String.length append].
    rewrite !length_append.
    pose proof (length_join_repeat ", " (floatstr x) n) as L.
    cbn [String.length] in L. unfold join in *. lia. }
  destruct (loads_fuel (float_list_text x n)) as [|[|[|fuel]]]; try lia.
  unfold float_list_text.
  rewrite scan_once_object. rewrite (skip_ws_head dquote _ eq_refl).
  change (Ascii.eqb dquote "}") with false.
  change (Ascii.eqb dquote dquote) with true. cbv iota.
  rewrite object_items_step, scanstring_soil_moisture.
  cbn [append]. rewrite (skip_ws_head ":" _ eq_refl).
  change (Ascii.eqb ":" ":") with true. cbv iota.
  assert (Hs : forall t, skip_ws (String " " t) = skip_ws t) by reflexivity.
  rewrite Hs, (skip_ws_head "[" _ eq_refl).
  rewrite scan_once_array.
  assert (Hj : exists t, join ", " (repeat (floatstr x) (S n)) = String c t).
  { destruct n; cbn [repeat join String.concat]; rewrite Ec; cbn; eauto. }
  destruct Hj as [t Et].
  pose proof (array_items_floats x n fuel [] "}" Hx ltac:(lia)) as Hitems.
  rewrite Et in *. cbn [append] in *.
  rewrite (skip_ws_head c _ Hws), Hbr, Hitems.
  cbn [rev app].
  rewrite (skip_ws_head "}" "" eq_refl).
  change (Ascii.eqb "}" "}") with true. cbv iota.
  reflexivity.
Qed.

Lemma coerce_floats (x : float) (n : nat) :
  map_result coerce_value (repeat (PFloat x) n) = Ok (repeat x n).
Proof.
  induction n as [|n IH]; [reflexivity|].
  cbn [repeat map_result coerce_value py_float]. now rewrite IH.
Qed.

(** The candidate series of the mapping is the list of floats itself. *)
Lemma candidate_series_float_list (x : float) (n : nat) :
  reads_back x ->
  candidate_series (PDict [("soil_moisture", PList (repeat (PFloat x) (S n)))]) =
  Ok (repeat x (S n)).
Proof.
  intros Hx. unfold candidate_series.
  change (_coerce_response_text (PDict [("soil_moisture", PList (repeat (PFloat x) (S n)))]))
    with (json_dumps (PDict [("soil_moisture", PList (repeat (PFloat x) (S n)))])).
  rewrite dumps_float_list, (loads_float_list x n Hx).
  change (candidate_values (PDict [("soil_moisture", PList (repeat (PFloat x) (S n)))]))
    with (PList (repeat (PFloat x) (S n))).
  cbn [is_iterable negb py_iter].
  apply coerce_floats.
Qed.

Lemma firstn_repeat_min {A : Type} (x : A) (k n : nat) :
  firstn k (repeat x n) = repeat x (Nat.min k n).
Proof.
  revert n. induction k as [|k IH]; intros [|n]; cbn; try reflexivity.
  now rewrite IH.
Qed.

(** The text of 0.5 reads back as 0.5. *)
Lemma reads_back_half : reads_back 0.5%float.
Proof.
  intros fuel rest [r [-> | ->]]; vm_compute; reflexivity.
Qed.

(** C4.  For a non-negative horizon [h] and a float [x] whose JSON text
    reads back as [x], the mapping [{"soil_moisture": [x] * 100}] parses to
    exactly the first [h] copies of [x] (all 100 when [h] is larger); and
    whatever a response is, in both tiers what [parse_response] returns is a
    prefix of the candidate series, at most [horizon_hours] long and never
    longer than the candidate series: it is cut, never padded. *)
Theorem parse_response_truncates (x : float) (h : Z) (self : LLMPostProcessor)
    (response : pyval) (vals : list float) :
  0 <= h -> reads_back x ->
  0 <= horizon_hours self -> parse_response self response = Ok vals ->
  parse_response {| client := None; horizon_hours := h |}
    (PDict [("soil_moisture", PList (repeat (PFloat x) 100))]) =
    Ok (firstn (Z.to_nat h) (repeat x 100)) /\
  firstn (Z.to_nat h) (repeat x 100) = repeat x (Z.to_nat (Z.min h 100)) /\
  exists series,
    candidate_series response = Ok series /\
    vals = firstn (Z.to_nat (horizon_hours self)) series /\
    Z.of_nat (List.length vals) <= horizon_hours self /\
    (List.length vals <= List.length series)%nat.
Proof.
  intros Hh Hx Hs Hparse.
  split.
  { rewrite parse_response_candidates, (candidate_series_float_list x 99 Hx).
    cbn [bind horizon_hours]. now rewrite py_slice_to_firstn. }
  split.
  { rewrite firstn_repeat_min. f_equal. lia. }
  rewrite parse_response_candidates in Hparse.
  destruct (candidate_series response) as [series|e]; [|discriminate].
  cbn [bind] in Hparse. inversion Hparse as [Hv].
  rewrite py_slice_to_firstn by exact Hs.
  exists series. split; [reflexivity|]. split; [reflexivity|].
  rewrite length_firstn. split; lia.
Qed.

(** The mapping of the test suite: 100 copies of 0.5 and a horizon of 72. *)
Lemma parse_response_truncates_witness :
  parse_response default_post_processor
    (PDict [("soil_moisture", PList (repeat (PFloat 0.5) 100))]) =
  Ok (repeat 0.5%float 72).
Proof.
  destruct (parse_response_truncates 0.5 72 default_post_processor
              (PDict [("soil_moisture", PList (repeat (PFloat 0.5) 100))])
              (repeat 0.5%float 72)
              ltac:(lia) reads_back_half ltac:(cbn; lia)
              ltac:(vm_compute; reflexivity)) as (H & _).
  exact H.
Defined.

(** *** Errors of the structured tier *)

(** A candidate that is not iterable: the parser's [ValueError]. *)
Lemma parse_response_not_iterable (self : LLMPostProcessor) (response data : pyval) :
  json_loads (_coerce_response_text response) = Ok data ->
  is_iterable (candidate_values data) = false ->
  parse_response self response =
  Raise (ValueError "LLM response does not contain an iterable of values" None).
Proof.
  intros Hj Hi. unfold parse_response. now rewrite Hj, Hi.
Qed.

(** The loop over the items stops at the first one [float()] refuses. *)
Lemma map_result_first_failure (good : list pyval) (floats : list float)
    (bad : pyval) (rest : list pyval) (e : exn) :
  map_result coerce_value good = Ok floats ->
  coerce_value bad = Raise e ->
  map_result coerce_value (good ++ bad :: rest) = Raise e.
Proof.
  revert floats. induction good as [|v good IH]; intros floats Hg Hb.
  - cbn. now rewrite Hb.
  - cbn [app map_result] in *.
    destruct (coerce_value v); [|discriminate].
    destruct (map_result coerce_value good) as [fs|]; [|discriminate].
    now rewrite (IH fs eq_refl Hb).
Qed.

(** An item [float()] refuses with a [TypeError] or a [ValueError] makes
    the parser fail with its own [ValueError], raised from that error. *)
Lemma parse_response_invalid_item (self : LLMPostProcessor) (response data : pyval)
    (good : list pyval) (floats : list float) (bad : pyval) (rest : list pyval)
    (e : exn) :
  json_loads (_coerce_response_text response) = Ok data ->
  is_iterable (candidate_values data) = true ->
  py_iter (candidate_values data) = (good ++ bad :: rest)%list ->
  map_result coerce_value good = Ok floats ->
  py_float bad = Raise e ->
  (exists msg, e = TypeError msg) \/ (exists msg cause, e = ValueError msg cause) ->
  parse_response self response =
  Raise (ValueError "Invalid soil moisture value in LLM response" (Some e)).
Proof.
  intros Hj Hi Hit Hg Hb He. unfold parse_response. rewrite Hj, Hi, Hit. cbn [negb].
  rewrite (map_result_first_failure good floats bad rest
             (ValueError "Invalid soil moisture value in LLM response" (Some e)) Hg).
  - reflexivity.
  - unfold coerce_value. rewrite Hb.
    destruct He as [[msg ->] | (msg & cause & ->)]; reflexivity.
Qed.

(** An integer item beyond the range of a float is refused with an
    [OverflowError], which the loop does not catch. *)
Lemma parse_response_overflowing_item (self : LLMPostProcessor) (response data : pyval)
    (good : list pyval) (floats : list float) (n : Z) (rest : list pyval) :
  json_loads (_coerce_response_text response) = Ok data ->
  is_iterable (candidate_values data) = true ->
  py_iter (candidate_values data) = (good ++ PInt n :: rest)%list ->
  map_result coerce_value good = Ok floats ->
  is_infinity (round_Z n) = true ->
  parse_response self response =
  Raise (OverflowError "int too large to convert to float").
Proof.
  intros Hj Hi Hit Hg Hn. unfold parse_response. rewrite Hj, Hi, Hit. cbn [negb].
  rewrite (map_result_first_failure good floats (PInt n) rest
             (OverflowError "int too large to convert to float") Hg).
  - reflexivity.
  - unfold coerce_value, py_float, float_of_int. now rewrite Hn.
Qed.

(** C6 (defect).  The text is valid JSON and its candidate series is a
    list, but its item cannot be coerced to a float, and [parse_response]
    fails with [OverflowError] where a [ValueError] is promised. *)
Theorem parse_response_overflow_escapes :
  json_loads huge_integer_text = Ok (PList [PInt (10 ^ 400)]) /\
  parse_response default_post_processor (PStr huge_integer_text) =
  Raise (OverflowError "int too large to convert to float").
Proof. split; vm_compute; reflexivity. Qed.

End ResponseFacts.

(** ** The JSON decoder never runs out of fuel *)

Module DecoderFacts.

Import LLM Notions.

Lemma scans_longer {A : Type} (s1 s2 : string) (res : result (A * string)) :
  scans s1 res -> (String.length s1 <= String.length s2)%nat -> scans s2 res.
Proof.
  unfold scans. destruct res as [[v rest]|e]; [lia | auto].
Qed.

Lemma scans_decode_error {A : Type} (s msg : string) :
  scans s (@decode_error (A * string) msg).
Proof. exact I. Qed.

Lemma skip_ws_length (s : string) :
  (String.length (skip_ws s) <= String.length s)%nat.
Proof.
  unfold skip_ws. induction s as [|c s IH]; cbn [drop_while]; [lia|].
  destruct (is_json_ws c); cbn [String.length]; lia.
Qed.

Lemma skip_ws_cons_length (s : string) (c : ascii) (r : string) :
  skip_ws s = String c r -> (S (String.length r) <= String.length s)%nat.
Proof.
  intros E. pose proof (skip_ws_length s) as L. rewrite E in L. exact L.
Qed.

Lemma strip_prefix_length (pre : string) : forall s r : string,
  strip_prefix pre s = Some r ->
  String.length s = (String.length pre + String.length r)%nat.
Proof.
  induction pre as [|a pre IH]; intros s r H.
  - destruct s; cbn in H; injection H as <-; reflexivity.
  - destruct s as [|b s]; cbn [strip_prefix] in H; [discriminate|].
    destruct (Ascii.eqb a b); [|discriminate].
    cbn [String.length]. rewrite (IH s r H). reflexivity.
Qed.

Lemma span_length (p : ascii -> bool) : forall s a b : string,
  span p s = (a, b) ->
  String.length s = (String.length a + String.length b)%nat.
Proof.
  induction s as [|c s IH]; intros a b H; cbn [span] in H.
  - injection H as <- <-. reflexivity.
  - destruct (p c).
    + destruct (span p s) as [a' b'] eqn:E. injection H as <- <-.
      cbn [String.length]. rewrite (IH a' b' eq_refl). reflexivity.
    + injection H as <- <-. reflexivity.
Qed.

Lemma scan_int_part_shorter (s ip r : string) :
  scan_int_part s = Some (ip, r) -> (String.length r < String.length s)%nat.
Proof.
  destruct s as [|c s']; cbn [scan_int_part]; [discriminate|].
  destruct (Ascii.eqb c "0").
  - intros H. injection H as _ <-. cbn [String.length]. lia.
  - destruct (is_digit c) eqn:D; [|discriminate].
    intros H. injection H as H. cbn [span] in H. rewrite D in H.
    destruct (span is_digit s') as [a b] eqn:E. injection H as _ <-.
    pose proof (span_length is_digit s' a b E) as L. cbn [String.length]. lia.
Qed.

Lemma scan_frac_length (s fp r : string) :
  scan_frac s = (fp, r) -> (String.length r <= String.length s)%nat.
Proof.
  destruct s as [|c s']; cbn [scan_frac].
  - intros H. injection H as _ <-. lia.
  - destruct (is_dot c).
    + destruct (span is_digit s') as [ds r'] eqn:E.
      pose proof (span_length is_digit s' ds r' E) as L.
      destruct ds; intros H; injection H as _ <-; cbn [String.length] in *; lia.
    + intros H. injection H as _ <-. lia.
Qed.

Lemma scan_exp_length (s ep r : string) :
  scan_exp s = (ep, r) -> (String.length r <= String.length s)%nat.
Proof.
  destruct s as [|c s']; cbn [scan_exp].
  - intros H. injection H as _ <-. lia.
  - destruct (Ascii.eqb c "e" || Ascii.eqb c "E").
    + assert (L : forall sg s1,
                 (String.length s1 <= String.length s')%nat ->
                 (let '(sg, s1) := (sg, s1) in
                  match span is_digit s1 with
                  | (EmptyString, _) => (EmptyString, String c s')
                  | (ds, r) => (String c (sg ++ ds), r)
                  end) = (ep, r) ->
                 (String.length r <= String.length (String c s'))%nat).
      { intros sg s1 L1. cbn iota.
        destruct (span is_digit s1) as [ds r'] eqn:E.
        pose proof (span_length is_digit s1 ds r' E) as L2.
        destruct ds; intros H; injection H as _ <-; cbn [String.length] in *; lia. }
      destruct s' as [|c' s''].
      * apply (L "" ""). lia.
      * destruct (is_sign c');
          [apply (L (String c' "") s'') | apply (L "" (String c' s''))];
          cbn [String.length]; lia.
    + intros H. injection H as _ <-. lia.
Qed.

Lemma scan_number_shorter (s : string) (v : pyval) (r : string) :
  scan_number s = Some (v, r) -> (String.length r < String.length s)%nat.
Proof.
  unfold scan_number.
  assert (L : forall (neg : bool) (s1 : string),
             (String.length s1 <= String.length s)%nat ->
             (let '(neg, s1) := (neg, s1) in
              match scan_int_part s1 with
              | None => None
              | Some (ip, r1) =>
                  let '(fp, r2) := scan_frac r1 in
                  let '(ep, r3) := scan_exp r2 in
                  match (fp ++ ep)%string with
                  | EmptyString =>
                      Some (PInt (if neg then - digits_value 0 ip else digits_value 0 ip), r3)
                  | _ =>
                      match float_of_str ((if neg then "-" else "") ++ ip ++ fp ++ ep) with
                      | Some x => Some (PFloat x, r3)
                      | None => None
                      end
                  end
              end) = Some (v, r) ->
             (String.length r < String.length s)%nat).
  { intros neg s1 L1. cbn iota.
    destruct (scan_int_part s1) as [[ip r1]|] eqn:E1; [|discriminate].
    destruct (scan_frac r1) as [fp r2] eqn:E2.
    destruct (scan_exp r2) as [ep r3] eqn:E3.
    pose proof (scan_int_part_shorter s1 ip r1 E1).
    pose proof (scan_frac_length r1 fp r2 E2).
    pose proof (scan_exp_length r2 ep r3 E3).
    destruct (fp ++ ep)%string.
    - intros H2. injection H2 as _ <-. lia.
    - destruct (float_of_str _); [|discriminate].
      intros H2. injection H2 as _ <-. lia. }
  destruct s as [|c s'].
  - apply (L false ""). lia.
  - destruct (Ascii.eqb c "-");
      [apply (L true s') | apply (L false (String c s'))]; cbn [String.length]; lia.
Qed.

Lemma scan_atom_scans (s : string) : scans s (scan_atom s).
Proof.
  unfold scan_atom.
  repeat
    match goal with
    | |- scans _ (match strip_prefix ?p s with _ => _ end) =>
        let E := fresh "E" in
        destruct (strip_prefix p s) eqn:E;
        [ apply strip_prefix_length in E; cbn [scans String.length] in *; lia | ]
    end.
  destruct (scan_number s) as [[v r]|] eqn:En.
  - apply scan_number_shorter in En. exact En.
  - repeat
      match goal with
      | |- scans _ (match strip_prefix ?p s with _ => _ end) =>
          let E := fresh "E" in
          destruct (strip_prefix p s) eqn:E;
          [ apply strip_prefix_length in E; cbn [scans String.length] in *; lia | ]
      end.
    exact I.
Qed.

(** A string literal is read with a decoding error or leaves a shorter
    text. *)
Lemma scanstring_scans : forall (n : nat) (s : string),
  (String.length s <= n)%nat -> scans s (scanstring s).
Proof.
  induction n as [|n IH]; intros s L.
  - destruct s; [exact I | cbn [String.length] in L; lia].
  - destruct s as [|c s']; [exact I|].
    cbn [String.length] in L.
    assert (K : forall (f : string -> string) (r : string),
               (String.length r <= String.length s')%nat ->
               scans (String c s')
                 (match scanstring r with
                  | Ok (t, rest) => Ok (f t, rest)
                  | Raise e => Raise e
                  end)).
    { intros f r Lr. pose proof (IH r ltac:(lia)) as Hr.
      destruct (scanstring r) as [[t rest]|e]; cbn [scans] in *;
        [cbn [String.length]; lia | exact Hr]. }
    cbn [scanstring].
    destruct (Ascii.eqb c dquote); [cbn [scans String.length]; lia|].
    destruct (Ascii.eqb c backslash).
    + destruct s' as [|e s'']; [exact I|].
      destruct (Ascii.eqb e "u").
      * destruct s'' as [|h1 [|h2 [|h3 [|h4 r]]]]; try exact I.
        destruct (hex4_val h1 h2 h3 h4) as [hi|]; [|exact I].
        destruct (if (55296 <=? hi) && (hi <=? 56319) then low_surrogate r else None)
          as [[lo q]|].
        -- destruct r as [|? [|? [|? [|? [|? [|? r']]]]]]; try exact I.
           refine (K (fun t => _ ++ t) r' _). cbn [String.length]. lia.
        -- refine (K (fun t => _ ++ t) r _). cbn [String.length]. lia.
      * destruct (unescape e) as [ch|]; [|exact I].
        apply (K (String ch)). cbn [String.length]. lia.
    + destruct (code c <? 32); [exact I|]. apply (K (String c)). lia.
Qed.

Lemma scan_once_step (fuel : nat) (s : string) :
  scan_once (S fuel) s =
  match s with
  | EmptyString => decode_error "Expecting value"
  | String c s' =>
      if Ascii.eqb c dquote then
        match scanstring s' with
        | Ok (t, r) => Ok (PStr t, r)
        | Raise e => Raise e
        end
      else if Ascii.eqb c "{" then
        match skip_ws s' with
        | String c1 r1 =>
            if Ascii.eqb c1 "}" then Ok (PDict [], r1)
            else if Ascii.eqb c1 dquote then object_items fuel r1 []
            else decode_error "Expecting property name enclosed in double quotes"
        | EmptyString =>
            decode_error "Expecting property name enclosed in double quotes"
        end
      else if Ascii.eqb c "[" then
        match skip_ws s' with
        | String c1 r1 =>
            if Ascii.eqb c1 "]" then Ok (PList [], r1)
            else array_items fuel (String c1 r1) []
        | EmptyString => decode_error "Expecting value"
        end
      else scan_atom s
  end.
Proof. reflexivity. Qed.

(** With fuel for twice the length of the text, the three readers end with
    a value and a shorter text, or with a decoding error: the fuel is never
    what stops them. *)
Lemma decoder_fuel : forall fuel : nat,
  (forall s, (2 * String.length s + 1 <= fuel)%nat -> scans s (scan_once fuel s)) /\
  (forall s acc, (2 * String.length s + 2 <= fuel)%nat ->
     scans s (array_items fuel s acc)) /\
  (forall s acc, (2 * String.length s + 1 <= fuel)%nat ->
     scans s (object_items fuel s acc)).
Proof.
  induction fuel as [|fuel (IHs & IHa & IHo)].
  - repeat split; intros; lia.
  - repeat split.
    + intros s L. rewrite scan_once_step.
      destruct s as [|c s']; [exact I|]. cbn [String.length] in L.
      destruct (Ascii.eqb c dquote).
      { pose proof (scanstring_scans _ s' (le_n _)) as H.
        destruct (scanstring s') as [[t r]|e]; cbn [scans String.length] in *;
          [lia | exact H]. }
      destruct (Ascii.eqb c "{").
      { destruct (skip_ws s') as [|c1 r1] eqn:E; [exact I|].
        apply skip_ws_cons_length in E.
        destruct (Ascii.eqb c1 "}"); [cbn [scans String.length]; lia|].
        destruct (Ascii.eqb c1 dquote); [|exact I].
        apply (scans_longer r1); [apply IHo; lia | cbn [String.length]; lia]. }
      destruct (Ascii.eqb c "[").
      { destruct (skip_ws s') as [|c1 r1] eqn:E; [exact I|].
        apply skip_ws_cons_length in E.
        destruct (Ascii.eqb c1 "]"); [cbn [scans String.length]; lia|].
        apply (scans_longer (String c1 r1));
          [apply IHa; cbn [String.length]; lia | cbn [String.length]; lia]. }
      apply scan_atom_scans.
    + intros s acc L. rewrite ResponseFacts.array_items_step.
      pose proof (IHs s ltac:(lia)) as H.
      destruct (scan_once fuel s) as [[v r]|e]; [|exact H]. cbn [scans] in H.
      destruct (skip_ws r) as [|c r1] eqn:E; [exact I|].
      apply skip_ws_cons_length in E.
      destruct (Ascii.eqb c "]"); [cbn [scans]; lia|].
      destruct (Ascii.eqb c ","); [|exact I].
      pose proof (skip_ws_length r1) as L1.
      apply (scans_longer (skip_ws r1)); [apply IHa; lia | lia].
    + intros s acc L. rewrite ResponseFacts.object_items_step.
      pose proof (scanstring_scans _ s (le_n _)) as H.
      destruct (scanstring s) as [[k r]|e]; [|exact H]. cbn [scans] in H.
      destruct (skip_ws r) as [|c r1] eqn:E; [exact I|].
      apply skip_ws_cons_length in E.
      destruct (Ascii.eqb c ":"); [|exact I].
      pose proof (skip_ws_length r1) as L1.
      pose proof (IHs (skip_ws r1) ltac:(lia)) as H2.
      destruct (scan_once fuel (skip_ws r1)) as [[v r2]|e]; [|exact H2].
      cbn [scans] in H2.
      destruct (skip_ws r2) as [|c2 r3] eqn:E2; [exact I|].
      apply skip_ws_cons_length in E2.
      destruct (Ascii.eqb c2 "}"); [cbn [scans]; lia|].
      destruct (Ascii.eqb c2 ","); [|exact I].
      destruct (skip_ws r3) as [|c3 r4] eqn:E3; [exact I|].
      apply skip_ws_cons_length in E3.
      destruct (Ascii.eqb c3 dquote); [|exact I].
      apply (scans_longer r4); [apply IHo; lia | lia].
Qed.

(** [scan_once] with the fuel [json_loads] gives it. *)
Lemma scan_once_fuel (s : string) : scans s (scan_once (loads_fuel s) s).
Proof.
  apply (proj1 (decoder_fuel (loads_fuel s))). unfold loads_fuel. lia.
Qed.

(** The fuel [json_loads] gives the decoder is enough for every text: the
    decoder of this development never stops for lack of fuel.  (The
    interpreter has limits of its own, which are not modelled.) *)
Lemma json_loads_fuel (s : string) (msg : string) :
  json_loads s <> Raise (RecursionError msg).
Proof.
  unfold json_loads. pose proof (scan_once_fuel (skip_ws s)) as H.
  destruct (scan_once (loads_fuel (skip_ws s)) (skip_ws s)) as [[v r]|e].
  - destruct (skip_ws r); discriminate.
  - destruct e; cbn [scans] in H; try contradiction. discriminate.
Qed.

(** The round trip of [reads_back] on floats of every shape the encoder
    writes: short and long decimals, exponents of both signs, a signed zero, and
    the three names. *)
Lemma reads_back_samples :
  Forall reads_back
    [0.1; 0.33; 0.4; 0.401; 0.47100000000000003; 18.05; 1e22; 1e16; 123456789012345680;
     1e-7; 0.0001;
     0; -0; -2.5; nan; infinity; neg_infinity]%float.
Proof.
  repeat constructor; intros fuel rest [r [-> | ->]]; vm_compute; reflexivity.
Qed.

End DecoderFacts.

(* ================================================================= *)
(** ** What the pipeline does around the external model (pipeline.py) *)

Module OrchestrationFacts.

Import Notions.

Import Datetime Core LLM Pipeline SliceFacts ParseFacts CoreFacts PipelineFacts.

(** The stages before the external model succeed on weather that
    normalises, when the projected hours stay in the range of [datetime]. *)
Lemma deterministic_stages (model : DeterministicAtmosphericModel)
    (initial_state : AtmosphericState) (weather_data : list (dict pyval))
    (records : list (dict float)) (hours_ahead : Z) :
  load_numerical_weather_outputs weather_data = Ok records ->
  can_advance (timestamp initial_state)
    (Z.min hours_ahead (Z.of_nat (List.length weather_data))) = true ->
  exists states features,
    predict model initial_state records hours_ahead = Ok states /\
    export_soil_moisture_features states = Ok features.
Proof.
  intros Hload Hadv.
  destruct (load_numerical_weather_outputs_complete _ _ Hload) as [Hall Hlen].
  rewrite <- Hlen in Hadv.
  destruct (predict_total model initial_state records hours_ahead Hall Hadv)
    as [states Es].
  destruct (export_features_total states) as [features Ef].
  now exists states, features.
Qed.

(** The pipeline ends with the exception of the first stage that fails. *)
Lemma pipeline_load_fails (initial_state : AtmosphericState)
    (weather_data : list (dict pyval)) (model : option DeterministicAtmosphericModel)
    (post_processor : option LLMPostProcessor) (now : datetime) (e : exn) :
  load_numerical_weather_outputs weather_data = Raise e ->
  run (predict_three_day_soil_moisture initial_state weather_data model
         post_processor now) = (Raise e, []).
Proof.
  intros Hload.
  unfold run, predict_three_day_soil_moisture, io_bind, lift. now rewrite Hload.
Qed.

Lemma pipeline_predict_fails (initial_state : AtmosphericState)
    (weather_data : list (dict pyval)) (model : option DeterministicAtmosphericModel)
    (post_processor : option LLMPostProcessor) (now : datetime)
    (records : list (dict float)) (e : exn) :
  load_numerical_weather_outputs weather_data = Ok records ->
  predict (effective_model model) initial_state records
    (LLM.horizon_hours (effective_post_processor post_processor)) = Raise e ->
  run (predict_three_day_soil_moisture initial_state weather_data model
         post_processor now) = (Raise e, []).
Proof.
  intros Hload Es.
  unfold run, predict_three_day_soil_moisture, io_bind, lift, ret.
  fold (effective_model model). fold (effective_post_processor post_processor).
  rewrite Hload. cbn [model_predict deterministic_is_model]. now rewrite Es.
Qed.

(** The pipeline up to the post-processor. *)
Lemma pipeline_stages (initial_state : AtmosphericState)
    (weather_data : list (dict pyval)) (model : option DeterministicAtmosphericModel)
    (post_processor : option LLMPostProcessor) (now : datetime)
    (records : list (dict float)) (states : list AtmosphericState)
    (features : dict float) :
  let pp := effective_post_processor post_processor in
  load_numerical_weather_outputs weather_data = Ok records ->
  predict (effective_model model) initial_state records (LLM.horizon_hours pp) = Ok states ->
  export_soil_moisture_features states = Ok features ->
  run (predict_three_day_soil_moisture initial_state weather_data model post_processor now) =
  match postprocess pp initial_state states features [] with
  | (Ok forecast, log) =>
      (Ok (finalize_metadata
             (reconcile_length forecast initial_state (LLM.horizon_hours pp)) now features),
       log)
  | (Raise e, log) => (Raise e, log)
  end.
Proof.
  intros pp Hload Es Ef.
  unfold run, predict_three_day_soil_moisture, io_bind, lift, ret.
  fold (effective_model model). fold (effective_post_processor post_processor). fold pp.
  rewrite Hload. cbn [model_predict deterministic_is_model]. rewrite Es, Ef.
  destruct (postprocess pp initial_state states features []) as [[forecast|e] log];
    reflexivity.
Qed.

(** Without a configured callable the pipeline never returns a forecast and
    never calls anything: it ends with an exception and an empty call log.
    The deterministic stages run first, so the exception is theirs when one
    of them fails: that of the normalisation of the weather, or the
    [OverflowError] of [predict] when the projected hours (the smaller of
    the horizon and the number of weather entries) lead beyond the range of
    [datetime].  When the weather normalises and the projected hours stay
    in the range, the exception is the configuration error.  This is the
    case of a call that passes no post-processor, as the command-line entry
    point does. *)
Theorem pipeline_needs_client (initial_state : AtmosphericState)
    (weather_data : list (dict pyval)) (model : option DeterministicAtmosphericModel)
    (post_processor : option LLMPostProcessor) (now : datetime) :
  client (effective_post_processor post_processor) = None ->
  let projected :=
    Z.min (LLM.horizon_hours (effective_post_processor post_processor))
      (Z.of_nat (List.length weather_data)) in
  exists e,
    run (predict_three_day_soil_moisture initial_state weather_data model
           post_processor now) = (Raise e, []) /\
    (load_numerical_weather_outputs weather_data = Raise e \/
     is_ok (load_numerical_weather_outputs weather_data) = true) /\
    (is_ok (load_numerical_weather_outputs weather_data) = true ->
     can_advance (timestamp initial_state) projected = true ->
     e = RuntimeError "No LLM client configured for post-processing") /\
    (is_ok (load_numerical_weather_outputs weather_data) = true ->
     in_range (timestamp initial_state) = true ->
     can_advance (timestamp initial_state) projected = false ->
     e = OverflowError "date value out of range").
Proof.
  intros Hclient projected.
  set (pp := effective_post_processor post_processor) in *.
  destruct (load_numerical_weather_outputs weather_data) as [records|e] eqn:Hload.
  - destruct (load_numerical_weather_outputs_complete _ _ Hload) as [Hall Hlen].
    destruct (predict (effective_model model) initial_state records
                (LLM.horizon_hours pp)) as [states|e] eqn:Es.
    + destruct (export_features_total states) as [features Ef].
      exists (RuntimeError "No LLM client configured for post-processing").
      split.
      { rewrite (pipeline_stages _ _ _ _ _ _ _ _ Hload Es Ef). fold pp.
        unfold postprocess, io_bind, _call_client. rewrite Hclient. reflexivity. }
      split; [now right|]. split; [reflexivity|].
      intros _ Hin Hadv. unfold projected in Hadv. rewrite <- Hlen in Hadv.
      rewrite (predict_overflow _ _ _ _ Hall Hin Hadv) in Es. discriminate Es.
    + exists e. split; [exact (pipeline_predict_fails _ _ _ _ _ _ _ Hload Es)|].
      split; [now right|]. split.
      * intros _ Hadv. unfold projected in Hadv. rewrite <- Hlen in Hadv.
        destruct (predict_total (effective_model model) initial_state records
                    (LLM.horizon_hours pp) Hall Hadv) as [states Es'].
        rewrite Es' in Es. discriminate Es.
      * intros _ Hin Hadv. unfold projected in Hadv. rewrite <- Hlen in Hadv.
        rewrite (predict_overflow _ _ _ _ Hall Hin Hadv) in Es. now inversion Es.
  - exists e. split; [exact (pipeline_load_fails _ _ _ _ _ _ Hload)|].
    split; [now left|]. split; discriminate.
Qed.

Lemma pipeline_needs_client_witness :
  run (predict_three_day_soil_moisture sample_state sample_weather None None 0) =
    (Raise (RuntimeError "No LLM client configured for post-processing"), []) /\
  run (predict_three_day_soil_moisture late_state sample_weather None None 0) =
    (Raise (OverflowError "date value out of range"), []).
Proof.
  split.
  - destruct (pipeline_needs_client sample_state sample_weather None None 0 eq_refl)
      as (e & Hrun & _ & He & _).
    rewrite Hrun, (He eq_refl eq_refl). reflexivity.
  - destruct (pipeline_needs_client late_state sample_weather None None 0 eq_refl)
      as (e & Hrun & _ & _ & He).
    rewrite Hrun, (He eq_refl eq_refl eq_refl). reflexivity.
Defined.

(** When the weather normalises and the projected hours (the smaller of the
    horizon and the number of weather entries) stay in the range of
    [datetime] from the initial timestamp, a failure of the external model,
    or of the parsing of its answer, ends the pipeline with that very
    exception after exactly one call, made with the prompt built from the
    projected states and their features: nothing is retried and no padded
    forecast is substituted. *)
Theorem pipeline_failure_after_one_call (initial_state : AtmosphericState)
    (weather_data : list (dict pyval)) (model : option DeterministicAtmosphericModel)
    (call : LLMClient) (horizon : Z) (now : datetime)
    (records : list (dict float)) (e : exn) :
  let pp := {| client := Some call; LLM.horizon_hours := horizon |} in
  load_numerical_weather_outputs weather_data = Ok records ->
  can_advance (timestamp initial_state)
    (Z.min horizon (Z.of_nat (List.length weather_data))) = true ->
  (forall prompt, (response <- call prompt ;; parse_response pp response) = Raise e) ->
  exists states features,
    predict (effective_model model) initial_state records horizon = Ok states /\
    export_soil_moisture_features states = Ok features /\
    run (predict_three_day_soil_moisture initial_state weather_data model
           (Some pp) now) =
    (Raise e, [build_prompt pp initial_state states features]).
Proof.
  intros pp Hload Hadv Hfail.
  destruct (deterministic_stages (effective_model model) initial_state weather_data
              records horizon Hload Hadv) as (states & features & Es & Ef).
  exists states, features. split; [exact Es|]. split; [exact Ef|].
  rewrite (pipeline_stages initial_state weather_data model (Some pp) now
             records states features Hload Es Ef).
  cbn [effective_post_processor].
  unfold postprocess, io_bind, _call_client, lift, ret. cbn [client pp].
  specialize (Hfail (build_prompt pp initial_state states features)).
  destruct (call (build_prompt pp initial_state states features)) as [response|e'];
    cbn [bind] in Hfail.
  - rewrite Hfail. reflexivity.
  - inversion Hfail. reflexivity.
Qed.

Lemma pipeline_failure_after_one_call_witness :
  exists states features,
    predict default_model sample_state
      (match load_numerical_weather_outputs sample_weather with
       | Ok records => records
       | Raise _ => []
       end) 72 = Ok states /\
    export_soil_moisture_features states = Ok features /\
    run (predict_three_day_soil_moisture sample_state sample_weather None
           (Some failing_processor) 0) =
    (Raise (ClientError "timeout"),
     [build_prompt failing_processor sample_state states features]).
Proof.
  exact (pipeline_failure_after_one_call sample_state sample_weather None
           (fun _ => Raise (ClientError "timeout")) 72 0 _ (ClientError "timeout")
           eq_refl eq_refl (fun _ => eq_refl)).
Defined.

(** The forecast a successful [postprocess] returns. *)
Lemma postprocess_assembles (self : LLMPostProcessor) (initial_state : AtmosphericState)
    (states : list AtmosphericState) (features : dict float)
    (log0 log : list string) (processed : SoilMoistureForecast) :
  postprocess self initial_state states features log0 = (Ok processed, log) ->
  processed = assembled_forecast self initial_state states features (values processed).
Proof.
  unfold postprocess, io_bind, _call_client, lift, ret.
  destruct (client self) as [call|]; [|discriminate].
  destruct (call (build_prompt self initial_state states features)) as [response|];
    [|discriminate].
  destruct (parse_response self response) as [vals|]; [|discriminate].
  intros H. inversion H. reflexivity.
Qed.

Lemma evolve_state_timestamp (state next : AtmosphericState) (weather : dict float)
    (step : timedelta) (model : DeterministicAtmosphericModel) :
  evolve_state state weather step model = Ok next ->
  timestamp next = timestamp state + step.
Proof.
  unfold evolve_state, dict_getitem, datetime_add.
  destruct (dict_get weather "temperature_c"); [|discriminate].
  destruct (dict_get weather "relative_humidity"); [|discriminate].
  destruct (dict_get weather "precipitation_mm"); [|discriminate].
  destruct (in_range (timestamp state + step)); [|discriminate].
  cbn [bind]. intros H. inversion H. reflexivity.
Qed.

(** The first projected state is one hour after the initial state. *)
Lemma predict_first_timestamp (model : DeterministicAtmosphericModel)
    (initial_state : AtmosphericState) (records : list (dict float)) (hours_ahead : Z)
    (states : list AtmosphericState) :
  predict model initial_state records hours_ahead = Ok states ->
  match states with
  | first :: _ => timestamp first
  | [] => timestamp initial_state
  end = first_timestamp initial_state states.
Proof.
  rewrite predict_feed_forward.
  destruct (firstn _ records) as [|weather rest]; cbn [feed_forward].
  - intros H. inversion H. reflexivity.
  - destruct (evolve_state initial_state weather (hours 1) model) as [next|] eqn:En;
      [|discriminate].
    cbn [bind].
    destruct (feed_forward model next rest) as [others|]; [|discriminate].
    cbn [bind]. intros H. inversion H. cbn [first_timestamp].
    rewrite (evolve_state_timestamp _ _ _ _ _ En). reflexivity.
Qed.

(** What a returned forecast carries besides its values: the horizon of the
    post-processor; as issuance time the timestamp of the first projected
    state, one hour after the initial state (the initial timestamp itself
    when nothing was projected); and a metadata mapping of exactly three
    entries, in this order: the prompt that was sent, [issued_at] set to the
    processing time [now] (not to the forecast's own issuance time), and
    the exported features.  Exactly one call was made, with that prompt. *)
Theorem pipeline_forecast_metadata (initial_state : AtmosphericState)
    (weather_data : list (dict pyval)) (model : option DeterministicAtmosphericModel)
    (post_processor : option LLMPostProcessor) (now : datetime)
    (forecast : SoilMoistureForecast) (log : list string) :
  run (predict_three_day_soil_moisture initial_state weather_data model
         post_processor now) = (Ok forecast, log) ->
  let pp := effective_post_processor post_processor in
  exists records states features,
    load_numerical_weather_outputs weather_data = Ok records /\
    predict (effective_model model) initial_state records (LLM.horizon_hours pp)
      = Ok states /\
    export_soil_moisture_features states = Ok features /\
    let prompt := build_prompt pp initial_state states features in
    log = [prompt] /\
    metadata forecast =
      [("prompt", PStr prompt);
       ("issued_at", PStr (isoformat now));
       ("features", features_value features)] /\
    Core.horizon_hours forecast = LLM.horizon_hours pp /\
    issued_at forecast = first_timestamp initial_state states.
Proof.
  intros Hrun pp.
  destruct (pipeline_returns _ _ _ _ _ _ _ Hrun)
    as (records & states & features & processed & Hload & Es & Ef & Hpost & ->).
  fold pp in Es, Hpost. fold pp.
  exists records, states, features.
  split; [exact Hload|]. split; [exact Es|]. split; [exact Ef|].
  destruct (postprocess_returns _ _ _ _ _ _ _ Hpost) as (call & response & _ & _ & _ & Hlog).
  pose proof (postprocess_assembles _ _ _ _ _ _ _ Hpost) as Hp.
  cbv zeta. split; [exact Hlog|].
  rewrite Hp.
  assert (Hr : forall f : SoilMoistureForecast,
             metadata (reconcile_length f initial_state (LLM.horizon_hours pp)) = metadata f /\
             Core.horizon_hours (reconcile_length f initial_state (LLM.horizon_hours pp)) =
               Core.horizon_hours f /\
             issued_at (reconcile_length f initial_state (LLM.horizon_hours pp)) =
               issued_at f).
  { intros f. unfold reconcile_length.
    destruct (Z.of_nat (List.length (values f)) <? LLM.horizon_hours pp);
      repeat split; reflexivity. }
  unfold finalize_metadata. cbn [metadata Core.horizon_hours issued_at].
  destruct (Hr (assembled_forecast pp initial_state states features (values processed)))
    as (-> & -> & ->).
  cbn [assembled_forecast metadata Core.horizon_hours issued_at].
  split; [reflexivity|]. split; [reflexivity|].
  apply (predict_first_timestamp _ _ _ _ _ Es).
Qed.

Lemma pipeline_forecast_metadata_witness :
  exists records states features,
    load_numerical_weather_outputs sample_weather = Ok records /\
    predict default_model sample_state records 72 = Ok states /\
    export_soil_moisture_features states = Ok features /\
    let prompt := build_prompt three_value_processor sample_state states features in
    snd three_value_run = [prompt] /\
    metadata three_value_forecast =
      [("prompt", PStr prompt);
       ("issued_at", PStr (isoformat 0));
       ("features", features_value features)] /\
    Core.horizon_hours three_value_forecast = 72 /\
    issued_at three_value_forecast = first_timestamp sample_state states.
Proof.
  exact (pipeline_forecast_metadata sample_state sample_weather None
           (Some three_value_processor) 0 three_value_forecast (snd three_value_run)
           three_value_run_returns).
Defined.

End OrchestrationFacts.

(* ================================================================= *)
(** ** Answers without numbers (llm_postprocessing.py) *)

Module FallbackFacts.

Import Notions.

Import Datetime Core LLM Pipeline Re TextFacts ReFacts SliceFacts ParseFacts PipelineFacts.

Lemma digitless_append (a b : string) :
  digitless (a ++ b) = digitless a && digitless b.
Proof. apply all_chars_append. Qed.

Lemma digitless_digit (c : ascii) (s : string) :
  is_digit c = true -> digitless (String c s) = false.
Proof. intros H. unfold digitless. cbn [all_chars]. now rewrite H. Qed.

(** A text of the number pattern holds a digit. *)
Lemma number_has_digit (m : string) :
  matches number_pattern m -> digitless m = false.
Proof.
  assert (Hplus : forall m, matches [Plus is_digit] m -> digitless m = false).
  { intros m0 (c & a & m' & -> & Hc & _ & _). now apply digitless_digit. }
  assert (Hopt : forall m, matches [Opt is_dot; Plus is_digit] m -> digitless m = false).
  { intros m0 [(c & m' & -> & _ & H) | H].
    - change (String c m') with (String c "" ++ m'). rewrite digitless_append.
      rewrite (Hplus _ H). apply andb_false_r.
    - now apply Hplus. }
  assert (Hstar : forall m,
             matches [Star is_digit; Opt is_dot; Plus is_digit] m -> digitless m = false).
  { intros m0 (a & m' & -> & _ & H). rewrite digitless_append, (Hopt _ H).
    apply andb_false_r. }
  intros [(c & m' & -> & _ & H) | H].
  - change (String c m') with (String c "" ++ m'). rewrite digitless_append.
    rewrite (Hstar _ H). apply andb_false_r.
  - now apply Hstar.
Qed.

Lemma digitless_no_match (s : string) :
  digitless s = true -> match_text number_pattern s = None.
Proof.
  intros H. unfold match_text.
  destruct (match_here number_pattern s) as [r|] eqn:E; [|reflexivity].
  destruct (match_here_sound _ _ _ E) as (m & -> & Hm).
  rewrite digitless_append, (number_has_digit _ Hm) in H. discriminate H.
Qed.

(** Nothing is extracted from a text without digits. *)
Lemma findall_digitless (s : string) :
  digitless s = true -> findall number_pattern s = [].
Proof.
  unfold findall. induction s as [|c s IH]; intros H.
  - cbn [findall_scan]. now rewrite (digitless_no_match "" H).
  - cbn [findall_scan]. rewrite (digitless_no_match _ H).
    apply IH. unfold digitless in *. cbn [all_chars] in H.
    now apply andb_prop in H.
Qed.

(** An answer whose text [json.loads] refuses with a decoding error and
    that holds no digit gives the empty series, not an error; when the
    weather normalises, the horizon is not negative and the projected hours
    (the smaller of the horizon and the number of weather entries) stay in
    the range of [datetime] from the initial timestamp, the pipeline then
    returns [horizon_hours] copies of the initial soil moisture. *)
Theorem digitless_answer_is_flat (initial_state : AtmosphericState)
    (weather_data : list (dict pyval)) (model : option DeterministicAtmosphericModel)
    (call : LLMClient) (horizon : Z) (now : datetime)
    (records : list (dict float)) (response : pyval) (msg : string) :
  let pp := {| client := Some call; LLM.horizon_hours := horizon |} in
  let text := _coerce_response_text response in
  json_loads text = Raise (JSONDecodeError msg) ->
  digitless text = true ->
  0 <= horizon ->
  load_numerical_weather_outputs weather_data = Ok records ->
  can_advance (timestamp initial_state)
    (Z.min horizon (Z.of_nat (List.length weather_data))) = true ->
  (forall prompt, call prompt = Ok response) ->
  parse_response pp response = Ok [] /\
  exists forecast log,
    run (predict_three_day_soil_moisture initial_state weather_data model
           (Some pp) now) = (Ok forecast, log) /\
    values forecast = repeat (soil_moisture initial_state) (Z.to_nat horizon).
Proof.
  intros pp text Hjson Hdigits Hh Hload Hadv Hcall.
  assert (Hparse : parse_response pp response = Ok []).
  { unfold parse_response. fold text. rewrite Hjson, (findall_digitless _ Hdigits).
    cbn [map_result bind]. now rewrite py_slice_to_nil. }
  split; [exact Hparse|].
  destruct (pipeline_with_response initial_state weather_data model call horizon now
              records response [] Hload Hadv Hcall Hparse)
    as (forecast & log & Hrun & Hvals).
  exists forecast, log. split; [exact Hrun|].
  cbn [app last List.length] in Hvals. now rewrite Nat.sub_0_r in Hvals.
Qed.

Lemma digitless_answer_is_flat_witness :
  let response := PStr "I cannot estimate the soil moisture." in
  let pp := {| client := Some (fun _ => Ok response); LLM.horizon_hours := 72 |} in
  parse_response pp response = Ok [] /\
  exists forecast log,
    run (predict_three_day_soil_moisture sample_state sample_weather None
           (Some pp) 0) = (Ok forecast, log) /\
    values forecast = repeat (soil_moisture sample_state) 72.
Proof.
  exact (digitless_answer_is_flat sample_state sample_weather None
           (fun _ => Ok (PStr "I cannot estimate the soil moisture.")) 72 0
           (match load_numerical_weather_outputs sample_weather with
            | Ok records => records
            | Raise _ => []
            end)
           (PStr "I cannot estimate the soil moisture.") "Expecting value"
           eq_refl eq_refl ltac:(lia) eq_refl eq_refl (fun _ => eq_refl)).
Defined.

End FallbackFacts.

(* ================================================================= *)
(** ** Normalising the weather (core.py) *)

Module WeatherFacts.

Import Notions.

Import Datetime Core CoreFacts.

Lemma normalise_entry_record (index : Z) (entry : dict pyval) (record : dict float) :
  normalise_entry index entry = Ok record ->
  exists t h p x,
    record = weather_record t h p x /\
    py_float (dict_get_default entry "temperature_c" (PFloat 0)) = Ok t /\
    py_float (dict_get_default entry "relative_humidity" (PFloat 0)) = Ok h /\
    py_float (dict_get_default entry "precipitation_mm" (PFloat 0)) = Ok p /\
    py_float (dict_get_default entry "hour_index" (PInt index)) = Ok x.
Proof.
  unfold normalise_entry. intros H.
  destruct (py_float (dict_get_default entry "temperature_c" (PFloat 0))) as [t|];
    [|discriminate].
  destruct (py_float (dict_get_default entry "relative_humidity" (PFloat 0))) as [h|];
    [|discriminate].
  destruct (py_float (dict_get_default entry "precipitation_mm" (PFloat 0))) as [p|];
    [|discriminate].
  destruct (py_float (dict_get_default entry "hour_index" (PInt index))) as [x|];
    [|discriminate].
  cbn [bind] in H. inversion H. exists t, h, p, x. repeat split; reflexivity.
Qed.

Lemma normalise_from_nth (raw : list (dict pyval)) (index : Z)
    (records : list (dict float)) (i : nat) (entry : dict pyval) :
  normalise_from index raw = Ok records ->
  nth_error raw i = Some entry ->
  exists record,
    nth_error records i = Some record /\
    normalise_entry (index + Z.of_nat i) entry = Ok record.
Proof.
  revert index records i. induction raw as [|first raw IH]; intros index records i H Hi.
  - destruct i; discriminate Hi.
  - cbn [normalise_from] in H.
    destruct (normalise_entry index first) as [w|] eqn:Ew; [|discriminate].
    cbn [bind] in H.
    destruct (normalise_from (index + 1) raw) as [rest|] eqn:Er; [|discriminate].
    cbn [bind] in H. inversion H. subst.
    destruct i as [|i].
    + cbn in Hi. inversion Hi. subst. exists w. split; [reflexivity|].
      now rewrite Z.add_0_r.
    + cbn [nth_error] in *. destruct (IH _ _ _ Er Hi) as (record & Hn & He).
      exists record. split; [exact Hn|].
      replace (index + Z.of_nat (S i)) with (index + 1 + Z.of_nat i) by lia. exact He.
Qed.

Lemma default_of_missing {A : Type} (d : dict A) (k : string) (default : A) :
  dict_get d k = None -> dict_get_default d k default = default.
Proof. unfold dict_get_default. now intros ->. Qed.

(** Normalisation returns one record per raw entry, in order.  Record [i]
    holds exactly the four fields, in a fixed order; each is [float()] of
    the entry's field, with 0.0 for a missing forcing field and the
    position [i] of the entry for a missing [hour_index]. *)
Theorem load_numerical_weather_outputs_records (raw : list (dict pyval))
    (records : list (dict float)) :
  load_numerical_weather_outputs raw = Ok records ->
  List.length records = List.length raw /\
  forall (i : nat) (entry : dict pyval),
    nth_error raw i = Some entry ->
    exists t h p x,
      nth_error records i = Some (weather_record t h p x) /\
      py_float (dict_get_default entry "temperature_c" (PFloat 0)) = Ok t /\
      py_float (dict_get_default entry "relative_humidity" (PFloat 0)) = Ok h /\
      py_float (dict_get_default entry "precipitation_mm" (PFloat 0)) = Ok p /\
      py_float (dict_get_default entry "hour_index" (PInt (Z.of_nat i))) = Ok x /\
      (dict_get entry "temperature_c" = None -> t = 0%float) /\
      (dict_get entry "relative_humidity" = None -> h = 0%float) /\
      (dict_get entry "precipitation_mm" = None -> p = 0%float) /\
      (dict_get entry "hour_index" = None -> x = round_Z (Z.of_nat i)).
Proof.
  intros Hload. split; [apply (normalise_from_complete _ _ _ Hload)|].
  intros i entry Hi.
  destruct (normalise_from_nth _ _ _ _ _ Hload Hi) as (record & Hn & He).
  destruct (normalise_entry_record _ _ _ He) as (t & h & p & x & -> & Et & Eh & Ep & Ex).
  cbn [Z.add] in Ex.
  exists t, h, p, x. repeat (split; [assumption|]).
  repeat split; intros Hmiss; rewrite (default_of_missing _ _ _ Hmiss) in *.
  - cbn in Et. congruence.
  - cbn in Eh. congruence.
  - cbn in Ep. congruence.
  - cbn [py_float] in Ex. unfold float_of_int in Ex.
    destruct (is_infinity (round_Z (Z.of_nat i))); congruence.
Qed.

Lemma load_numerical_weather_outputs_records_witness :
  List.length
    [weather_record 18 55 0.2 0; weather_record 18.05 55 0 1] =
  List.length sample_weather /\
  forall (i : nat) (entry : dict pyval),
    nth_error sample_weather i = Some entry ->
    exists t h p x,
      nth_error [weather_record 18 55 0.2 0; weather_record 18.05 55 0 1] i =
        Some (weather_record t h p x) /\
      py_float (dict_get_default entry "temperature_c" (PFloat 0)) = Ok t /\
      py_float (dict_get_default entry "relative_humidity" (PFloat 0)) = Ok h /\
      py_float (dict_get_default entry "precipitation_mm" (PFloat 0)) = Ok p /\
      py_float (dict_get_default entry "hour_index" (PInt (Z.of_nat i))) = Ok x /\
      (dict_get entry "temperature_c" = None -> t = 0%float) /\
      (dict_get entry "relative_humidity" = None -> h = 0%float) /\
      (dict_get entry "precipitation_mm" = None -> p = 0%float) /\
      (dict_get entry "hour_index" = None -> x = round_Z (Z.of_nat i)).
Proof.
  apply (load_numerical_weather_outputs_records sample_weather). vm_compute. reflexivity.
Defined.

Lemma normalise_entry_raw_of (index : Z) (t h p x : float) :
  normalise_entry index (raw_of (weather_record t h p x)) = Ok (weather_record t h p x).
Proof. reflexivity. Qed.

Lemma normalise_from_raw_of (raw : list (dict pyval)) (index index' : Z)
    (records : list (dict float)) :
  normalise_from index raw = Ok records ->
  normalise_from index' (map raw_of records) = Ok records.
Proof.
  revert index index' records.
  induction raw as [|first raw IH]; intros index index' records H.
  - inversion H. reflexivity.
  - cbn [normalise_from] in H.
    destruct (normalise_entry index first) as [w|] eqn:Ew; [|discriminate].
    cbn [bind] in H.
    destruct (normalise_from (index + 1) raw) as [rest|] eqn:Er; [|discriminate].
    cbn [bind] in H. inversion H. subst.
    destruct (normalise_entry_record _ _ _ Ew) as (t & h & p & x & -> & _).
    cbn [map normalise_from]. rewrite normalise_entry_raw_of. cbn [bind].
    now rewrite (IH _ (index' + 1) _ Er).
Qed.

(** Normalising is idempotent: records that came out of the normalisation,
    given again as raw entries, come out unchanged (their [hour_index] is
    kept, not renumbered). *)
Theorem load_numerical_weather_outputs_idempotent (raw : list (dict pyval))
    (records : list (dict float)) :
  load_numerical_weather_outputs raw = Ok records ->
  load_numerical_weather_outputs (map raw_of records) = Ok records.
Proof. apply normalise_from_raw_of. Qed.

Lemma load_numerical_weather_outputs_idempotent_witness :
  load_numerical_weather_outputs
    (map raw_of [weather_record 18 55 0.2 0; weather_record 18.05 55 0 1]) =
  Ok [weather_record 18 55 0.2 0; weather_record 18.05 55 0 1].
Proof.
  apply (load_numerical_weather_outputs_idempotent sample_weather).
  vm_compute. reflexivity.
Defined.

Lemma normalise_from_failure (good : list (dict pyval)) (bad : dict pyval)
    (rest : list (dict pyval)) (index : Z) (records : list (dict float)) (e : exn) :
  normalise_from index good = Ok records ->
  normalise_entry (index + Z.of_nat (List.length good)) bad = Raise e ->
  normalise_from index (good ++ bad :: rest) = Raise e.
Proof.
  revert index records. induction good as [|first good IH]; intros index records H Hbad.
  - cbn in Hbad. rewrite Z.add_0_r in Hbad. cbn [app normalise_from]. now rewrite Hbad.
  - cbn [normalise_from] in H.
    destruct (normalise_entry index first) as [w|] eqn:Ew; [|discriminate].
    cbn [bind] in H.
    destruct (normalise_from (index + 1) good) as [others|] eqn:Er; [|discriminate].
    cbn [app normalise_from]. rewrite Ew. cbn [bind].
    rewrite (IH (index + 1) others Er); [reflexivity|].
    replace (index + 1 + Z.of_nat (List.length good))
      with (index + Z.of_nat (List.length (first :: good)))
      by (cbn [List.length]; lia).
    exact Hbad.
Qed.

(** The normalisation ends with the exception of the first entry that
    fails, whatever follows it. *)
Lemma normalise_from_earlier_failure (earlier rest : list (dict pyval)) (index : Z)
    (e : exn) :
  normalise_from index earlier = Raise e ->
  normalise_from index (earlier ++ rest) = Raise e.
Proof.
  revert index. induction earlier as [|first earlier IH]; intros index H.
  - discriminate H.
  - cbn [normalise_from] in H. cbn [app normalise_from].
    destruct (normalise_entry index first) as [w|e1]; [|exact H].
    cbn [bind] in *.
    destruct (normalise_from (index + 1) earlier) as [others|e2] eqn:Er.
    + discriminate H.
    + cbn [bind] in H. inversion H. subst e2.
      now rewrite (IH (index + 1) Er).
Qed.

(** An entry with a forcing field that is present but is not a number does
    not normalise: [float()] raises on one of its forcing fields. *)
Lemma normalise_entry_rejects (index : Z) (bad : dict pyval) (key : string)
    (value : pyval) (e : exn) :
  In key forcing_fields ->
  dict_get bad key = Some value ->
  py_float value = Raise e ->
  exists key' value' e',
    In key' forcing_fields /\
    dict_get bad key' = Some value' /\
    py_float value' = Raise e' /\
    normalise_entry index bad = Raise e'.
Proof.
  intros Hkey Hget Hfloat.
  assert (Hfield : forall k, dict_get_default bad k (PFloat 0) = PFloat 0 \/
                             exists v, dict_get bad k = Some v /\
                                       dict_get_default bad k (PFloat 0) = v).
  { intros k. unfold dict_get_default. destruct (dict_get bad k) as [v|];
      [right; now exists v | now left]. }
  unfold normalise_entry.
  destruct (py_float (dict_get_default bad "temperature_c" (PFloat 0))) as [t|e1] eqn:E1.
  2:{ destruct (Hfield "temperature_c") as [H0 | (v & Hv & H0)]; rewrite H0 in E1;
        [discriminate|].
      exists "temperature_c", v, e1. cbn. auto. }
  destruct (py_float (dict_get_default bad "relative_humidity" (PFloat 0))) as [h|e2] eqn:E2.
  2:{ destruct (Hfield "relative_humidity") as [H0 | (v & Hv & H0)]; rewrite H0 in E2;
        [discriminate|].
      exists "relative_humidity", v, e2. cbn. auto. }
  destruct (py_float (dict_get_default bad "precipitation_mm" (PFloat 0))) as [p|e3] eqn:E3.
  2:{ destruct (Hfield "precipitation_mm") as [H0 | (v & Hv & H0)]; rewrite H0 in E3;
        [discriminate|].
      exists "precipitation_mm", v, e3. cbn. auto. }
  exfalso. unfold dict_get_default in E1, E2, E3.
  destruct Hkey as [<- | [<- | [<- | []]]]; rewrite Hget in *; congruence.
Qed.

(** A forcing field that is present but is not a number is not defaulted:
    it makes the whole normalisation fail, whatever the other entries hold.
    The entries are read in order, so the exception is that of an earlier
    entry when one of them does not normalise either; when the earlier
    entries normalise it is the exception [float()] raises on a forcing
    field of that entry. *)
Theorem load_numerical_weather_outputs_rejects (earlier : list (dict pyval))
    (bad : dict pyval) (rest : list (dict pyval))
    (key : string) (value : pyval) (e : exn) :
  In key forcing_fields ->
  dict_get bad key = Some value ->
  py_float value = Raise e ->
  exists e',
    load_numerical_weather_outputs (earlier ++ bad :: rest) = Raise e' /\
    (load_numerical_weather_outputs earlier = Raise e' \/
     is_ok (load_numerical_weather_outputs earlier) = true /\
     exists key' value',
       In key' forcing_fields /\
       dict_get bad key' = Some value' /\
       py_float value' = Raise e').
Proof.
  intros Hkey Hget Hfloat. unfold load_numerical_weather_outputs.
  destruct (normalise_from 0 earlier) as [records|e0] eqn:Hearlier.
  - destruct (normalise_entry_rejects (0 + Z.of_nat (List.length earlier)) bad key value e
                Hkey Hget Hfloat) as (key' & value' & e' & Hin & Hg & Hf & Hn).
    exists e'. split.
    + apply (normalise_from_failure earlier bad rest 0 records e' Hearlier Hn).
    + right. split; [reflexivity|]. now exists key', value'.
  - exists e0. split; [|now left].
    apply (normalise_from_earlier_failure earlier (bad :: rest) 0 e0 Hearlier).
Qed.

(** After the two sample entries the bad one fails on its humidity; after
    an entry whose hour index is not a number, that entry's exception comes
    first. *)
Lemma load_numerical_weather_outputs_rejects_witness :
  (exists e',
     load_numerical_weather_outputs
       (sample_weather ++ [("relative_humidity", PNone)] :: []) = Raise e' /\
     exists key' value',
       In key' forcing_fields /\
       dict_get [("relative_humidity", PNone)] key' = Some value' /\
       py_float value' = Raise e') /\
  (exists e',
     load_numerical_weather_outputs
       ([[("hour_index", PStr "noon")]] ++ [("relative_humidity", PNone)] :: []) =
       Raise e' /\
     load_numerical_weather_outputs [[("hour_index", PStr "noon")]] = Raise e').
Proof.
  split.
  - destruct (load_numerical_weather_outputs_rejects sample_weather
                [("relative_humidity", PNone)] [] "relative_humidity" PNone
                (TypeError "float() argument must be a string or a real number, not 'NoneType'")
                ltac:(cbn; auto) eq_refl eq_refl)
      as (e' & Hrun & [Hearlier | [_ Hfield]]).
    + vm_compute in Hearlier. discriminate Hearlier.
    + exists e'. split; [exact Hrun | exact Hfield].
  - destruct (load_numerical_weather_outputs_rejects [[("hour_index", PStr "noon")]]
                [("relative_humidity", PNone)] [] "relative_humidity" PNone
                (TypeError "float() argument must be a string or a real number, not 'NoneType'")
                ltac:(cbn; auto) eq_refl eq_refl)
      as (e' & Hrun & [Hearlier | [Hok _]]).
    + exists e'. split; [exact Hrun | exact Hearlier].
    + vm_compute in Hok. discriminate Hok.
Defined.

End WeatherFacts.

(* ================================================================= *)
(** ** How runs of the predictor compose (core.py) *)

Module PredictFacts.

Import Notions.

Import Datetime Core FloatFacts CoreFacts.

Lemma evolve_state_carries (state next : AtmosphericState) (weather : dict float)
    (step : timedelta) (model : DeterministicAtmosphericModel) :
  evolve_state state weather step model = Ok next -> carries next weather.
Proof.
  unfold evolve_state, dict_getitem, carries, datetime_add.
  destruct (dict_get weather "temperature_c") as [t|]; [|discriminate].
  destruct (dict_get weather "relative_humidity") as [h|]; [|discriminate].
  destruct (dict_get weather "precipitation_mm") as [p|]; [|discriminate].
  destruct (in_range (timestamp state + step)); [|discriminate].
  cbn [bind]. intros H. inversion H.
  cbn [temperature_c relative_humidity precipitation_mm soil_moisture].
  repeat split. apply clamp_in_unit.
Qed.

Lemma feed_forward_carries (model : DeterministicAtmosphericModel)
    (records : list (dict float)) (current : AtmosphericState)
    (states : list AtmosphericState) :
  feed_forward model current records = Ok states -> Forall2 carries states records.
Proof.
  revert current states. induction records as [|w records IH]; intros current states H.
  - inversion H. constructor.
  - cbn [feed_forward] in H.
    destruct (evolve_state current w (hours 1) model) as [next|] eqn:En; [|discriminate].
    cbn [bind] in H.
    destruct (feed_forward model next records) as [rest|] eqn:Er; [|discriminate].
    cbn [bind] in H. inversion H. subst.
    constructor; [apply (evolve_state_carries _ _ _ _ _ En) | apply (IH _ _ Er)].
Qed.

Lemma firstn_length_firstn {A : Type} (n : nat) (l : list A) :
  firstn (List.length (firstn n l)) l = firstn n l.
Proof.
  rewrite length_firstn.
  destruct (Nat.le_ge_cases n (List.length l)) as [H | H].
  - now rewrite Nat.min_l.
  - rewrite Nat.min_r by exact H. rewrite firstn_all. symmetry. now apply firstn_all2.
Qed.

(** Every state the predictor returns carries the temperature, humidity and
    precipitation of the weather record of its hour, unchanged, and a soil
    moisture in [[0, 1]]. *)
Theorem predict_states_carry_forcing (model : DeterministicAtmosphericModel)
    (initial_state : AtmosphericState) (records : list (dict float)) (hours_ahead : Z)
    (states : list AtmosphericState) :
  predict model initial_state records hours_ahead = Ok states ->
  Forall2 carries states (firstn (List.length states) records).
Proof.
  rewrite predict_feed_forward. intros H.
  pose proof (feed_forward_carries _ _ _ _ H) as HF.
  rewrite (Forall2_length HF), firstn_length_firstn. exact HF.
Qed.

Lemma predict_states_carry_forcing_witness :
  exists states,
    predict default_model sample_state [sample_forcing; sample_forcing] 72 = Ok states /\
    Forall2 carries states (firstn (List.length states) [sample_forcing; sample_forcing]).
Proof.
  eexists. split; [vm_compute; reflexivity|].
  apply (predict_states_carry_forcing default_model sample_state
           [sample_forcing; sample_forcing] 72).
  vm_compute. reflexivity.
Defined.

Lemma feed_forward_app (model : DeterministicAtmosphericModel)
    (a b : list (dict float)) (current : AtmosphericState) :
  feed_forward model current (a ++ b) =
  (first <- feed_forward model current a ;;
   rest <- feed_forward model (last first current) b ;;
   Ok (first ++ rest)%list).
Proof.
  revert current. induction a as [|w a IH]; intros current.
  - cbn [app feed_forward bind last]. now destruct (feed_forward model current b).
  - cbn [app feed_forward].
    destruct (evolve_state current w (hours 1) model) as [next|]; [|reflexivity].
    cbn [bind]. rewrite IH.
    destruct (feed_forward model next a) as [first|]; [|reflexivity].
    cbn [bind].
    replace (last (next :: first) current) with (last first next)
      by (clear; revert next; induction first as [|x first IH]; intros next;
          [reflexivity | cbn [last] in *; destruct first; [reflexivity | apply IH]]).
    destruct (feed_forward model (last first next) b); reflexivity.
Qed.

Lemma firstn_add_skipn {A : Type} (a b : nat) (l : list A) :
  firstn (a + b) l = (firstn a l ++ firstn b (skipn a l))%list.
Proof.
  revert l. induction a as [|a IH]; intros l; [reflexivity|].
  destruct l as [|x l]; cbn [Nat.add firstn skipn app].
  - now rewrite firstn_nil.
  - now rewrite IH.
Qed.

Lemma firstn_min_length {A : Type} (k : nat) (l : list A) :
  firstn (Nat.min k (List.length l)) l = firstn k l.
Proof.
  destruct (Nat.le_ge_cases k (List.length l)) as [H | H].
  - now rewrite Nat.min_l.
  - rewrite Nat.min_r by exact H. rewrite firstn_all. symmetry. now apply firstn_all2.
Qed.

Lemma predict_firstn (model : DeterministicAtmosphericModel)
    (initial_state : AtmosphericState) (records : list (dict float)) (hours_ahead : Z) :
  predict model initial_state records hours_ahead =
  feed_forward model initial_state (firstn (Z.to_nat hours_ahead) records).
Proof.
  rewrite predict_feed_forward.
  replace (Z.to_nat (Z.min hours_ahead (Z.of_nat (List.length records))))
    with (Nat.min (Z.to_nat hours_ahead) (List.length records)) by lia.
  now rewrite firstn_min_length.
Qed.

(** A run of [h1 + h2] hours is a run of [h1] hours resumed for [h2] hours
    from its last state on the records that are left: the predictor keeps
    no state between steps but the current state. *)
Theorem predict_resumes (model : DeterministicAtmosphericModel)
    (initial_state : AtmosphericState) (records : list (dict float)) (h1 h2 : Z) :
  0 <= h1 -> 0 <= h2 ->
  predict model initial_state records (h1 + h2) =
  (first <- predict model initial_state records h1 ;;
   rest <- predict model (last first initial_state) (skipn (Z.to_nat h1) records) h2 ;;
   Ok (first ++ rest)%list).
Proof.
  intros H1 H2. rewrite !predict_firstn.
  rewrite Z2Nat.inj_add by assumption.
  rewrite firstn_add_skipn, feed_forward_app.
  destruct (feed_forward model initial_state (firstn (Z.to_nat h1) records)) as [first|];
    [|reflexivity].
  cbn [bind]. now rewrite predict_firstn.
Qed.

Lemma predict_resumes_witness :
  predict default_model sample_state
    [sample_forcing; sample_forcing; sample_forcing] (1 + 2) =
  (first <- predict default_model sample_state
              [sample_forcing; sample_forcing; sample_forcing] 1 ;;
   rest <- predict default_model (last first sample_state)
             (skipn (Z.to_nat 1) [sample_forcing; sample_forcing; sample_forcing]) 2 ;;
   Ok (first ++ rest)%list).
Proof.
  apply (predict_resumes default_model sample_state
           [sample_forcing; sample_forcing; sample_forcing] 1 2); lia.
Defined.

(** The predictor reads the first [hours_ahead] records only: what follows
    them changes nothing, not even when it lacks the forcing fields; and a
    request for no hours, or for a negative number of hours, returns no
    state and reads nothing. *)
Theorem predict_ignores_later_records (model : DeterministicAtmosphericModel)
    (initial_state : AtmosphericState) (records later : list (dict float))
    (hours_ahead : Z) :
  hours_ahead <= Z.of_nat (List.length records) ->
  predict model initial_state (records ++ later) hours_ahead =
    predict model initial_state records hours_ahead /\
  (hours_ahead <= 0 -> predict model initial_state (records ++ later) hours_ahead = Ok []).
Proof.
  intros Hle. rewrite !predict_firstn.
  assert (Hn : (Z.to_nat hours_ahead <= List.length records)%nat) by lia.
  rewrite firstn_app.
  replace (Z.to_nat hours_ahead - List.length records)%nat with 0%nat by lia.
  cbn [firstn]. rewrite app_nil_r. split; [reflexivity|].
  intros H0. replace (Z.to_nat hours_ahead) with 0%nat by lia. reflexivity.
Qed.

Lemma predict_ignores_later_records_witness :
  predict default_model sample_state ([sample_forcing] ++ [[]]) 1 =
    predict default_model sample_state [sample_forcing] 1 /\
  (1 <= 0 -> predict default_model sample_state ([sample_forcing] ++ [[]]) 1 = Ok []).
Proof.
  apply (predict_ignores_later_records default_model sample_state [sample_forcing] [[]] 1).
  cbn. lia.
Defined.

(** A record that lacks a forcing field stops the step at the first field
    it lacks, before the new timestamp is computed. *)
Lemma evolve_state_missing (weather : dict float) (present absent : list string)
    (key : string) :
  forcing_fields = (present ++ key :: absent)%list ->
  forallb (dict_contains weather) present = true ->
  dict_get weather key = None ->
  forall state step model,
    evolve_state state weather step model = Raise (KeyError key).
Proof.
  unfold forcing_fields, dict_contains. intros Hsplit Hpresent Hget state step model.
  unfold evolve_state, dict_getitem.
  destruct present as [|k1 [|k2 [|k3 [|k4 present]]]]; cbn [app] in Hsplit;
    inversion Hsplit; subst; cbn [forallb] in Hpresent.
  - now rewrite Hget.
  - destruct (dict_get weather "temperature_c"); [|discriminate Hpresent].
    cbn [bind]. now rewrite Hget.
  - destruct (dict_get weather "temperature_c"); [|discriminate Hpresent].
    destruct (dict_get weather "relative_humidity"); [|discriminate Hpresent].
    cbn [bind]. now rewrite Hget.
Qed.

(** A record within the requested hours that lacks a forcing field makes
    the whole prediction fail with [KeyError] on the first field it lacks
    (in the order temperature, humidity, precipitation: the fields before it
    are present): the states of the hours before it are not returned.  This
    is so when the hours before that record stay in the range of
    [datetime]; when they lead beyond it, [predict] has already raised
    [OverflowError] on an earlier hour. *)
Theorem predict_missing_field (model : DeterministicAtmosphericModel)
    (initial_state : AtmosphericState) (good : list (dict float)) (bad : dict float)
    (rest : list (dict float)) (hours_ahead : Z)
    (present absent : list string) (key : string) :
  forallb forcing_complete good = true ->
  forcing_fields = (present ++ key :: absent)%list ->
  forallb (dict_contains bad) present = true ->
  dict_get bad key = None ->
  Z.of_nat (List.length good) < hours_ahead ->
  (can_advance (timestamp initial_state) (Z.of_nat (List.length good)) = true ->
   predict model initial_state (good ++ bad :: rest) hours_ahead =
   Raise (KeyError key)) /\
  (in_range (timestamp initial_state) = true ->
   can_advance (timestamp initial_state) (Z.of_nat (List.length good)) = false ->
   predict model initial_state (good ++ bad :: rest) hours_ahead =
   Raise (OverflowError "date value out of range")).
Proof.
  intros Hgood Hsplit Hpresent Hget Hlen.
  pose proof (evolve_state_missing bad present absent key Hsplit Hpresent Hget)
    as Hraise.
  rewrite predict_firstn, firstn_app.
  rewrite (firstn_all2 (n := Z.to_nat hours_ahead) good) by lia.
  destruct (Z.to_nat hours_ahead - List.length good)%nat as [|k] eqn:Ek; [lia|].
  cbn [firstn]. rewrite feed_forward_app. split.
  - intros Hadv.
    destruct (feed_forward_complete model good initial_state Hgood Hadv)
      as (states & -> & _).
    cbn [bind feed_forward]. now rewrite Hraise.
  - intros Hin Hadv.
    now rewrite (feed_forward_overflow model good initial_state Hgood Hin Hadv).
Qed.

(** After one complete record, a record that holds the temperature only
    fails on the humidity; at the end of the range of [datetime] the first
    hour already fails. *)
Lemma predict_missing_field_witness :
  predict default_model sample_state
    ([sample_forcing] ++ [("temperature_c", 18%float)] :: []) 72 =
    Raise (KeyError "relative_humidity") /\
  predict default_model late_state
    ([sample_forcing] ++ [("temperature_c", 18%float)] :: []) 72 =
    Raise (OverflowError "date value out of range").
Proof.
  split.
  - apply (predict_missing_field default_model sample_state [sample_forcing]
             [("temperature_c", 18%float)] [] 72
             ["temperature_c"] ["precipitation_mm"] "relative_humidity");
      [reflexivity | reflexivity | reflexivity | reflexivity | cbn; lia | reflexivity].
  - apply (predict_missing_field default_model late_state [sample_forcing]
             [("temperature_c", 18%float)] [] 72
             ["temperature_c"] ["precipitation_mm"] "relative_humidity");
      [reflexivity | reflexivity | reflexivity | reflexivity | cbn; lia
      | reflexivity | reflexivity].
Defined.

End PredictFacts.

(* ================================================================= *)
(** ** Daily averages for any horizon (core.py) *)

Module AverageFacts.

Import Notions.

Import Datetime Core FeatureFacts.

Lemma daily_loop_total (vals : list float) (hours_per_day : Z) (days : list Z) :
  exists averages,
    daily_loop vals hours_per_day days = Ok averages /\
    (List.length averages <= List.length days)%nat.
Proof.
  induction days as [|day days (averages & IH & Hl)].
  - exists []. split; [reflexivity | apply le_n].
  - cbn [daily_loop].
    destruct (py_slice vals day (day + hours_per_day)) as [|x chunk] eqn:Ec.
    + exists []. split; [reflexivity | cbn; lia].
    + rewrite (float_div_len_pos _ (List.length (x :: chunk))) by (cbn; lia).
      cbn [bind]. rewrite IH. cbn [bind].
      eexists. split; [reflexivity | cbn; lia].
Qed.

(** [to_daily_averages] never divides by zero: for a day length other than
    0 it returns averages, at most one per day of the horizon, whatever the
    values and the horizon are; for a day length of 0 it raises the
    [ValueError] of [range]. *)
Theorem to_daily_averages_outcome (forecast : SoilMoistureForecast) (hours_per_day : Z) :
  match to_daily_averages forecast hours_per_day with
  | Ok averages =>
      hours_per_day <> 0 /\
      Z.of_nat (List.length averages) <=
        range_length 0 (horizon_hours forecast) hours_per_day
  | Raise e =>
      hours_per_day = 0 /\ e = ValueError "range() arg 3 must not be zero" None
  end.
Proof.
  unfold to_daily_averages, py_range3.
  destruct (hours_per_day =? 0) eqn:E.
  - apply Z.eqb_eq in E. cbn [bind]. now split.
  - apply Z.eqb_neq in E. cbn [bind].
    match goal with |- context [daily_loop ?v ?h ?d] =>
      destruct (daily_loop_total v h d) as (averages & -> & Hl)
    end.
    split; [exact E|].
    assert (Hr : forall start count,
               List.length (range_from start hours_per_day count) = count).
    { intros start count. revert start.
      induction count as [|c IH]; intros start; cbn; [reflexivity | now rewrite IH]. }
    rewrite Hr in Hl.
    assert (0 <= range_length 0 (horizon_hours forecast) hours_per_day).
    { unfold range_length.
      destruct (0 <? hours_per_day) eqn:Ep.
      - apply Z.ltb_lt in Ep. destruct (0 <? horizon_hours forecast) eqn:Eh; [|lia].
        apply Z.ltb_lt in Eh.
        assert (0 <= (horizon_hours forecast - 0 - 1) / hours_per_day)
          by (apply Z.div_pos; lia).
        lia.
      - apply Z.ltb_ge in Ep. destruct (horizon_hours forecast <? 0) eqn:Eh; [|lia].
        apply Z.ltb_lt in Eh.
        assert (0 <= (0 - horizon_hours forecast - 1) / - hours_per_day)
          by (apply Z.div_pos; lia).
        lia. }
    lia.
Qed.

(** With days of 24 hours, whatever the horizon and the number of stored
    values, the averages are those of the successive 24-value chunks, one
    per day of the horizon that holds a value.  A chunk is not cut at the
    horizon: when the values outnumber a horizon that is not a multiple of
    24, the last average takes in values stored beyond the horizon. *)
Theorem to_daily_averages_by_day (forecast : SoilMoistureForecast) :
  to_daily_averages forecast 24 =
  Ok (map (fun k => arithmetic_mean (day_chunk (values forecast) k))
        (seq 0 (Nat.min (horizon_days (horizon_hours forecast))
                        (stored_days (values forecast))))).
Proof.
  unfold to_daily_averages, py_range3. cbn [Z.eqb bind].
  set (vals := values forecast). set (h := horizon_hours forecast).
  pose proof (daily_loop_chunks vals (Z.to_nat (range_length 0 h 24)) 0) as L.
  change (24 * Z.of_nat 0) with 0 in L. rewrite L, Nat.sub_0_r.
  replace (Z.to_nat (range_length 0 h 24)) with (horizon_days h); [reflexivity|].
  unfold horizon_days, range_length. cbn [Z.ltb Z.compare].
  destruct (0 <? h) eqn:Hh.
  - apply Z.ltb_lt in Hh. replace (h + 23) with (h - 0 - 1 + 1 * 24) by lia.
    rewrite Z.div_add by lia. reflexivity.
  - apply Z.ltb_ge in Hh.
    assert ((h + 23) / 24 < 1) by (apply Z.div_lt_upper_bound; lia). lia.
Qed.

(** Thirty hours of horizon over 48 stored values: two averages, the second
    over the values 24 to 47. *)
Example long_forecast_averages :
  to_daily_averages long_forecast 24 = Ok [11.5; 35.5]%float.
Proof. vm_compute. reflexivity. Qed.

End AverageFacts.

(* ================================================================= *)
(** ** Candidates that are not lists (llm_postprocessing.py) *)

Module CandidateFacts.

Import Notions.

Import Datetime Core LLM Pipeline TextFacts SliceFacts ParseFacts PipelineFacts.

Lemma chars_of_texts (s : string) : chars_of s = map PStr (char_texts s).
Proof. induction s as [|c s IH]; cbn; congruence. Qed.

Lemma coerce_text_value (text : string) (x : float) :
  float_of_str text = Some x -> coerce_value (PStr text) = Ok x.
Proof. intros H. unfold coerce_value, py_float. now rewrite H. Qed.

Lemma coerce_text_invalid (text : string) :
  float_of_str text = None ->
  exists cause, coerce_value (PStr text) = Raise (invalid_value cause).
Proof.
  intros H. unfold coerce_value, py_float. rewrite H. eexists. reflexivity.
Qed.

Lemma coerce_text_cases (text : string) :
  (exists x, coerce_value (PStr text) = Ok x) \/
  (exists cause, coerce_value (PStr text) = Raise (invalid_value cause)).
Proof.
  destruct (float_of_str text) as [x|] eqn:E.
  - left. exists x. now apply coerce_text_value.
  - right. now apply coerce_text_invalid.
Qed.

(** Texts that [float()] all accepts are coerced in order. *)
Lemma coerce_texts (texts : list string) (xs : list float) :
  map float_of_str texts = map Some xs ->
  map_result coerce_value (map PStr texts) = Ok xs.
Proof.
  revert xs. induction texts as [|t texts IH]; intros [|x xs] H; try discriminate H.
  - reflexivity.
  - cbn [map] in H. injection H as Ht Hrest.
    cbn [map map_result]. rewrite (coerce_text_value _ _ Ht), (IH _ Hrest). reflexivity.
Qed.

(** One text that [float()] refuses makes the coercion of the texts fail
    with the parser's [ValueError]. *)
Lemma coerce_texts_invalid (texts : list string) (bad : string) :
  In bad texts -> float_of_str bad = None ->
  exists cause, map_result coerce_value (map PStr texts) = Raise (invalid_value cause).
Proof.
  induction texts as [|t texts IH]; intros Hin Hbad; [destruct Hin|].
  cbn [map map_result].
  destruct (coerce_text_cases t) as [[x Hx] | [cause Hc]];
    [|rewrite Hc; now exists cause].
  destruct Hin as [-> | Hin].
  - destruct (coerce_text_invalid _ Hbad) as [cause Hc]. congruence.
  - rewrite Hx. destruct (IH Hin Hbad) as [cause ->]. now exists cause.
Qed.

(** [float()] of a one-character text: the value of a digit, an error for
    anything else. *)
Lemma float_of_digit (c : ascii) :
  is_digit c = true -> float_of_str (String c "") = Some (round_Z (digit_val c)).
Proof.
  destruct c as [[] [] [] [] [] [] [] []]; intros H;
    try discriminate H; vm_compute; reflexivity.
Qed.

Lemma float_of_other_char (c : ascii) :
  is_digit c = false -> float_of_str (String c "") = None.
Proof.
  destruct c as [[] [] [] [] [] [] [] []]; intros H;
    try discriminate H; vm_compute; reflexivity.
Qed.

Lemma digit_texts (s : string) :
  all_chars is_digit s = true ->
  map float_of_str (char_texts s) = map Some (digit_values s).
Proof.
  induction s as [|c s IH]; [reflexivity|].
  cbn [all_chars]. intros H. apply andb_prop in H. destruct H as [Hc Hs].
  cbn [char_texts digit_values map]. now rewrite (float_of_digit c Hc), (IH Hs).
Qed.

Lemma other_char_text (s : string) :
  has_plain_non_digit s = true ->
  exists bad, In bad (char_texts s) /\ float_of_str bad = None.
Proof.
  unfold has_plain_non_digit. intros H. apply negb_true_iff in H.
  induction s as [|c s IH]; [discriminate|].
  cbn [all_chars char_texts] in *.
  destruct (is_digit c) eqn:Hc.
  - cbn [orb andb] in H.
    destruct (IH H) as (bad & Hin & Hbad). exists bad. split; [now right | exact Hbad].
  - exists (String c ""). split; [now left | now apply float_of_other_char].
Qed.

(** A JSON answer that is a string, not a list, is taken for an iterable
    of its characters: a string of digits gives one value per digit, and a
    string that holds another ASCII character (a decimal point, a sign, a
    blank) is refused with the parser's [ValueError]. *)
Theorem json_string_is_read_by_character (self : LLMPostProcessor) (response : pyval)
    (s : string) :
  json_loads (_coerce_response_text response) = Ok (PStr s) ->
  (all_chars is_digit s = true ->
   parse_response self response =
     Ok (py_slice_to (digit_values s) (horizon_hours self))) /\
  (has_plain_non_digit s = true ->
   exists cause, parse_response self response = Raise (invalid_value cause)).
Proof.
  intros Hjson. unfold parse_response. rewrite Hjson.
  cbn [candidate_values is_iterable negb py_iter]. rewrite chars_of_texts.
  split; intros Hs.
  - now rewrite (coerce_texts _ _ (digit_texts s Hs)).
  - destruct (other_char_text s Hs) as (bad & Hin & Hbad).
    destruct (coerce_texts_invalid _ _ Hin Hbad) as [cause ->]. now exists cause.
Qed.

Lemma json_string_is_read_by_character_witness :
  (all_chars is_digit "0.5" = true ->
   parse_response default_post_processor (PStr (dq ++ "0.5" ++ dq)) =
     Ok (py_slice_to (digit_values "0.5") 72)) /\
  (has_plain_non_digit "0.5" = true ->
   exists cause,
     parse_response default_post_processor (PStr (dq ++ "0.5" ++ dq)) =
       Raise (invalid_value cause)).
Proof.
  apply (json_string_is_read_by_character default_post_processor
           (PStr (dq ++ "0.5" ++ dq)) "0.5").
  vm_compute. reflexivity.
Defined.

(** A JSON object without the key [soil_moisture] is itself the candidate,
    and iterating over it gives its keys: the series is [float()] of each
    key, in order (the values under the keys are never read), and a key
    that is not the text of a number makes the parsing fail with the
    parser's [ValueError]. *)
Theorem object_without_series_reads_keys (self : LLMPostProcessor) (response : pyval)
    (entries : dict pyval) :
  json_loads (_coerce_response_text response) = Ok (PDict entries) ->
  dict_get entries "soil_moisture" = None ->
  (forall xs, map float_of_str (dict_keys entries) = map Some xs ->
     parse_response self response = Ok (py_slice_to xs (horizon_hours self))) /\
  (forall key, In key (dict_keys entries) -> float_of_str key = None ->
     exists cause, parse_response self response = Raise (invalid_value cause)).
Proof.
  intros Hjson Hkey. unfold parse_response. rewrite Hjson.
  cbn [candidate_values]. rewrite Hkey. cbn [is_iterable negb py_iter].
  rewrite <- (map_map fst PStr). fold (dict_keys entries).
  split.
  - intros xs Hxs. now rewrite (coerce_texts _ _ Hxs).
  - intros key Hin Hbad.
    destruct (coerce_texts_invalid _ _ Hin Hbad) as [cause ->]. now exists cause.
Qed.

Lemma object_without_series_reads_keys_witness :
  let response := PDict [("values", PList [PFloat 0.1; PFloat 0.2])] in
  (forall xs, map float_of_str ["values"] = map Some xs ->
     parse_response default_post_processor response = Ok (py_slice_to xs 72)) /\
  (forall key, In key ["values"] -> float_of_str key = None ->
     exists cause,
       parse_response default_post_processor response = Raise (invalid_value cause)).
Proof.
  apply (object_without_series_reads_keys default_post_processor
           (PDict [("values", PList [PFloat 0.1; PFloat 0.2])])
           [("values", PList [PFloat 0.1; PFloat 0.2])]).
  - vm_compute. reflexivity.
  - reflexivity.
Defined.

End CandidateFacts.

(* ================================================================= *)
(** ** A series answered as a mapping (llm_postprocessing.py, pipeline.py) *)

Module SeriesFacts.

Import Notions.

Import Datetime Core LLM Pipeline TextFacts SliceFacts ParseFacts PipelineFacts
  ResponseFacts.

Lemma join_cons2 (sep a b : string) (l : list string) :
  join sep (a :: b :: l) = a ++ sep ++ join sep (b :: l).
Proof. reflexivity. Qed.

Lemma length_join (sep : string) (l : list string) :
  ((List.length l - 1) * String.length sep <= String.length (join sep l))%nat.
Proof.
  induction l as [|a [|b l] IH]; [cbn; lia | cbn; lia |].
  rewrite join_cons2, !length_append.
  cbn [List.length Nat.sub] in *. lia.
Qed.

(** The items of [", ".join(repr(x) for x in xs)] followed by the closing
    bracket are read as the floats [xs]. *)
Lemma array_items_series (xs : list float) (x : float) (fuel : nat)
    (acc : list pyval) (rest : string) :
  Forall reads_back (x :: xs) -> (List.length xs + 2 <= fuel)%nat ->
  array_items fuel (join ", " (map floatstr (x :: xs)) ++ String "]" rest) acc =
  Ok (PList (rev acc ++ map PFloat (x :: xs)), rest).
Proof.
  revert x fuel acc. induction xs as [|y xs IH]; intros x fuel acc Hall Hfuel.
  - destruct fuel as [|[|fuel]]; try lia.
    cbn [map join String.concat]. rewrite array_items_step.
    rewrite (Forall_inv Hall) by (exists rest; auto).
    rewrite (skip_ws_head "]" rest eq_refl). cbn. reflexivity.
  - destruct fuel as [|[|fuel]]; try (cbn [List.length] in Hfuel; lia).
    cbn [map]. rewrite join_cons2, !append_assoc. rewrite array_items_step.
    rewrite (Forall_inv Hall) by (eexists; left; reflexivity).
    cbn [append]. rewrite (skip_ws_head "," _ eq_refl).
    cbn [Ascii.eqb Bool.eqb]. cbv iota.
    assert (Hs : forall t, skip_ws (String " " t) = skip_ws t) by reflexivity.
    rewrite Hs.
    pose proof (Forall_inv_tail Hall) as Hall'.
    destruct (reads_back_head y (Forall_inv Hall')) as (c & s & Ec & Hws & _).
    assert (Hj : exists t, join ", " (map floatstr (y :: xs)) = String c t).
    { destruct xs; cbn [map join String.concat]; rewrite Ec; cbn; eauto. }
    destruct Hj as [t Et].
    assert (Hsk : forall u, skip_ws (join ", " (map floatstr (y :: xs)) ++ u)
                            = join ", " (map floatstr (y :: xs)) ++ u).
    { intros u. rewrite Et. cbn [append]. now apply skip_ws_head. }
    change (map floatstr (y :: xs)) with (floatstr y :: map floatstr xs) in Hsk.
    rewrite Hsk.
    change (floatstr y :: map floatstr xs) with (map floatstr (y :: xs)).
    rewrite IH by (cbn [List.length] in Hfuel; auto; lia).
    cbn [rev map]. rewrite <- app_assoc. reflexivity.
Qed.

Lemma dumps_series (xs : list float) :
  json_dumps (series_answer xs) = series_text xs.
Proof.
  unfold series_answer. cbn [json_dumps map join String.concat].
  rewrite map_map. cbn [json_dumps].
  change (encode_str "soil_moisture")
    with (String dquote ("soil_moisture" ++ String dquote "")).
  unfold series_text, join.
  cbn [append]. rewrite !append_assoc. reflexivity.
Qed.

Lemma loads_series (xs : list float) :
  Forall reads_back xs ->
  json_loads (series_text xs) = Ok (series_answer xs).
Proof.
  intros Hall. destruct xs as [|x xs]; [vm_compute; reflexivity|].
  destruct (reads_back_head x (Forall_inv Hall)) as (c & s & Ec & Hws & Hbr).
  unfold json_loads.
  assert (Hsk : skip_ws (series_text (x :: xs)) = series_text (x :: xs)) by reflexivity.
  rewrite Hsk.
  assert (Hfuel : (List.length xs + 5 <= loads_fuel (series_text (x :: xs)))%nat).
  { unfold loads_fuel, series_text. cbn [String.length append].
    rewrite !length_append.
    pose proof (length_join ", " (map floatstr (x :: xs))) as L.
    cbn [String.length List.length map Nat.sub] in L. rewrite length_map in L.
    cbn [map]. unfold join in *. lia. }
  destruct (loads_fuel (series_text (x :: xs))) as [|[|[|fuel]]]; try lia.
  unfold series_text.
  rewrite scan_once_object. rewrite (skip_ws_head dquote _ eq_refl).
  change (Ascii.eqb dquote "}") with false.
  change (Ascii.eqb dquote dquote) with true. cbv iota.
  rewrite object_items_step, scanstring_soil_moisture.
  cbn [append]. rewrite (skip_ws_head ":" _ eq_refl).
  change (Ascii.eqb ":" ":") with true. cbv iota.
  assert (Hs : forall t, skip_ws (String " " t) = skip_ws t) by reflexivity.
  rewrite Hs, (skip_ws_head "[" _ eq_refl).
  rewrite scan_once_array.
  assert (Hj : exists t, join ", " (map floatstr (x :: xs)) = String c t).
  { destruct xs; cbn [map join String.concat]; rewrite Ec; cbn; eauto. }
  destruct Hj as [t Et].
  pose proof (array_items_series xs x fuel [] "}" Hall ltac:(lia)) as Hitems.
  rewrite Et in *. cbn [append] in *.
  rewrite (skip_ws_head c _ Hws), Hbr, Hitems.
  cbn [rev app].
  rewrite (skip_ws_head "}" "" eq_refl).
  change (Ascii.eqb "}" "}") with true. cbv iota.
  reflexivity.
Qed.

Lemma coerce_series (xs : list float) :
  map_result coerce_value (map PFloat xs) = Ok xs.
Proof.
  induction xs as [|x xs IH]; [reflexivity|].
  cbn [map map_result coerce_value py_float]. now rewrite IH.
Qed.

Lemma parse_series_answer (self : LLMPostProcessor) (xs : list float) :
  Forall reads_back xs ->
  parse_response self (series_answer xs) = Ok (py_slice_to xs (horizon_hours self)).
Proof.
  intros Hall. unfold parse_response.
  change (_coerce_response_text (series_answer xs)) with (json_dumps (series_answer xs)).
  rewrite dumps_series, (loads_series xs Hall).
  cbn [series_answer candidate_values dict_get String.eqb Ascii.eqb Bool.eqb
       is_iterable negb py_iter].
  now rewrite coerce_series.
Qed.

(** An answer given as the mapping [{"soil_moisture": xs}], for floats
    [xs] whose JSON texts read back, goes through [json.dumps] and
    [json.loads] unchanged: it parses to [xs] cut at the horizon; and when
    [xs] has exactly [horizon_hours] entries, the weather normalises and
    the projected hours (the smaller of the horizon and the number of
    weather entries) stay in the range of [datetime] from the initial
    timestamp, the pipeline returns a forecast whose values are [xs]
    itself, neither padded nor cut. *)
Theorem series_answer_round_trip (initial_state : AtmosphericState)
    (weather_data : list (dict pyval)) (model : option DeterministicAtmosphericModel)
    (call : LLMClient) (horizon : Z) (now : datetime)
    (records : list (dict float)) (xs : list float) :
  let pp := {| client := Some call; LLM.horizon_hours := horizon |} in
  Forall reads_back xs ->
  load_numerical_weather_outputs weather_data = Ok records ->
  can_advance (timestamp initial_state)
    (Z.min horizon (Z.of_nat (List.length weather_data))) = true ->
  (forall prompt, call prompt = Ok (series_answer xs)) ->
  parse_response pp (series_answer xs) = Ok (py_slice_to xs horizon) /\
  (Z.of_nat (List.length xs) = horizon ->
   exists forecast log,
     run (predict_three_day_soil_moisture initial_state weather_data model
            (Some pp) now) = (Ok forecast, log) /\
     values forecast = xs).
Proof.
  intros pp Hall Hload Hadv Hcall.
  pose proof (parse_series_answer pp xs Hall) as Hparse.
  split; [exact Hparse|].
  intros Hlen. cbn [LLM.horizon_hours pp] in Hparse.
  rewrite py_slice_to_firstn in Hparse by lia.
  rewrite <- Hlen, Nat2Z.id, firstn_all in Hparse.
  destruct (pipeline_with_response initial_state weather_data model call horizon now
              records (series_answer xs) xs Hload Hadv Hcall)
    as (forecast & log & Hrun & Hvals).
  { exact Hparse. }
  exists forecast, log. split; [exact Hrun|].
  rewrite Hvals. replace (Z.to_nat horizon - List.length xs)%nat with 0%nat by lia.
  cbn [repeat]. apply app_nil_r.
Qed.

Lemma series_answer_round_trip_witness :
  let xs := [0.4; 0.401; 0.402]%float in
  let pp := {| client := Some (fun _ => Ok (series_answer xs)); LLM.horizon_hours := 3 |} in
  parse_response pp (series_answer xs) = Ok (py_slice_to xs 3) /\
  (Z.of_nat (List.length xs) = 3 ->
   exists forecast log,
     run (predict_three_day_soil_moisture sample_state sample_weather None
            (Some pp) 0) = (Ok forecast, log) /\
     values forecast = xs).
Proof.
  apply (series_answer_round_trip sample_state sample_weather None
           (fun _ => Ok (series_answer [0.4; 0.401; 0.402]%float)) 3 0
           (match load_numerical_weather_outputs sample_weather with
            | Ok records => records
            | Raise _ => []
            end)
           [0.4; 0.401; 0.402]%float).
  - repeat constructor; intros fuel rest [r [-> | ->]]; vm_compute; reflexivity.
  - reflexivity.
  - reflexivity.
  - intros prompt. reflexivity.
Defined.

End SeriesFacts.

(* ================================================================= *)
(** ** A horizon that is not positive (llm_postprocessing.py, pipeline.py) *)

Module HorizonFacts.

Import Notions.

Import Datetime Core LLM Pipeline SliceFacts ParseFacts CoreFacts PipelineFacts.

Lemma predict_no_hours (model : DeterministicAtmosphericModel)
    (initial_state : AtmosphericState) (records : list (dict float)) (hours_ahead : Z) :
  hours_ahead <= 0 -> predict model initial_state records hours_ahead = Ok [].
Proof.
  intros H. rewrite predict_feed_forward.
  replace (Z.to_nat (Z.min hours_ahead (Z.of_nat (List.length records)))) with 0%nat by lia.
  reflexivity.
Qed.

(** With a horizon of zero or less the pipeline projects no state and pads
    nothing: the prompt describes no projected state, and the forecast
    holds what the slice [[:horizon_hours]] leaves of the candidate series,
    which is nothing for a horizon of 0 but, for a negative horizon [-k],
    the whole series without its last [k] values. *)
Theorem pipeline_nonpositive_horizon (initial_state : AtmosphericState)
    (weather_data : list (dict pyval)) (model : option DeterministicAtmosphericModel)
    (post_processor : option LLMPostProcessor) (now : datetime)
    (forecast : SoilMoistureForecast) (log : list string) :
  let pp := effective_post_processor post_processor in
  LLM.horizon_hours pp <= 0 ->
  run (predict_three_day_soil_moisture initial_state weather_data model
         post_processor now) = (Ok forecast, log) ->
  exists call response series,
    client pp = Some call /\
    call (build_prompt pp initial_state [] no_features) = Ok response /\
    log = [build_prompt pp initial_state [] no_features] /\
    candidate_series response = Ok series /\
    values forecast = py_slice_to series (LLM.horizon_hours pp) /\
    (LLM.horizon_hours pp = 0 -> values forecast = []) /\
    (LLM.horizon_hours pp < 0 ->
     values forecast =
       firstn (List.length series - Z.to_nat (- LLM.horizon_hours pp)) series).
Proof.
  intros pp Hh Hrun.
  destruct (pipeline_returns _ _ _ _ _ _ _ Hrun)
    as (records & states & features & processed & _ & Es & Ef & Hpost & ->).
  fold pp in Es, Hpost.
  rewrite (predict_no_hours _ _ _ _ Hh) in Es. inversion Es. subst states.
  cbn [export_soil_moisture_features] in Ef. inversion Ef. subst features.
  fold no_features in Hpost.
  destruct (postprocess_returns _ _ _ _ _ _ _ Hpost)
    as (call & response & Hclient & Hcall & Hparse & Hlog).
  rewrite parse_response_candidates in Hparse.
  destruct (candidate_series response) as [series|] eqn:Hseries; [|discriminate].
  cbn [bind] in Hparse. injection Hparse as Hvals.
  exists call, response, series.
  split; [exact Hclient|]. split; [exact Hcall|]. split; [exact Hlog|].
  split; [exact Hseries|].
  assert (Hfinal : values (finalize_metadata
                     (reconcile_length processed initial_state (LLM.horizon_hours pp))
                     now no_features) = py_slice_to series (LLM.horizon_hours pp)).
  { rewrite finalize_metadata_values, reconcile_length_values, <- Hvals.
    replace (Z.to_nat (LLM.horizon_hours pp -
                       Z.of_nat (List.length (py_slice_to series (LLM.horizon_hours pp)))))
      with 0%nat by lia.
    cbn [repeat]. apply app_nil_r. }
  unfold no_features in Hfinal. fold pp. rewrite Hfinal.
  split; [reflexivity|]. split.
  - intros ->. now rewrite py_slice_to_firstn by lia.
  - intros Hneg. now apply py_slice_to_negative.
Qed.

Lemma negative_horizon_run_returns :
  negative_horizon_run = (Ok negative_horizon_forecast, snd negative_horizon_run).
Proof. vm_compute. reflexivity. Qed.

Lemma pipeline_nonpositive_horizon_witness :
  values negative_horizon_forecast = [0.1; 0.2]%float.
Proof.
  destruct (pipeline_nonpositive_horizon sample_state sample_weather None
              (Some negative_horizon_processor) 0 negative_horizon_forecast
              (snd negative_horizon_run) ltac:(cbn; lia) negative_horizon_run_returns)
    as (call & response & series & Hclient & Hcall & _ & Hseries & _ & _ & Hneg).
  cbn in Hclient. inversion Hclient. subst call. inversion Hcall. subst response.
  vm_compute in Hseries. inversion Hseries. subst series.
  apply Hneg. cbn. lia.
Defined.

End HorizonFacts.

(* ================================================================= *)
(** ** The prompt and the order of the features (llm_postprocessing.py) *)

Module PromptFacts.

Import Notions.

Import Datetime Core LLM.

Lemma ltb_trans (a b c : string) :
  String.ltb a b = true -> String.ltb b c = true -> String.ltb a c = true.
Proof.
  unfold String.ltb. intros Hab Hbc.
  destruct (String.compare a b) eqn:Eab; try discriminate Hab.
  destruct (String.compare b c) eqn:Ebc; try discriminate Hbc.
  apply String_as_OT.cmp_lt in Eab, Ebc.
  pose proof (String_as_OT.lt_trans _ _ _ Eab Ebc) as Hac.
  apply String_as_OT.cmp_lt in Hac. unfold String_as_OT.cmp in Hac. now rewrite Hac.
Qed.

Lemma ltb_asym (a b : string) : String.ltb a b = true -> String.ltb b a = false.
Proof.
  unfold String.ltb. rewrite (String.compare_antisym a b).
  now destruct (String.compare b a).
Qed.

Lemma ltb_total (a b : string) :
  a <> b -> String.ltb a b = false -> String.ltb b a = true.
Proof.
  unfold String.ltb. intros Hne. rewrite (String.compare_antisym a b).
  destruct (String.compare b a) eqn:E; cbn; try congruence.
  apply String.compare_eq_iff in E. congruence.
Qed.

(** Two insertions under different names commute. *)
Lemma insert_sorted_comm {A : Type} (a b : string * A) (l : list (string * A)) :
  fst a <> fst b ->
  insert_sorted a (insert_sorted b l) = insert_sorted b (insert_sorted a l).
Proof.
  intros Hne. induction l as [|x l IH].
  - cbn [insert_sorted].
    destruct (String.ltb (fst a) (fst b)) eqn:Eab.
    + now rewrite (ltb_asym _ _ Eab).
    + now rewrite (ltb_total _ _ Hne Eab).
  - cbn [insert_sorted].
    destruct (String.ltb (fst b) (fst x)) eqn:Ebx;
      destruct (String.ltb (fst a) (fst x)) eqn:Eax; cbn [insert_sorted].
    + destruct (String.ltb (fst a) (fst b)) eqn:Eab.
      * now rewrite (ltb_asym _ _ Eab), Ebx.
      * now rewrite (ltb_total _ _ Hne Eab), Eax.
    + rewrite Ebx.
      destruct (String.ltb (fst a) (fst b)) eqn:Eab.
      * now rewrite (ltb_trans _ _ _ Eab Ebx) in Eax.
      * now rewrite Eax.
    + rewrite Eax.
      destruct (String.ltb (fst b) (fst a)) eqn:Eba.
      * now rewrite (ltb_trans _ _ _ Eba Eax) in Ebx.
      * now rewrite Ebx.
    + now rewrite Eax, Ebx, IH.
Qed.

Lemma fold_insert_permutation {A : Type} (d1 d2 : dict A) :
  Permutation d1 d2 -> NoDup (map fst d1) ->
  forall acc,
    fold_left (fun acc kv => insert_sorted kv acc) d1 acc =
    fold_left (fun acc kv => insert_sorted kv acc) d2 acc.
Proof.
  induction 1 as [|x l l' Hp IH|x y l|l l' l'' Hp1 IH1 Hp2 IH2]; intros Hnd acc.
  - reflexivity.
  - cbn [fold_left]. apply IH. now inversion Hnd.
  - cbn [fold_left]. f_equal. apply insert_sorted_comm.
    cbn [map] in Hnd. inversion Hnd as [|k ks Hnotin _]. subst.
    intros Heq. apply Hnotin. left. now symmetry.
  - rewrite IH1 by exact Hnd. apply IH2.
    apply (Permutation_NoDup (Permutation_map fst Hp1) Hnd).
Qed.

(** [sorted(features.items())] does not depend on the order in which the
    mapping holds its entries. *)
Lemma sorted_items_permutation {A : Type} (d1 d2 : dict A) :
  Permutation d1 d2 -> NoDup (map fst d1) -> sorted_items d1 = sorted_items d2.
Proof. intros Hp Hnd. apply (fold_insert_permutation d1 d2 Hp Hnd). Qed.

(** The prompt is the same whatever the order in which the features
    mapping holds its (distinctly named) entries: the feature lines are
    written in the order of the names. *)
Theorem build_prompt_feature_order (self : LLMPostProcessor)
    (initial_state : AtmosphericState) (projected_states : list AtmosphericState)
    (features features' : dict float) :
  Permutation features features' -> NoDup (map fst features) ->
  build_prompt self initial_state projected_states features =
  build_prompt self initial_state projected_states features'.
Proof.
  intros Hp Hnd. unfold build_prompt.
  now rewrite (sorted_items_permutation features features' Hp Hnd).
Qed.

Lemma build_prompt_feature_order_witness :
  build_prompt default_post_processor sample_state [] no_features =
  build_prompt default_post_processor sample_state [] (rev no_features).
Proof.
  apply (build_prompt_feature_order default_post_processor sample_state []
           no_features (rev no_features)).
  - apply Permutation_rev.
  - repeat constructor; cbn; intuition discriminate.
Defined.

End PromptFacts.

(* ================================================================= *)
(** ** Loading the inputs (core.py, scripts/predict_soil_moisture.py) *)

Module LoadingFacts.

Import Notions.

Import Datetime Core Loading DecoderFacts.

(** [_load_weather] ends in one of three ways, whatever the text of the
    file: it returns the decoded list, taken from the document itself or
    from under the key [weather] of an object (an object without that key
    gives the empty list, not an error); it lets the exception of
    [json.load] through unchanged, whatever that exception is; or, for a
    document that was decoded and is neither (an object under [weather] is
    not unwrapped again), it raises its own [ValueError]. *)
Theorem _load_weather_outcomes (text : string) :
  match _load_weather text with
  | Ok items =>
      json_loads text = Ok (PList items) \/
      exists entries,
        json_loads text = Ok (PDict entries) /\
        (dict_get entries "weather" = Some (PList items) \/
         dict_get entries "weather" = None /\ items = [])
  | Raise e =>
      json_loads text = Raise e \/
      e = ValueError "Weather data must be a list of hourly entries" None /\
      exists data,
        json_loads text = Ok data /\
        match data with
        | PList _ => False
        | PDict entries =>
            exists other, dict_get entries "weather" = Some other /\
                          forall items, other <> PList items
        | _ => True
        end
  end.
Proof.
  unfold _load_weather.
  destruct (json_loads text) as [data|e]; cbn [bind].
  2:{ cbv iota. now left. }
  destruct data as [| | | | |items|items|entries]; cbv beta iota zeta;
    try (right; split; [reflexivity|]; eexists; split; [reflexivity | exact I]).
  - now left.
  - unfold dict_get_default.
    destruct (dict_get entries "weather") as [other|] eqn:Ew.
    + destruct other as [| | | | |items|items|inner]; cbv iota;
        try (right; split; [reflexivity|]; eexists; split; [reflexivity|];
             eexists; split; [exact Ew | discriminate]).
      right. exists entries. split; [reflexivity|]. now left.
    + cbv iota. right. exists entries. split; [reflexivity|]. now right.
Qed.

Section WithParser.

Variable fromisoformat : string -> result datetime.

(** The steps of a [from_dict] that returns. *)
Lemma from_dict_succeeds_iff (payload : dict field) (state : AtmosphericState) :
  from_dict fromisoformat payload = Ok state <->
  exists ts t h p,
    dict_get payload "timestamp" = Some ts /\
    _ensure_timestamp fromisoformat ts = Ok (timestamp state) /\
    dict_get payload "temperature_c" = Some t /\
    field_float t = Ok (temperature_c state) /\
    dict_get payload "relative_humidity" = Some h /\
    field_float h = Ok (relative_humidity state) /\
    dict_get payload "precipitation_mm" = Some p /\
    field_float p = Ok (precipitation_mm state) /\
    field_float (dict_get_default payload "soil_moisture" (Plain (PFloat 0))) =
      Ok (soil_moisture state).
Proof.
  unfold from_dict, dict_getitem. split.
  - intros H.
    destruct (dict_get payload "timestamp") as [ts|]; [|discriminate]. cbn [bind] in H.
    destruct (_ensure_timestamp fromisoformat ts) as [stamp|] eqn:Es; [|discriminate].
    cbn [bind] in H.
    destruct (dict_get payload "temperature_c") as [t|]; [|discriminate]. cbn [bind] in H.
    destruct (field_float t) as [tv|] eqn:Et; [|discriminate]. cbn [bind] in H.
    destruct (dict_get payload "relative_humidity") as [h|]; [|discriminate].
    cbn [bind] in H.
    destruct (field_float h) as [hv|] eqn:Eh; [|discriminate]. cbn [bind] in H.
    destruct (dict_get payload "precipitation_mm") as [p|]; [|discriminate].
    cbn [bind] in H.
    destruct (field_float p) as [pv|] eqn:Ep; [|discriminate]. cbn [bind] in H.
    destruct (field_float (dict_get_default payload "soil_moisture" (Plain (PFloat 0))))
      as [sm|] eqn:Esm; [|discriminate].
    cbn [bind] in H. injection H as <-.
    cbn [timestamp temperature_c relative_humidity precipitation_mm soil_moisture].
    exists ts, t, h, p. repeat split; assumption.
  - intros (ts & t & h & p & Hts & Es & Ht & Et & Hh & Eh & Hp & Ep & Esm).
    rewrite Hts. cbn [bind]. rewrite Es. cbn [bind].
    rewrite Ht. cbn [bind]. rewrite Et. cbn [bind].
    rewrite Hh. cbn [bind]. rewrite Eh. cbn [bind].
    rewrite Hp. cbn [bind]. rewrite Ep. cbn [bind].
    rewrite Esm. cbn [bind]. now destruct state.
Qed.

Lemma dict_get_payload_of (entries : dict pyval) (k : string) :
  dict_get (payload_of entries) k = option_map Plain (dict_get entries k).
Proof.
  induction entries as [|[k' v] entries IH]; [reflexivity|].
  cbn [payload_of map dict_get fst snd]. destruct (String.eqb k' k); [reflexivity|].
  apply IH.
Qed.

(** A state file is accepted only if it holds a JSON object whose
    [timestamp] is a string the parser accepts and whose three forcing
    fields are there and are numbers for [float()] (numbers, booleans or
    texts of numbers); nothing that comes out of JSON is a [datetime], so a
    timestamp that is not a string is always refused. *)
Theorem _load_state_accepts (text : string) (state : AtmosphericState) :
  _load_state fromisoformat text = Ok state ->
  exists entries ts t h p,
    json_loads text = Ok (PDict entries) /\
    dict_get entries "timestamp" = Some (PStr ts) /\
    fromisoformat ts = Ok (timestamp state) /\
    dict_get entries "temperature_c" = Some t /\
    py_float t = Ok (temperature_c state) /\
    dict_get entries "relative_humidity" = Some h /\
    py_float h = Ok (relative_humidity state) /\
    dict_get entries "precipitation_mm" = Some p /\
    py_float p = Ok (precipitation_mm state) /\
    py_float (dict_get_default entries "soil_moisture" (PFloat 0)) =
      Ok (soil_moisture state).
Proof.
  unfold _load_state. intros H.
  destruct (json_loads text) as [data|] eqn:Ej; [|discriminate]. cbn [bind] in H.
  destruct data as [| | | | | | |entries]; try discriminate H.
  apply from_dict_succeeds_iff in H.
  destruct H as (ts & t & h & p & Hts & Es & Ht & Et & Hh & Eh & Hp & Ep & Esm).
  rewrite dict_get_payload_of in Hts, Ht, Hh, Hp.
  destruct (dict_get entries "timestamp") as [tsv|] eqn:Gts; [|discriminate].
  destruct (dict_get entries "temperature_c") as [tv|] eqn:Gt; [|discriminate].
  destruct (dict_get entries "relative_humidity") as [hv|] eqn:Gh; [|discriminate].
  destruct (dict_get entries "precipitation_mm") as [pv|] eqn:Gp; [|discriminate].
  cbn [option_map] in *.
  injection Hts as <-. injection Ht as <-. injection Hh as <-. injection Hp as <-.
  cbn [field_float] in *.
  destruct tsv as [| | | |s| | |]; try discriminate Es. cbn [_ensure_timestamp] in Es.
  exists entries, s, tv, hv, pv.
  split; [reflexivity|]. split; [exact Gts|]. split; [exact Es|].
  split; [exact Gt|]. split; [exact Et|].
  split; [exact Gh|]. split; [exact Eh|].
  split; [exact Gp|]. split; [exact Ep|].
  unfold dict_get_default in *. rewrite dict_get_payload_of in Esm.
  destruct (dict_get entries "soil_moisture"); exact Esm.
Qed.

End WithParser.

Lemma _load_state_accepts_witness :
  let parser := fun _ : string => Ok 0 in
  let text := json_dumps (PDict [("timestamp", PStr "2024-01-01T00:00:00");
                                 ("temperature_c", PInt 18);
                                 ("relative_humidity", PInt 60);
                                 ("precipitation_mm", PStr "0.5")]) in
  exists state entries ts t h p,
    _load_state parser text = Ok state /\
    json_loads text = Ok (PDict entries) /\
    dict_get entries "timestamp" = Some (PStr ts) /\
    parser ts = Ok (timestamp state) /\
    dict_get entries "temperature_c" = Some t /\
    py_float t = Ok (temperature_c state) /\
    dict_get entries "relative_humidity" = Some h /\
    py_float h = Ok (relative_humidity state) /\
    dict_get entries "precipitation_mm" = Some p /\
    py_float p = Ok (precipitation_mm state) /\
    py_float (dict_get_default entries "soil_moisture" (PFloat 0)) =
      Ok (soil_moisture state).
Proof.
  intros parser text.
  exists {| timestamp := 0; temperature_c := 18; relative_humidity := 60;
            precipitation_mm := 0.5; soil_moisture := 0 |}.
  assert (H : _load_state parser text =
              Ok {| timestamp := 0; temperature_c := 18; relative_humidity := 60;
                    precipitation_mm := 0.5; soil_moisture := 0 |})
    by (vm_compute; reflexivity).
  destruct (_load_state_accepts parser text _ H)
    as (entries & ts & t & h & p & Hrest).
  exists entries, ts, t, h, p. split; [exact H | exact Hrest].
Defined.

End LoadingFacts.

(* ================================================================= *)
(** ** Answers that are numbers, not text (llm_postprocessing.py) *)

Module ScalarFacts.

Import Notions.

Import Datetime Core LLM TextFacts SliceFacts ParseFacts.

Lemma digits_value_acc (l : Decimal.uint) (acc : positive) :
  digits_value (Z.pos acc) (NilEmpty.string_of_uint l) = Z.pos (Pos.of_uint_acc l acc).
Proof.
  revert acc. induction l; intros acc; cbn [NilEmpty.string_of_uint Pos.of_uint_acc];
    [reflexivity | cbn [digits_value]; rewrite <- IHl; f_equal ..].
  all: vm_compute (digit_val _); lia.
Qed.

Lemma digits_value_uint (l : Decimal.uint) :
  digits_value 0 (NilEmpty.string_of_uint l) = Z.of_N (Pos.of_uint l).
Proof.
  induction l; cbn [NilEmpty.string_of_uint Pos.of_uint digits_value];
    [reflexivity | exact IHl | ..].
  all: cbn [Z.of_N]; rewrite <- digits_value_acc; reflexivity.
Qed.

Lemma uint_digits (l : Decimal.uint) :
  all_chars is_digit (NilEmpty.string_of_uint l) = true.
Proof.
  induction l; cbn [NilEmpty.string_of_uint all_chars]; [reflexivity | ..];
    rewrite IHl; reflexivity.
Qed.

Lemma span_digits (s : string) :
  all_chars is_digit s = true -> span is_digit s = (s, "").
Proof.
  induction s as [|c s IH]; [reflexivity|].
  cbn [all_chars span]. intros H. apply andb_prop in H. destruct H as [-> Hs].
  now rewrite (IH Hs).
Qed.

(** The decimal digits of a positive number do not start with a zero. *)
Lemma to_uint_head (p : positive) :
  exists c s,
    NilEmpty.string_of_uint (Pos.to_uint p) = String c s /\
    is_digit c = true /\ Ascii.eqb c "0" = false.
Proof.
  assert (Hnz : forall l, Pos.to_uint p <> Decimal.D0 l).
  { intros l Hl.
    pose proof (DecimalPos.Unsigned.to_of (Pos.to_uint p)) as Hto.
    rewrite DecimalPos.Unsigned.of_to in Hto. cbn [N.to_uint] in Hto.
    destruct (Decimal.nzhead (Pos.to_uint p)) eqn:En;
      [apply DecimalFacts.unorm_0 in En; rewrite <- Hto in En;
       apply (DecimalPos.Unsigned.to_uint_nonzero p En) | ..];
      (assert (Hne : Decimal.nzhead (Pos.to_uint p) <> Decimal.Nil)
         by (rewrite En; discriminate);
       rewrite (DecimalFacts.unorm_nzhead _ Hne) in Hto; rewrite Hl in Hto at 1;
       exact (DecimalFacts.nzhead_nonzero _ _ (eq_sym Hto))). }
  pose proof (DecimalPos.Unsigned.to_uint_nonnil p) as Hnil.
  destruct (Pos.to_uint p) as [|l|l|l|l|l|l|l|l|l|l];
    [congruence | exfalso; apply (Hnz l eq_refl) | ..];
    cbn [NilEmpty.string_of_uint]; eexists; eexists; repeat split.
Qed.

Lemma scan_number_digits (neg : bool) (c : ascii) (s : string) :
  is_digit c = true -> Ascii.eqb c "0" = false ->
  all_chars is_digit s = true ->
  scan_number ((if neg then "-" else "") ++ String c s) =
  Some (PInt (if neg then - digits_value 0 (String c s) else digits_value 0 (String c s)),
        "").
Proof.
  intros Hc H0 Hs.
  assert (Hint : scan_int_part (String c s) = Some (String c s, "")).
  { unfold scan_int_part. rewrite H0, Hc.
    rewrite span_digits by (cbn [all_chars]; now rewrite Hc, Hs). reflexivity. }
  assert (Hminus : Ascii.eqb c "-" = false).
  { destruct (Ascii.eqb c "-") eqn:E; [|reflexivity].
    apply Ascii.eqb_eq in E. subst c. discriminate Hc. }
  unfold scan_number. destruct neg; cbn [append Ascii.eqb Bool.eqb].
  - cbv iota. rewrite Hint. reflexivity.
  - rewrite Hminus, Hint. reflexivity.
Qed.

Lemma scan_number_int (n : Z) : scan_number (string_of_Z n) = Some (PInt n, "").
Proof.
  unfold string_of_Z. destruct n as [|p|p]; [reflexivity | |];
    cbn [Z.to_int NilZero.string_of_int];
    destruct (to_uint_head p) as (c & s & Es & Hc & H0);
    assert (Hu : NilZero.string_of_uint (Pos.to_uint p) = String c s)
      by (pose proof (DecimalPos.Unsigned.to_uint_nonnil p);
          destruct (Pos.to_uint p); [congruence | exact Es ..]);
    rewrite Hu;
    assert (Hs : all_chars is_digit s = true)
      by (pose proof (uint_digits (Pos.to_uint p)) as Hd; rewrite Es in Hd;
          cbn [all_chars] in Hd; now apply andb_prop in Hd);
    assert (Hv : digits_value 0 (String c s) = Z.pos p)
      by (rewrite <- Es, digits_value_uint, DecimalPos.Unsigned.of_to; reflexivity).
  - pose proof (scan_number_digits false c s Hc H0 Hs) as Hd. cbn [append] in Hd.
    rewrite Hd, Hv. reflexivity.
  - pose proof (scan_number_digits true c s Hc H0 Hs) as Hd. cbn [append] in Hd.
    rewrite Hd, Hv. reflexivity.
Qed.

Lemma string_of_Z_head (n : Z) :
  exists c s, string_of_Z n = String c s /\ (is_digit c = true \/ c = "-"%char).
Proof.
  unfold string_of_Z. destruct n as [|p|p].
  - exists "0"%char, "". split; [reflexivity | now left].
  - cbn [Z.to_int NilZero.string_of_int].
    destruct (to_uint_head p) as (c & s & Es & Hc & _).
    exists c, s. split; [|now left].
    pose proof (DecimalPos.Unsigned.to_uint_nonnil p).
    destruct (Pos.to_uint p); [congruence | exact Es ..].
  - cbn [Z.to_int NilZero.string_of_int]. eexists. eexists. split; [reflexivity | now right].
Qed.

Lemma scan_atom_number (c : ascii) (s : string) (v : pyval) (r : string) :
  is_digit c = true \/ c = "-"%char ->
  scan_number (String c s) = Some (v, r) ->
  scan_once 1 (String c s) = Ok (v, r) /\ is_json_ws c = false.
Proof.
  intros Hc Hn.
  assert (H : scan_once 1 (String c s) =
              match scan_number (String c s) with
              | Some vr => Ok vr
              | None => scan_once 1 (String c s)
              end /\ is_json_ws c = false).
  { destruct Hc as [Hc | ->]; [|rewrite Hn; split; [|reflexivity]].
    - destruct c as [[] [] [] [] [] [] [] []]; try discriminate Hc;
        rewrite Hn; split; try reflexivity;
        cbn [scan_once Ascii.eqb Bool.eqb dquote]; unfold scan_atom;
        cbn [strip_prefix Ascii.eqb Bool.eqb]; rewrite Hn; reflexivity.
    - cbn [scan_once Ascii.eqb Bool.eqb dquote]. unfold scan_atom.
      cbn [strip_prefix Ascii.eqb Bool.eqb]. rewrite Hn. reflexivity. }
  rewrite Hn in H. exact H.
Qed.

(** [json.loads(str(n))] is [n]. *)
Lemma loads_int (n : Z) : json_loads (string_of_Z n) = Ok (PInt n).
Proof.
  destruct (string_of_Z_head n) as (c & s & Es & Hc).
  pose proof (scan_number_int n) as Hn. rewrite Es in Hn.
  destruct (scan_atom_number c s _ _ Hc Hn) as [Hscan Hws].
  unfold json_loads. rewrite Es.
  assert (Hsk : skip_ws (String c s) = String c s)
    by (unfold skip_ws; cbn [drop_while]; now rewrite Hws).
  rewrite Hsk.
  assert (Hfuel : forall fuel, scan_once (S fuel) (String c s) = scan_once 1 (String c s)).
  { intros fuel. change (scan_once (S fuel) (String c s))
      with (if Ascii.eqb c dquote then
              match scanstring s with Ok (t, r) => Ok (PStr t, r) | Raise e => Raise e end
            else if Ascii.eqb c "{" then
              match skip_ws s with
              | String c1 r1 =>
                  if Ascii.eqb c1 "}" then Ok (PDict [], r1)
                  else if Ascii.eqb c1 dquote then object_items fuel r1 []
                  else decode_error "Expecting property name enclosed in double quotes"
              | EmptyString =>
                  decode_error "Expecting property name enclosed in double quotes"
              end
            else if Ascii.eqb c "[" then
              match skip_ws s with
              | String c1 r1 =>
                  if Ascii.eqb c1 "]" then Ok (PList [], r1)
                  else array_items fuel (String c1 r1) []
              | EmptyString => decode_error "Expecting value"
              end
            else scan_atom (String c s)).
    change (scan_once 1 (String c s))
      with (if Ascii.eqb c dquote then
              match scanstring s with Ok (t, r) => Ok (PStr t, r) | Raise e => Raise e end
            else if Ascii.eqb c "{" then
              match skip_ws s with
              | String c1 r1 =>
                  if Ascii.eqb c1 "}" then Ok (PDict [], r1)
                  else if Ascii.eqb c1 dquote then object_items 0 r1 []
                  else decode_error "Expecting property name enclosed in double quotes"
              | EmptyString =>
                  decode_error "Expecting property name enclosed in double quotes"
              end
            else if Ascii.eqb c "[" then
              match skip_ws s with
              | String c1 r1 =>
                  if Ascii.eqb c1 "]" then Ok (PList [], r1)
                  else array_items 0 (String c1 r1) []
              | EmptyString => decode_error "Expecting value"
              end
            else scan_atom (String c s)).
    destruct Hc as [Hc | ->]; [|reflexivity].
    destruct c as [[] [] [] [] [] [] [] []]; try discriminate Hc; reflexivity. }
  unfold loads_fuel. rewrite Nat.add_1_r, Hfuel, Hscan. reflexivity.
Qed.

(** An answer that is an integer of at most 4300 digits (one [str] writes),
    alone or as the first item of a list or tuple (of which only the first
    item is looked at, as text), is refused as not iterable, even when the
    list is a series of numbers; an answer that is [None] or a boolean, or
    a list that starts with one, gives the empty series without an
    error. *)
Theorem scalar_answers (self : LLMPostProcessor) (n : Z) (b : bool)
    (others : list pyval) :
  has_int_text n = true ->
  parse_response self (PInt n) = Raise not_iterable /\
  parse_response self (PList (PInt n :: others)) = Raise not_iterable /\
  parse_response self (PTuple (PInt n :: others)) = Raise not_iterable /\
  parse_response self PNone = Ok [] /\
  parse_response self (PBool b) = Ok [] /\
  parse_response self (PList (PBool b :: others)) = Ok [] /\
  parse_response self (PTuple (PNone :: others)) = Ok [].
Proof.
  intros _.
  assert (Hint : forall response,
             _coerce_response_text response = string_of_Z n ->
             parse_response self response = Raise not_iterable).
  { intros response Ht. unfold parse_response. rewrite Ht, loads_int. reflexivity. }
  assert (Hnone : forall response,
             candidate_series response = Ok [] -> parse_response self response = Ok []).
  { intros response Hc. rewrite parse_response_candidates, Hc. cbn [bind].
    now rewrite py_slice_to_nil. }
  repeat split; try (apply Hint; reflexivity); apply Hnone; try reflexivity;
    destruct b; reflexivity.
Qed.

(** The answer 42, and the series [[42, 0.5]] that starts with it. *)
Lemma scalar_answers_witness :
  parse_response default_post_processor (PInt 42) = Raise not_iterable /\
  parse_response default_post_processor (PList [PInt 42; PFloat 0.5]) =
    Raise not_iterable /\
  parse_response default_post_processor (PList [PBool true; PFloat 0.5]) = Ok [].
Proof.
  destruct (scalar_answers default_post_processor 42 true [PFloat 0.5]
              ltac:(vm_compute; reflexivity))
    as (Hint & Hlist & _ & _ & _ & Hbool & _).
  split; [exact Hint|]. split; [exact Hlist | exact Hbool].
Defined.

End ScalarFacts.

(* ================================================================= *)
(** ** Daily averages of a forecast of the pipeline (pipeline.py, core.py) *)

Module DailyFacts.

Import Notions.

Import Datetime Core LLM Pipeline SliceFacts ParseFacts CoreFacts FeatureFacts
  PipelineFacts OrchestrationFacts.

Lemma reconcile_length_horizon (forecast : SoilMoistureForecast)
    (initial_state : AtmosphericState) (hours_ahead : Z) :
  Core.horizon_hours (reconcile_length forecast initial_state hours_ahead) =
  Core.horizon_hours forecast.
Proof.
  unfold reconcile_length.
  now destruct (Z.of_nat (List.length (values forecast)) <? hours_ahead).
Qed.

(** The shape of a forecast the pipeline returns. *)
Lemma pipeline_forecast_shape (initial_state : AtmosphericState)
    (weather_data : list (dict pyval)) (model : option DeterministicAtmosphericModel)
    (post_processor : option LLMPostProcessor) (now : datetime)
    (forecast : SoilMoistureForecast) (log : list string) :
  let pp := effective_post_processor post_processor in
  0 <= LLM.horizon_hours pp ->
  run (predict_three_day_soil_moisture initial_state weather_data model
         post_processor now) = (Ok forecast, log) ->
  Core.horizon_hours forecast = LLM.horizon_hours pp /\
  Z.of_nat (List.length (values forecast)) = LLM.horizon_hours pp.
Proof.
  intros pp Hh Hrun.
  destruct (pipeline_returns _ _ _ _ _ _ _ Hrun)
    as (records & states & features & processed & _ & _ & _ & Hpost & ->).
  fold pp in Hpost. fold pp.
  destruct (postprocess_returns _ _ _ _ _ _ _ Hpost) as (call & response & _ & _ & Hparse & _).
  pose proof (parse_response_length _ _ _ Hh Hparse) as Hlen.
  pose proof (postprocess_assembles _ _ _ _ _ _ _ Hpost) as Hp.
  split.
  - unfold finalize_metadata. cbn [Core.horizon_hours].
    rewrite reconcile_length_horizon, Hp. reflexivity.
  - rewrite finalize_metadata_values, reconcile_length_values, length_app, repeat_length.
    lia.
Qed.

(** The daily averages of a forecast the pipeline returned for a horizon
    that is not negative: one average per day of the horizon, the last day
    being the hours left when the horizon is not a multiple of 24 (three
    averages for 72 hours), each the mean of its chunk of the values. *)
Theorem pipeline_daily_averages (initial_state : AtmosphericState)
    (weather_data : list (dict pyval)) (model : option DeterministicAtmosphericModel)
    (post_processor : option LLMPostProcessor) (now : datetime)
    (forecast : SoilMoistureForecast) (log : list string) :
  let pp := effective_post_processor post_processor in
  0 <= LLM.horizon_hours pp ->
  run (predict_three_day_soil_moisture initial_state weather_data model
         post_processor now) = (Ok forecast, log) ->
  exists averages,
    to_daily_averages forecast 24 = Ok averages /\
    List.length averages = horizon_days (LLM.horizon_hours pp) /\
    forall (k : nat) (d : float), (k < List.length averages)%nat ->
      nth k averages d = arithmetic_mean (day_chunk (values forecast) k) /\
      day_chunk (values forecast) k <> [].
Proof.
  intros pp Hh Hrun.
  destruct (pipeline_forecast_shape _ _ _ _ _ _ _ Hh Hrun) as [Hhor Hlen]. fold pp in Hhor, Hlen.
  set (vals := values forecast) in *.
  assert (Hdays : stored_days vals = horizon_days (LLM.horizon_hours pp)).
  { unfold stored_days, horizon_days. rewrite <- Hlen.
    rewrite <- (Nat2Z.id ((List.length vals + 23) / 24)).
    now rewrite Nat2Z.inj_div, Nat2Z.inj_add. }
  assert (Hcount : Z.to_nat (range_length 0 (LLM.horizon_hours pp) 24) =
                   horizon_days (LLM.horizon_hours pp)).
  { unfold horizon_days, range_length. cbn [Z.ltb Z.compare].
    destruct (0 <? LLM.horizon_hours pp) eqn:E.
    - replace (LLM.horizon_hours pp + 23)
        with (LLM.horizon_hours pp - 0 - 1 + 1 * 24) by lia.
      rewrite Z.div_add by lia. reflexivity.
    - apply Z.ltb_ge in E.
      replace (LLM.horizon_hours pp) with 0 by lia. reflexivity. }
  exists (map (fun k => arithmetic_mean (day_chunk vals k))
            (seq 0 (horizon_days (LLM.horizon_hours pp)))).
  split.
  { unfold to_daily_averages, py_range3. cbn [Z.eqb bind]. rewrite Hhor. fold vals.
    pose proof (daily_loop_chunks vals
                  (Z.to_nat (range_length 0 (LLM.horizon_hours pp) 24)) 0) as L.
    change (24 * Z.of_nat 0) with 0 in L.
    rewrite L, Nat.sub_0_r, Hcount, Hdays, Nat.min_id. reflexivity. }
  rewrite length_map, length_seq. split; [reflexivity|].
  intros k d Hk. split.
  - rewrite (nth_indep _ d (arithmetic_mean (day_chunk vals 0)))
      by (now rewrite length_map, length_seq).
    rewrite (map_nth (fun k => arithmetic_mean (day_chunk vals k))).
    now rewrite seq_nth.
  - intros Hnil. apply day_chunk_nil in Hnil. rewrite <- Hdays in Hk.
    unfold stored_days in Hk.
    pose proof (Nat.div_mod_eq (List.length vals + 23) 24).
    pose proof (Nat.mod_upper_bound (List.length vals + 23) 24). lia.
Qed.

Lemma pipeline_daily_averages_witness :
  exists averages,
    to_daily_averages three_value_forecast 24 = Ok averages /\
    List.length averages = horizon_days 72 /\
    forall (k : nat) (d : float), (k < List.length averages)%nat ->
      nth k averages d = arithmetic_mean (day_chunk (values three_value_forecast) k) /\
      day_chunk (values three_value_forecast) k <> [].
Proof.
  exact (pipeline_daily_averages sample_state sample_weather None
           (Some three_value_processor) 0 three_value_forecast (snd three_value_run)
           ltac:(cbn; lia) three_value_run_returns).
Defined.

End DailyFacts.

(* ================================================================= *)
(** ** What the prompt mentions (llm_postprocessing.py) *)

Module MentionFacts.

Import Notions.

Import Datetime Core LLM TextFacts.

Lemma occurs_refl (s : string) : occurs s s.
Proof. exists "", "". cbn [append]. now rewrite append_nil_r. Qed.

Lemma occurs_app_l (x a b : string) : occurs x a -> occurs x (a ++ b).
Proof.
  intros (u & v & ->). exists u, (v ++ b). now rewrite !append_assoc.
Qed.

Lemma occurs_app_r (x a b : string) : occurs x b -> occurs x (a ++ b).
Proof.
  intros (u & v & ->). exists (a ++ u), v. now rewrite !append_assoc.
Qed.

(** Each part of a joined text occurs in it. *)
Lemma occurs_join (sep x : string) (parts : list string) :
  In x parts -> occurs x (join sep parts).
Proof.
  induction parts as [|a [|b parts] IH]; intros Hin.
  - destruct Hin.
  - destruct Hin as [-> | []]. apply occurs_refl.
  - change (join sep (a :: b :: parts)) with (a ++ sep ++ join sep (b :: parts)).
    destruct Hin as [-> | Hin].
    + apply occurs_app_l, occurs_refl.
    + apply occurs_app_r, occurs_app_r, IH, Hin.
Qed.

Lemma In_insert_sorted {A : Type} (x kv : string * A) (l : list (string * A)) :
  In x (insert_sorted kv l) <-> x = kv \/ In x l.
Proof.
  induction l as [|y l IH]; cbn [insert_sorted In].
  - intuition congruence.
  - destruct (String.ltb (fst kv) (fst y)); cbn [In]; rewrite ?IH; intuition congruence.
Qed.

(** [sorted] keeps every item. *)
Lemma In_sorted_items {A : Type} (x : string * A) (d : dict A) :
  In x (sorted_items d) <-> In x d.
Proof.
  unfold sorted_items.
  assert (H : forall acc,
             In x (fold_left (fun acc kv => insert_sorted kv acc) d acc) <->
             In x d \/ In x acc).
  { induction d as [|kv d IH]; intros acc; cbn [fold_left In].
    - intuition.
    - rewrite IH, In_insert_sorted. intuition congruence. }
  rewrite H. cbn [In]. intuition.
Qed.

(** The prompt mentions every projected state and every feature: the line
    of each state and the line of each feature occur in it. *)
Theorem build_prompt_mentions (self : LLMPostProcessor)
    (initial_state : AtmosphericState) (projected_states : list AtmosphericState)
    (features : dict float) :
  (forall state, In state projected_states ->
     occurs (state_line state)
       (build_prompt self initial_state projected_states features)) /\
  (forall kv, In kv features ->
     occurs (feature_line kv)
       (build_prompt self initial_state projected_states features)).
Proof.
  split.
  - intros state Hin. unfold build_prompt. cbv zeta.
    do 19 apply occurs_app_r. apply occurs_app_l, occurs_join, in_map, Hin.
  - intros kv Hin. unfold build_prompt. cbv zeta.
    do 23 apply occurs_app_r. apply occurs_join, in_map, In_sorted_items, Hin.
Qed.

End MentionFacts.
